(** * A2A sample agents: the task manager, the activity tracker and the
      calendar agent

    Shallow embedding of
    - [samples/python/agents/google_adk/task_manager.py] ([AgentTaskManager]),
    - [samples/python/agents/google_adk/agent.py] ([ActivityTrackerAgent]),
    - [samples/python/agents/langgraph/agent.py] ([CalendarAgent]),
    followed by the properties of the task lifecycle stated in the
    specification and by further properties of the three modules. *)

From Stdlib Require Import String Ascii ZArith List Bool Lia.
From stdpp Require Import gmap strings.

Local Open Scope string_scope.
Local Open Scope list_scope.
Set Warnings "-register-all".

(** ** Python values and exceptions *)

(** Exceptions the modelled code can see.  [ExternalError] stands for
    whatever a collaborator (the LLM runner, the Google client, the JSON
    decoder) raises; it carries the text Python's [str(e)] would give. *)
Inductive PyExc : Type :=
| ValueError (msg : string)
| KeyError (key : string)
| IndexError
| TypeError
| AttributeError
| UnboundLocalError (name : string)
| ExternalError (msg : string).

(** Result of running a piece of Python code: a value or a raised exception. *)
Inductive Outcome (A : Type) : Type :=
| Returned (a : A)
| Raised (e : PyExc).
Arguments Returned {A} a.
Arguments Raised {A} e.

Definition obind {A B} (o : Outcome A) (f : A -> Outcome B) : Outcome B :=
  match o with
  | Returned a => f a
  | Raised e => Raised e
  end.

(** The values a Python mapping coming from a model dump or from JSON can
    hold (numbers are integers here; nothing below reads one).  A [dict]
    is kept as an association list read at its first matching key. *)
Inductive PyVal : Type :=
| PyNone
| PyBool (b : bool)
| PyInt (n : Z)
| PyStr (s : string)
| PyList (items : list PyVal)
| PyDict (entries : list (string * PyVal)).

Definition PyMapping : Type := list (string * PyVal).

(** [d.get(key)] on the entries of a dict. *)
Fixpoint dict_get (d : PyMapping) (key : string) : option PyVal :=
  match d with
  | [] => None
  | (k, v) :: rest => if String.eqb k key then Some v else dict_get rest key
  end.

(** [key in d] for a dict. *)
Definition dict_has (d : PyMapping) (key : string) : bool :=
  match dict_get d key with Some _ => true | None => false end.

(** [d[key]] for a dict. *)
Definition dict_getitem (d : PyMapping) (key : string) : Outcome PyVal :=
  match dict_get d key with
  | Some v => Returned v
  | None => Raised (KeyError key)
  end.

(** ** Strings: [str.__contains__] and [str.lower] *)

(** [starts_with p s]: [s.startswith(p)]. *)
Fixpoint starts_with (p s : string) : bool :=
  match p with
  | EmptyString => true
  | String a p' =>
      match s with
      | EmptyString => false
      | String b s' => Ascii.eqb a b && starts_with p' s'
      end
  end.

(** [str_contains needle hay]: the Python test [needle in hay] on strings. *)
Fixpoint str_contains (needle hay : string) : bool :=
  starts_with needle hay ||
  match hay with
  | EmptyString => false
  | String _ hay' => str_contains needle hay'
  end.

(** The relation [str_contains] decides: [needle] occurs in [hay]. *)
Definition Substring (needle hay : string) : Prop :=
  exists pre post, hay = String.append pre (String.append needle post).

(** A Python [str] is held as its UTF-8 encoding, one [ascii] per byte: an
    ASCII character is one byte below 128, and every byte of another
    character is 128 or more, so that an ASCII phrase occurs in a text
    exactly when its bytes occur in the text's bytes. *)

(** [str.lower] on an ASCII character: the letters A-Z move to a-z. *)
Definition lower_ascii (c : ascii) : ascii :=
  let n := nat_of_ascii c in
  if (65 <=? n)%nat && (n <=? 90)%nat then ascii_of_nat (n + 32) else c.

(** The byte [c] has the value [n]. *)
Definition is_byte (n : nat) (c : ascii) : bool := (nat_of_ascii c =? n)%nat.

(** [str.lower], as far as the ASCII characters of its result go.  Two
    characters outside ASCII have an ASCII character in their lower-case
    form, and no other has: U+212A KELVIN SIGN (bytes 226 132 170) becomes
    [k], and U+0130 LATIN CAPITAL LETTER I WITH DOT ABOVE (bytes 196 176)
    becomes [i] followed by U+0307 (bytes 204 135).  Every other character
    outside ASCII is kept; [str.lower] may put another character outside
    ASCII in its place, which no test for an ASCII phrase can tell. *)
Fixpoint lower (s : string) : string :=
  match s with
  | EmptyString => EmptyString
  | String c1 s1 =>
      match s1 with
      | String c2 s2 =>
          if is_byte 196 c1 && is_byte 176 c2 then
            String "i"
              (String (ascii_of_nat 204) (String (ascii_of_nat 135) (lower s2)))
          else
            match s2 with
            | String c3 s3 =>
                if is_byte 226 c1 && is_byte 132 c2 && is_byte 170 c3
                then String "k" (lower s3)
                else String (lower_ascii c1) (lower s1)
            | EmptyString => String (lower_ascii c1) (lower s1)
            end
      | EmptyString => String (lower_ascii c1) EmptyString
      end
  end.

(** The bytes a lower-case ASCII phrase is made of: below 128 and not an
    upper-case letter. *)
Definition plain_byte (c : ascii) : bool :=
  let n := nat_of_ascii c in
  (n <? 128)%nat && negb ((65 <=? n)%nat && (n <=? 90)%nat).

Fixpoint plain (p : string) : bool :=
  match p with
  | EmptyString => true
  | String c p' => plain_byte c && plain p'
  end.

(** The Python operator [key in container] where [container] is any value:
    key membership for a dict, substring for a string, element equality for
    a list; other values are not containers. *)
Definition py_contains (container : PyVal) (key : string) : Outcome bool :=
  match container with
  | PyDict d => Returned (dict_has d key)
  | PyStr s => Returned (str_contains key s)
  | PyList l =>
      Returned (existsb (fun v => match v with
                                  | PyStr s => String.eqb s key
                                  | _ => false
                                  end) l)
  | _ => Raised TypeError
  end.

(** The Python subscript [container[key]] with a string key. *)
Definition py_getitem (container : PyVal) (key : string) : Outcome PyVal :=
  match container with
  | PyDict d => dict_getitem d key
  | _ => Raised TypeError
  end.

(** ** Stateful code that may raise *)

(** A computation over a mutable state [S]: it returns or raises, and a
    raise keeps the state reached so far (nothing is rolled back). *)
Definition StateExc (S A : Type) : Type := S -> S * Outcome A.

Definition ret {S A} (a : A) : StateExc S A := fun s => (s, Returned a).
Definition raise {S A} (e : PyExc) : StateExc S A := fun s => (s, Raised e).
Definition bind {S A B} (m : StateExc S A) (f : A -> StateExc S B)
  : StateExc S B :=
  fun s =>
    match m s with
    | (s', Returned a) => f a s'
    | (s', Raised e) => (s', Raised e)
    end.
(** [try: m except Exception as e: handler e] *)
Definition try_except {S A} (m : StateExc S A) (handler : PyExc -> StateExc S A)
  : StateExc S A :=
  fun s =>
    match m s with
    | (s', Returned a) => (s', Returned a)
    | (s', Raised e) => handler e s'
    end.
Definition lift {S A} (o : Outcome A) : StateExc S A := fun s => (s, o).
Definition get_state {S} : StateExc S S := fun s => (s, Returned s).
Definition put_state {S} (s : S) : StateExc S unit := fun _ => (s, Returned tt).

Declare Scope py_scope.
Delimit Scope py_scope with py.
Notation "x <- m ;; k" := (bind m (fun x => k))
  (at level 100, m at next level, right associativity) : py_scope.
Notation "m ;;; k" := (bind m (fun _ => k))
  (at level 100, right associativity) : py_scope.
Notation "x <~ o ;; k" := (obind o (fun x => k))
  (at level 100, o at next level, right associativity) : py_scope.
Local Open Scope py_scope.

(** ** The protocol types ([common.types]) *)

(** Modelled from the spec: the type declarations of [common.types], which
    are not part of the sources.  The records carry the fields the data
    model of the specification lists and the task manager reads and
    writes. *)
Inductive TaskState : Type :=
| SUBMITTED | WORKING | INPUT_REQUIRED | COMPLETED | CANCELED | FAILED | UNKNOWN.

Inductive Part : Type :=
| TextPart (text : string)
| FilePart (file : PyVal)
| DataPart (data : PyVal).

Inductive Role : Type := user | agent.

Record Message : Type := mkMessage {
  role : Role;
  msg_parts : list Part
}.

Record TaskStatus : Type := mkTaskStatus {
  state : TaskState;
  message : option Message
}.

Record Artifact : Type := mkArtifact {
  art_parts : list Part;
  index : Z;
  append : option bool
}.

(** Modelled from the spec: [Artifact(parts=parts)], whose remaining fields
    take the defaults of the type declaration; the artifact is taken to
    have index 0 and no append flag. *)
Definition Artifact_from_parts (parts : list Part) : Artifact :=
  mkArtifact parts 0 None.

Record Task : Type := mkTask {
  t_id : string;
  t_sessionId : string;
  status : TaskStatus;
  artifacts : option (list Artifact)
}.

Record PushNotificationConfig : Type := mkPushNotificationConfig {
  url : string;
  authentication : option string
}.

Record TaskSendParams : Type := mkTaskSendParams {
  param_id : string;
  sessionId : string;
  param_message : Message;
  acceptedOutputModes : list string;
  pushNotification : option PushNotificationConfig
}.

(** [SendTaskRequest] and [SendTaskStreamingRequest] have the same shape. *)
Record SendTaskRequest : Type := mkSendTaskRequest {
  req_id : string;
  params : TaskSendParams
}.
Definition SendTaskStreamingRequest : Type := SendTaskRequest.

Inductive JSONRPCError : Type :=
| ContentTypeNotSupportedError
| InvalidParamsError (msg : string)
| InternalError (msg : string).

Record JSONRPCResponse : Type := mkJSONRPCResponse {
  rpc_id : string;
  rpc_error : option JSONRPCError
}.

Record SendTaskResponse : Type := mkSendTaskResponse {
  resp_id : string;
  result : option Task;
  error : option JSONRPCError
}.

Inductive StreamEvent : Type :=
| TaskStatusUpdateEvent (id : string) (st : TaskStatus) (final : bool)
| TaskArtifactUpdateEvent (id : string) (artifact : Artifact).

(** What the streaming generator yields: a streaming response carrying an
    event, or a bare JSON-RPC error response. *)
Inductive Yielded : Type :=
| SendTaskStreamingResponse (id : string) (ev : StreamEvent)
| YieldedError (r : JSONRPCResponse).

(** ** The agent's capability contract *)

(** [content] of a finished stream item: plain text or a mapping. *)
Inductive Content : Type :=
| CText (s : string)
| CDict (d : PyMapping).

(** One item of [agent.stream]: a dict with [is_task_complete] and, by the
    branch that built it, [updates] or [content]. *)
Record Item : Type := mkItem {
  item_is_task_complete : bool;
  item_updates : option string;
  item_content : option Content
}.

(** Interactions with the collaborators, in the order they happen. *)
Inductive Effect : Type :=
| VerifyUrl (u : string)
| AgentInvoke (query session : string)
| AgentStream (query session : string)
| PushNotification (u : string) (snapshot : Task).

(** The collaborators of the task manager, as oracles. *)
Record Collaborators : Type := mkCollaborators {
  (** [ActivityTrackerAgent.invoke(query, session_id)] *)
  agent_invoke : string -> string -> Outcome string;
  (** [ActivityTrackerAgent.stream(query, session_id)]: the items it yields
      and the exception, if any, that ends the iteration. *)
  agent_stream : string -> string -> list Item * option PyExc;
  (** [PushNotificationSenderAuth.verify_push_notification_url(url)] *)
  verify_push_notification_url : string -> bool;
  (** [json.loads] on a string *)
  json_loads : string -> Outcome PyVal;
  (** [str(e)] *)
  exc_str : PyExc -> string
}.

Definition SUPPORTED_CONTENT_TYPES : list string := ["text"; "text/plain"].

(** ** The task manager ([AgentTaskManager]) *)

(** The mutable state of the manager: the task store and the registered
    push-notification configs of [InMemoryTaskManager], and the trace of
    the calls made to the collaborators. *)
Record TaskManager : Type := mkTaskManager {
  tasks : gmap string Task;
  push_notification_infos : gmap string PushNotificationConfig;
  trace : list Effect
}.

(** Methods of the manager: they read and update the state and either
    return or raise.  A raise keeps the state reached so far. *)
Abbreviation M := (StateExc TaskManager).

Definition set_tasks (ts : gmap string Task) : M unit :=
  fun tm => (mkTaskManager ts (push_notification_infos tm) (trace tm), Returned tt).
Definition set_push_notification_infos
    (ps : gmap string PushNotificationConfig) : M unit :=
  fun tm => (mkTaskManager (tasks tm) ps (trace tm), Returned tt).
Definition emit (e : Effect) : M unit :=
  fun tm => (mkTaskManager (tasks tm) (push_notification_infos tm)
               (trace tm ++ [e]), Returned tt).

Module InMemoryTaskManager.

(** Modelled from the spec: [InMemoryTaskManager.upsert_task] of the
    [common] package, which is not part of the sources.  "Upsert the task
    (create if absent, else leave existing fields untouched)"; a created
    task starts in the initial state [SUBMITTED] with no artifacts. *)
Definition upsert_task (p : TaskSendParams) : M Task :=
  tm <- get_state ;;
  match tasks tm !! param_id p with
  | Some task => ret task
  | None =>
      let task := mkTask (param_id p) (sessionId p)
                    (mkTaskStatus SUBMITTED None) None in
      set_tasks (<[param_id p := task]> (tasks tm)) ;;;
      ret task
  end.

(** Modelled from the spec: [InMemoryTaskManager.set_push_notification_info],
    not part of the sources.  The config becomes the one registered for
    the task id, replacing an earlier one. *)
Definition set_push_notification_info (task_id : string)
    (cfg : PushNotificationConfig) : M unit :=
  tm <- get_state ;;
  set_push_notification_infos (<[task_id := cfg]> (push_notification_infos tm)).

(** Modelled from the spec: [InMemoryTaskManager.get_push_notification_info],
    not part of the sources: the config registered for the task id. *)
Definition get_push_notification_info (task_id : string)
  : M (option PushNotificationConfig) :=
  tm <- get_state ;;
  ret (push_notification_infos tm !! task_id).

(** Modelled from the spec: [InMemoryTaskManager.has_push_notification_info],
    not part of the sources: whether a config is registered. *)
Definition has_push_notification_info (task_id : string) : M bool :=
  tm <- get_state ;;
  ret (match push_notification_infos tm !! task_id with
       | Some _ => true
       | None => false
       end).

End InMemoryTaskManager.

Module utils.

(** Modelled from the spec: [common.server.utils.are_modalities_compatible],
    not part of the sources.  "accepted output modes must intersect the
    Agent's supported content types": some accepted mode is supported. *)
Definition are_modalities_compatible
    (server_output_modes client_output_modes : list string) : bool :=
  existsb (fun x => existsb (String.eqb x) server_output_modes)
          client_output_modes.

(** Modelled from the spec: [common.server.utils.new_incompatible_types_error],
    not part of the sources: the "incompatible types" protocol error. *)
Definition new_incompatible_types_error (request_id : string)
  : JSONRPCResponse :=
  mkJSONRPCResponse request_id (Some ContentTypeNotSupportedError).

End utils.

Module AgentTaskManager.
Section WithCollaborators.

Variable env : Collaborators.

(** The local variables the loop of [_stream_generator] assigns on every
    iteration. *)
Record LoopVars : Type := mkLoopVars {
  is_task_complete : bool;
  loop_artifacts : option (list Artifact);
  task_state : TaskState;
  parts : list Part
}.

(** [_get_user_query] (lines 186-190): the text of the first part.  An
    empty [parts] list fails at the subscript. *)
Definition _get_user_query (task_send_params : TaskSendParams)
  : Outcome string :=
  match msg_parts (param_message task_send_params) with
  | [] => Raised IndexError
  | TextPart text :: _ => Returned text
  | _ :: _ => Raised (ValueError "Only text parts are supported")
  end.

(** [_update_store] (lines 151-167): the stored task gets the new status
    and, unless [artifacts] is [None], its artifact list extended; the
    updated task is the stored one. *)
Definition _update_store (task_id : string) (new_status : TaskStatus)
    (new_artifacts : option (list Artifact)) : M Task :=
  tm <- get_state ;;
  match tasks tm !! task_id with
  | None => raise (ValueError ("Task " +:+ task_id +:+ " not found"))
  | Some task =>
      let task' :=
        mkTask (t_id task) (t_sessionId task) new_status
          match new_artifacts with
          | None => artifacts task
          | Some arts =>
              Some (match artifacts task with
                    | None => []
                    | Some old => old
                    end ++ arts)
          end in
      set_tasks (<[task_id := task']> (tasks tm)) ;;;
      ret task'
  end.

(** [send_task_notification] (lines 192-202): nothing without a registered
    config, else the task snapshot is handed to the sender. *)
Definition send_task_notification (task : Task) : M unit :=
  has <- InMemoryTaskManager.has_push_notification_info (t_id task) ;;
  if negb has then ret tt
  else
    push_info <- InMemoryTaskManager.get_push_notification_info
                   (t_id task) ;;
    match push_info with
    | None => raise AttributeError
    | Some info => emit (PushNotification (url info) task)
    end.

(** [set_push_notification_info] (lines 204-211): the URL is verified, and
    the config is registered only when the verification succeeded. *)
Definition set_push_notification_info (task_id : string)
    (push_notification_config : PushNotificationConfig) : M bool :=
  emit (VerifyUrl (url push_notification_config)) ;;;
  let is_verified :=
    verify_push_notification_url env (url push_notification_config) in
  if negb is_verified then ret false
  else
    InMemoryTaskManager.set_push_notification_info task_id
      push_notification_config ;;;
    ret true.

(** [_validate_request] (lines 103-121): the error response, or [None]. *)
Definition _validate_request (request : SendTaskRequest)
  : option JSONRPCResponse :=
  let task_send_params := params request in
  if negb (utils.are_modalities_compatible
             (acceptedOutputModes task_send_params) SUPPORTED_CONTENT_TYPES)
  then Some (utils.new_incompatible_types_error (req_id request))
  else
    match pushNotification task_send_params with
    | Some cfg =>
        if String.eqb (url cfg) ""
        then Some (mkJSONRPCResponse (req_id request)
                     (Some (InvalidParamsError "Push notification URL is missing")))
        else None
    | None => None
    end.

(** [_invoke] (lines 168-185). *)
Definition _invoke (request : SendTaskRequest) : M SendTaskResponse :=
  let task_send_params := params request in
  query <- lift (_get_user_query task_send_params) ;;
  emit (AgentInvoke query (sessionId task_send_params)) ;;;
  agent_result <-
    match agent_invoke env query (sessionId task_send_params) with
    | Returned r => ret r
    | Raised e => raise (ValueError ("Error invoking agent: " +:+ exc_str env e))
    end ;;
  let parts := [TextPart agent_result] in
  let task_state :=
    if str_contains "MISSING_INFO:" agent_result
    then INPUT_REQUIRED else COMPLETED in
  task <- _update_store (param_id task_send_params)
            (mkTaskStatus task_state (Some (mkMessage agent parts)))
            (Some [Artifact_from_parts parts]) ;;
  ret (mkSendTaskResponse (req_id request) (Some task) None).

(** [on_send_task] (lines 122-136). *)
Definition on_send_task (request : SendTaskRequest) : M SendTaskResponse :=
  match _validate_request request with
  | Some validation_error =>
      ret (mkSendTaskResponse (req_id request) None (rpc_error validation_error))
  | None =>
      registered <-
        match pushNotification (params request) with
        | Some cfg => set_push_notification_info (param_id (params request)) cfg
        | None => ret true
        end ;;
      if negb registered
      then ret (mkSendTaskResponse (req_id request) None
                  (Some (InvalidParamsError "Push notification URL is invalid")))
      else
        InMemoryTaskManager.upsert_task (params request) ;;;
        task <- _update_store (param_id (params request))
                  (mkTaskStatus WORKING None) (Some []) ;;
        send_task_notification task ;;;
        _invoke request
  end.

(** [item["updates"]], [item["content"]] *)
Definition item_getitem {A} (field : option A) (key : string) : Outcome A :=
  match field with
  | Some v => Returned v
  | None => Raised (KeyError key)
  end.

(** The test
    ["response" in item["content"] and "result" in item["content"]["response"]]
    on a dict [content]. *)
Definition has_response_result (content : PyMapping) : Outcome bool :=
  if dict_has content "response"
  then (response <~ dict_getitem content "response" ;;
        py_contains response "result")
  else Returned false.

(** [json.loads(v)]: only a string is decoded. *)
Definition json_loads_val (v : PyVal) : Outcome PyVal :=
  match v with
  | PyStr s => json_loads env s
  | _ => Raised TypeError
  end.

(** One iteration of the [async for] of [_stream_generator]: the values
    the local variables have when the iteration ends. *)
Definition loop_body (item : Item) : Outcome LoopVars :=
  let is_task_complete := item_is_task_complete item in
  if negb is_task_complete then
    updates <~ item_getitem (item_updates item) "updates" ;;
    Returned (mkLoopVars is_task_complete None WORKING [TextPart updates])
  else
    content <~ item_getitem (item_content item) "content" ;;
    match content with
    | CDict d =>
        nested <~ has_response_result d ;;
        state_data <~
          (if nested : bool then
             response <~ dict_getitem d "response" ;;
             encoded <~ py_getitem response "result" ;;
             data <~ json_loads_val encoded ;;
             Returned (INPUT_REQUIRED, data)
           else Returned (COMPLETED, PyDict d)) ;;
        let parts := [DataPart (snd state_data)] in
        Returned (mkLoopVars is_task_complete
                    (Some [mkArtifact parts 0 (Some false)])
                    (fst state_data) parts)
    | CText text =>
        let parts := [TextPart text] in
        Returned (mkLoopVars is_task_complete
                    (Some [mkArtifact parts 0 (Some false)])
                    COMPLETED parts)
    end.

(** The [async for] loop: every iteration rebinds the four variables, so
    the loop ends with those of its last iteration, or with none bound
    when the agent yielded nothing; a raising iteration leaves the loop. *)
Fixpoint run_loop (items : list Item) (vars : option LoopVars)
  : Outcome (option LoopVars) :=
  match items with
  | [] => Returned vars
  | item :: rest =>
      vars' <~ loop_body item ;;
      run_loop rest (Some vars')
  end.

(** [if artifacts: for artifact in artifacts: yield ...] *)
Definition artifact_events (request_id task_id : string)
    (arts : option (list Artifact)) : list Yielded :=
  match arts with
  | Some l =>
      map (fun artifact =>
             SendTaskStreamingResponse request_id
               (TaskArtifactUpdateEvent task_id artifact)) l
  | None => []
  end.

(** The body of the [try] block of [_stream_generator].  Its three
    [yield] sites come after every statement of the block that can raise,
    so the responses are gathered where they are yielded, at its end. *)
Definition stream_try_block (request : SendTaskStreamingRequest)
    (query : string) : M (list Yielded) :=
  let task_send_params := params request in
  emit (AgentStream query (sessionId task_send_params)) ;;;
  let '(items, failure) := agent_stream env query (sessionId task_send_params) in
  vars <- lift (run_loop items None) ;;
  match failure with Some e => raise e | None => ret tt end ;;;
  match vars with
  | None => raise (UnboundLocalError "parts")
  | Some v =>
      let message := mkMessage agent (parts v) in
      let task_status := mkTaskStatus (task_state v) (Some message) in
      latest_task <- _update_store (param_id task_send_params) task_status
                       (loop_artifacts v) ;;
      send_task_notification latest_task ;;;
      let task_update_event :=
        TaskStatusUpdateEvent (param_id task_send_params) task_status false in
      ret ([SendTaskStreamingResponse (req_id request) task_update_event]
           ++ artifact_events (req_id request) (param_id task_send_params)
                (loop_artifacts v)
           ++ (if is_task_complete v
               then [SendTaskStreamingResponse (req_id request)
                       (TaskStatusUpdateEvent (param_id task_send_params)
                          (mkTaskStatus (state task_status) None) true)]
               else []))
  end.

(** [_stream_generator] (lines 37-102), drained: the responses it yields,
    or the exception it raises before its [try] block is entered. *)
Definition _stream_generator (request : SendTaskStreamingRequest)
  : M (list Yielded) :=
  let task_send_params := params request in
  query <- lift (_get_user_query task_send_params) ;;
  try_except (stream_try_block request query)
    (fun e =>
       ret [YieldedError
              (mkJSONRPCResponse (req_id request)
                 (Some (InternalError
                          "An error occurred while streaming the response")))]).

(** What [on_send_task_subscribe] returns: an error response, or the
    generator object of [_stream_generator request], not yet started. *)
Inductive Subscription : Type :=
| SubscribeError (r : JSONRPCResponse)
| SubscribeStream (generator_of : SendTaskStreamingRequest).

(** [on_send_task_subscribe] (lines 137-150). *)
Definition on_send_task_subscribe (request : SendTaskStreamingRequest)
  : M Subscription :=
  match _validate_request request with
  | Some validation_error => ret (SubscribeError validation_error)
  | None =>
      InMemoryTaskManager.upsert_task (params request) ;;;
      registered <-
        match pushNotification (params request) with
        | Some cfg => set_push_notification_info (param_id (params request)) cfg
        | None => ret true
        end ;;
      if negb registered
      then ret (SubscribeError
                  (mkJSONRPCResponse (req_id request)
                     (Some (InvalidParamsError "Push notification URL is invalid"))))
      else ret (SubscribeStream request)
  end.

(** The streaming request end to end: subscribe, then drain the generator. *)
Definition subscribe_and_drain (request : SendTaskStreamingRequest)
  : M (list Yielded) :=
  sub <- on_send_task_subscribe request ;;
  match sub with
  | SubscribeError r => ret [YieldedError r]
  | SubscribeStream req => _stream_generator req
  end.

End WithCollaborators.
End AgentTaskManager.

(** ** The calendar agent ([CalendarAgent]) *)

(** More of Python's dynamic operations, used on calendar events. *)

(** [v.get(key, default)]: only a dict has the method. *)
Definition py_get (v : PyVal) (key : string) (default : PyVal) : Outcome PyVal :=
  match v with
  | PyDict d => Returned (match dict_get d key with Some x => x | None => default end)
  | _ => Raised AttributeError
  end.

(** Truth value of a value, as [if v] and [not v] take it. *)
Definition py_truthy (v : PyVal) : bool :=
  match v with
  | PyNone => false
  | PyBool b => b
  | PyInt n => negb (n =? 0)%Z
  | PyStr s => negb (String.eqb s "")
  | PyList l => match l with [] => false | _ => true end
  | PyDict d => match d with [] => false | _ => true end
  end.

(** The elements [for x in v] goes through. *)
Definition py_iter (v : PyVal) : Outcome (list PyVal) :=
  match v with
  | PyList l => Returned l
  | PyDict d => Returned (map (fun kv => PyStr (fst kv)) d)
  | PyStr s => Returned (map (fun c => PyStr (String c EmptyString)) (list_ascii_of_string s))
  | _ => Raised TypeError
  end.

(** A string operand of [+] or an element of [str.join]. *)
Definition as_str (v : PyVal) : Outcome string :=
  match v with
  | PyStr s => Returned s
  | _ => Raised TypeError
  end.

(** [sep.join(l)] *)
Fixpoint join (sep : string) (l : list string) : string :=
  match l with
  | [] => ""
  | [x] => x
  | x :: rest => x +:+ sep +:+ join sep rest
  end.

(** [[f(x) for x in l]] where [f] may raise. *)
Fixpoint map_outcome {A B} (f : A -> Outcome B) (l : list A) : Outcome (list B) :=
  match l with
  | [] => Returned []
  | x :: rest =>
      y <~ f x ;;
      ys <~ map_outcome f rest ;;
      Returned (y :: ys)
  end.

Module CalendarAgent.

(** A worksheet row. *)
Definition Row : Type := list PyVal.

(** The file [calendar_activities.xlsx] and the openpyxl library, as
    [_append_events_to_excel] uses them.  [Disk] is the state of the file
    system and [Book] a workbook in memory together with the worksheet the
    method writes to.
    - [path_exists]: [os.path.exists(filename)];
    - [load_workbook]: [load_workbook(filename)] followed by
      [wb.worksheets[0]]; it raises when the file cannot be read as a
      workbook or has no worksheet;
    - [Workbook]: [Workbook()] with its [active] worksheet;
    - [ws_append]: [ws.append(row)]; it raises for a cell it cannot store;
    - [wb_save]: [wb.save(filename)]; it leaves the file system as the
      write left it and may raise. *)
Record Openpyxl : Type := mkOpenpyxl {
  Disk : Type;
  Book : Type;
  path_exists : Disk -> bool;
  load_workbook : Disk -> Outcome Book;
  Workbook : Book;
  ws_append : Book -> Row -> Outcome Book;
  wb_save : Book -> Disk -> Disk * Outcome unit
}.

Section WithEnvironment.

(** [datetime.datetime] values, the clock and [datetime.replace] on the
    time-of-day fields. *)
Variable datetime : Type.
Variable now : datetime.
Variable replace_time : datetime -> Z -> Z -> Z -> Z -> datetime.

(** The parameters the request [service.events().list] is built from. *)
Record EventsQuery : Type := mkEventsQuery {
  maxResults : Z;
  timeMin : datetime;
  timeMax : option datetime
}.

(** What obtaining the credentials, building the service and executing
    the request end in: the reply's [items] entry (absent or a list of
    event resources), an [HttpError] with its text, or another
    exception. *)
Inductive ApiReply : Type :=
| ApiItems (items : option (list PyVal))
| ApiHttpError (text : string)
| ApiFailure (e : PyExc).

Variable events_list_execute : EventsQuery -> ApiReply.

(** [str(e)] *)
Variable exc_str : PyExc -> string.

(** What [_fetch_events] returns: the events, or the dict [{"error": ...}]. *)
Inductive FetchResult : Type :=
| Events (events : list PyVal)
| ErrorDict (error_text : string).

Variable xl : Openpyxl.

(** What [invoke] returns. *)
Record AgentResult : Type := mkAgentResult {
  is_task_complete : bool;
  require_user_input : bool;
  content : string
}.

(** The summary [_plan_my_day] builds for a day that has events (sorting
    by [dateparser.parse], first and last event, free slots). *)
Variable day_summary : list PyVal -> Outcome string.

(** The history, date-range and single-date lookups of [invoke], which a
    day-planning query does not reach. *)
Variable other_lookups : string -> StateExc (Disk xl) AgentResult.

(** [_fetch_events] (lines 54-75). *)
Definition _fetch_events (date end_date : option datetime) (maxResults : Z)
  : Outcome FetchResult :=
  let query :=
    match date, end_date with
    | Some d, Some e => mkEventsQuery maxResults d (Some e)
    | Some d, None => mkEventsQuery maxResults d None
    | None, _ => mkEventsQuery maxResults now None
    end in
  match events_list_execute query with
  | ApiItems (Some events) => Returned (Events events)
  | ApiItems None => Returned (Events [])
  | ApiHttpError text => Returned (ErrorDict ("An error occurred: " +:+ text))
  | ApiFailure e => Raised e
  end.

Definition headers : Row :=
  [PyStr "Date"; PyStr "Summary"; PyStr "Attachments"; PyStr "Conference Links"].

(** The row [_append_events_to_excel] appends for one event (lines
    116-125). *)
Definition event_row (event : PyVal) : Outcome Row :=
  start <~ py_getitem event "start" ;;
  date_only <~ py_get start "date" PyNone ;;
  date <~ py_get start "dateTime" date_only ;;
  summary <~ py_get event "summary" (PyStr "(No Title)") ;;
  atts <~ py_get event "attachments" (PyList []) ;;
  atts <~ py_iter atts ;;
  attachments <~ map_outcome
    (fun att =>
       title <~ py_get att "title" (PyStr "") ;;
       title <~ as_str title ;;
       fileUrl <~ py_get att "fileUrl" (PyStr "") ;;
       fileUrl <~ as_str fileUrl ;;
       Returned (title +:+ " " +:+ fileUrl)) atts ;;
  conference <~ py_get event "conferenceData" (PyDict []) ;;
  entry_points <~ py_get conference "entryPoints" (PyList []) ;;
  entry_points <~ py_iter entry_points ;;
  uris <~ map_outcome
    (fun ep =>
       uri <~ py_get ep "uri" PyNone ;;
       if py_truthy uri
       then (uri' <~ py_get ep "uri" (PyStr "") ;; Returned [uri'])
       else Returned []) entry_points ;;
  conference_links <~ map_outcome as_str (concat uris) ;;
  Returned [date; summary; PyStr (join ", " attachments);
            PyStr (join ", " conference_links)].

(** Lines 107-113: the workbook the rows go to, the file's when there is a
    file, else a new one given the header row. *)
Definition open_workbook (disk : Disk xl) : Outcome (Book xl) :=
  if path_exists xl disk then load_workbook xl disk
  else ws_append xl (Workbook xl) headers.

(** Lines 115-126, the loop: each event is read and its row appended
    before the next event is looked at. *)
Fixpoint append_events (ws : Book xl) (events : list PyVal)
  : Outcome (Book xl) :=
  match events with
  | [] => Returned ws
  | event :: rest =>
      row <~ event_row event ;;
      ws' <~ ws_append xl ws row ;;
      append_events ws' rest
  end.

(** [_append_events_to_excel] (lines 105-128).  The file is written by
    [wb.save] alone, the last statement that can raise; the row count the
    method logs after it is read from the worksheet in memory. *)
Definition _append_events_to_excel (events : list PyVal)
  : StateExc (Disk xl) unit :=
  disk <- get_state ;;
  ws <- lift (open_workbook disk) ;;
  ws <- lift (append_events ws events) ;;
  wb_save xl ws.

(** [_plan_my_day] (lines 130-157). *)
Definition _plan_my_day (events : list PyVal) : Outcome string :=
  match events with
  | [] => Returned "You have no events scheduled for today. Your day is wide open!"
  | _ :: _ => day_summary events
  end.

Definition plan_phrases : list string :=
  ["plan my day"; "organize my day"; "what's my schedule"; "day at a glance"].

(** [invoke] (lines 159-248): the day-planning branch in full, the other
    lookups through [other_lookups], all inside the method's [try]. *)
Definition invoke (query sessionId : string) : StateExc (Disk xl) AgentResult :=
  try_except
    (if existsb (fun word => str_contains word (lower query)) plan_phrases
     then
       let today := now in
       let date := replace_time today 0 0 0 0 in
       let end_date := replace_time today 23 59 59 999999 in
       events <- lift (_fetch_events (Some date) (Some end_date) 50) ;;
       match events with
       | ErrorDict error_text => ret (mkAgentResult false true error_text)
       | Events events =>
           _append_events_to_excel events ;;;
           plan <- lift (_plan_my_day events) ;;
           ret (mkAgentResult true false plan)
       end
     else other_lookups query)
    (fun e => ret (mkAgentResult false true ("An error occurred: " +:+ exc_str e))).

End WithEnvironment.
End CalendarAgent.

(** ** Observations on the state *)

(** The artifacts of a task, an unset list read as empty. *)
Definition artifacts_of (t : Task) : list Artifact := default [] (artifacts t).

(** The artifacts stored under a task id, none when the id is unknown. *)
Definition stored_artifacts (tm : TaskManager) (task_id : string) : list Artifact :=
  match tasks tm !! task_id with
  | Some t => artifacts_of t
  | None => []
  end.

(** Whether an interaction is a call of the agent. *)
Definition calls_agent (e : Effect) : bool :=
  match e with
  | AgentInvoke _ _ | AgentStream _ _ => true
  | _ => false
  end.

(** The field [response.result] nested in a mapping, when [response] is
    itself a mapping that has it. *)
Definition nested_response_result (content : PyMapping) : option PyVal :=
  match dict_get content "response" with
  | Some (PyDict response) => dict_get response "result"
  | _ => None
  end.

(** ** Invariants of a request *)

(** A method keeps a relation between the state it starts from and the
    state it ends in, whether it returns or raises. *)
Definition preserves {A} (R : TaskManager -> TaskManager -> Prop) (m : M A)
  : Prop :=
  forall tm, R tm (fst (m tm)).

(** What a request for [task_id] may do to the task store: the tasks under
    other ids are as they were, and a task stored under [task_id] is still
    stored, with its id, its session and its earlier artifacts, in order,
    at the front of its artifacts. *)
Definition request_effect (task_id : string) (tm tm' : TaskManager) : Prop :=
  (forall other, other <> task_id -> tasks tm' !! other = tasks tm !! other)
  /\ (forall t, tasks tm !! task_id = Some t ->
        exists t',
          tasks tm' !! task_id = Some t'
          /\ t_id t' = t_id t
          /\ t_sessionId t' = t_sessionId t
          /\ artifacts_of t `prefix_of` artifacts_of t').

(** Every stored task is filed under its own id. *)
Definition well_keyed (tm : TaskManager) : Prop :=
  forall id t, tasks tm !! id = Some t -> t_id t = id.

(** A step that does not break [well_keyed]. *)
Definition keeps_keys (tm tm' : TaskManager) : Prop :=
  well_keyed tm -> well_keyed tm'.

(** ** Interactions of a request *)

(** The verification call a request's push-notification config causes. *)
Definition verification_of (p : TaskSendParams) : list Effect :=
  match pushNotification p with
  | Some cfg => [VerifyUrl (url cfg)]
  | None => []
  end.

(** The notification [send_task_notification] hands to the sender for
    [task]: one, to the URL registered for the task's id, or none. *)
Definition notification_of (tm : TaskManager) (task : Task) : list Effect :=
  match push_notification_infos tm !! t_id task with
  | Some info => [PushNotification (url info) task]
  | None => []
  end.

(** The task [_update_store] leaves in the store when the streaming loop
    ended with the variables [v]. *)
Definition persisted (old : Task) (v : AgentTaskManager.LoopVars) : Task :=
  mkTask (t_id old) (t_sessionId old)
    (mkTaskStatus (AgentTaskManager.task_state v)
       (Some (mkMessage agent (AgentTaskManager.parts v))))
    match AgentTaskManager.loop_artifacts v with
    | None => artifacts old
    | Some arts => Some (artifacts_of old ++ arts)
    end.

(** The one response a failing stream yields. *)
Definition streaming_error (request : SendTaskStreamingRequest) : Yielded :=
  YieldedError
    (mkJSONRPCResponse (req_id request)
       (Some (InternalError "An error occurred while streaming the response"))).

(** The responses [_stream_generator] yields when its [try] block ends
    normally with the loop variables [v]: the status event, the artifact
    events and, for a finished task, the final event. *)
Definition stream_responses (request : SendTaskStreamingRequest)
    (v : AgentTaskManager.LoopVars) : list Yielded :=
  [SendTaskStreamingResponse (req_id request)
     (TaskStatusUpdateEvent (param_id (params request))
        (mkTaskStatus (AgentTaskManager.task_state v)
           (Some (mkMessage agent (AgentTaskManager.parts v)))) false)]
  ++ AgentTaskManager.artifact_events (req_id request)
       (param_id (params request)) (AgentTaskManager.loop_artifacts v)
  ++ (if AgentTaskManager.is_task_complete v
      then [SendTaskStreamingResponse (req_id request)
              (TaskStatusUpdateEvent (param_id (params request))
                 (mkTaskStatus (AgentTaskManager.task_state v) None) true)]
      else []).

(** ** The activity tracker ([google_adk/agent.py]) *)

(** The string ["\n"]. *)
Definition newline : string := String (ascii_of_nat 10) EmptyString.

Module ActivityTracker.

(** One entry of the module-level list [activities]: the dict with the
    keys "Work Item", "Details", "Due Date" and "Progress". *)
Record Activity : Type := mkActivity {
  work_item : string;
  details : string;
  due_date : string;
  progress : string
}.

(** The state the two tools share: the list [activities], and the calls
    made to [DataFrame(...).to_excel], each with the path and the rows it
    was given. *)
Record Tracker : Type := mkTracker {
  activities : list Activity;
  excel_calls : list (string * list Activity)
}.

(** A part of an event's content: its [text] and the [model_dump()] of its
    [function_response], each possibly [None]. *)
Record AdkPart : Type := mkAdkPart {
  text : option string;
  function_response : option PyMapping
}.

(** [event.content] with its [parts], each possibly [None]. *)
Record AdkContent : Type := mkAdkContent {
  parts : option (list AdkPart)
}.

Record AdkEvent : Type := mkAdkEvent {
  is_final_response : bool;
  content : option AdkContent
}.

Section WithRunner.

(** [pd.DataFrame(activities).to_excel(file_path, index=False)]: it writes
    the file or raises. *)
Variable to_excel : string -> list Activity -> Outcome unit.

(** [Runner.run] and [Runner.run_async] for a session id and a query: the
    events they produce and the exception, if any, that ends them. *)
Variable run : string -> string -> list AdkEvent * option PyExc.
Variable run_async : string -> string -> list AdkEvent * option PyExc.

(** [add_activity] (lines 19-42). *)
Definition add_activity (work_item details due_date progress : string)
  : StateExc Tracker PyMapping :=
  st <- get_state ;;
  put_state (mkTracker
               (activities st ++ [mkActivity work_item details due_date progress])
               (excel_calls st)) ;;;
  ret [("status", PyStr "Activity added successfully.")].

(** [save_activities_to_excel] (lines 45-60). *)
Definition save_activities_to_excel (file_path : string)
  : StateExc Tracker PyMapping :=
  st <- get_state ;;
  match activities st with
  | [] => ret [("status", PyStr "No activities to save.")]
  | _ :: _ =>
      put_state (mkTracker (activities st)
                   (excel_calls st ++ [(file_path, activities st)])) ;;;
      lift (to_excel file_path (activities st)) ;;;
      ret [("status", PyStr ("Activities saved to " +:+ file_path))]
  end.

(** The sessions the session service holds for the agent, by id:
    [get_session] finds a session or returns [None], [create_session]
    adds one under the given id. *)
Definition Sessions : Type := gset string.

(** The first lines of [invoke] and [stream]: the session is looked up and
    created when missing; its id is the one asked for. *)
Definition get_or_create_session (session_id : string)
  : StateExc Sessions string :=
  sessions <- get_state ;;
  if decide (session_id ∈ sessions) then ret session_id
  else (put_state ({[ session_id ]} ∪ sessions) ;;; ret session_id).

(** [[p.text for p in parts if p.text]] *)
Definition texts_of (ps : list AdkPart) : list string :=
  flat_map (fun p => match text p with
                     | Some t => if String.eqb t "" then [] else [t]
                     | None => []
                     end) ps.

(** The parts [event.content and event.content.parts] lets through: a
    non-empty list, or nothing. *)
Definition truthy_parts (e : AdkEvent) : option (list AdkPart) :=
  match content e with
  | Some c =>
      match parts c with
      | Some (p :: ps) => Some (p :: ps)
      | _ => None
      end
  | None => None
  end.

(** [invoke] (lines 79-100). *)
Definition invoke (query session_id : string) : StateExc Sessions string :=
  sid <- get_or_create_session session_id ;;
  let '(events, failure) := run sid query in
  match failure with Some e => raise e | None => ret tt end ;;;
  match last events with
  | None => ret ""
  | Some e =>
      match truthy_parts e with
      | None => ret ""
      | Some ps => ret (join newline (texts_of ps))
      end
  end.

(** What [stream] yields for one event (lines 119-139), or the exception
    raised while building it. *)
Definition item_of_event (e : AdkEvent) : Outcome Item :=
  if is_final_response e then
    response <~
      match truthy_parts e with
      | Some (p :: ps) =>
          if match text p with
             | Some t => negb (String.eqb t "")
             | None => false
             end
          then Returned (CText (join newline (texts_of (p :: ps))))
          else if existsb (fun q => match function_response q with
                                    | Some _ => true
                                    | None => false
                                    end) (p :: ps)
          then match function_response p with
               | Some dump => Returned (CDict dump)
               | None => Raised AttributeError
               end
          else Returned (CText "")
      | _ => Returned (CText "")
      end ;;
    Returned (mkItem true None (Some response))
  else
    Returned (mkItem false (Some "Processing the activity tracking request...") None).

(** The items yielded for the events, up to the first one that raises. *)
Fixpoint items_of_events (events : list AdkEvent) : list Item * option PyExc :=
  match events with
  | [] => ([], None)
  | e :: rest =>
      match item_of_event e with
      | Raised exc => ([], Some exc)
      | Returned item =>
          let '(items, failure) := items_of_events rest in
          (item :: items, failure)
      end
  end.

(** [stream] (lines 102-139), drained: the items it yields and the
    exception, if any, that ends it. *)
Definition stream (query session_id : string)
  : StateExc Sessions (list Item * option PyExc) :=
  sid <- get_or_create_session session_id ;;
  let '(events, failure) := run_async sid query in
  let '(items, raised) := items_of_events events in
  ret (items, match raised with
              | Some e => Some e
              | None => failure
              end).

End WithRunner.
End ActivityTracker.

(** ** Using the activity tracker *)

(** [add_activity] called once for each record, in order. *)
Fixpoint add_all (records : list ActivityTracker.Activity)
  : StateExc ActivityTracker.Tracker unit :=
  match records with
  | [] => ret tt
  | r :: rest =>
      ActivityTracker.add_activity (ActivityTracker.work_item r)
        (ActivityTracker.details r) (ActivityTracker.due_date r)
        (ActivityTracker.progress r) ;;;
      add_all rest
  end.

(** The item [stream] yields for an event that is not the final response. *)
Definition progress_item : Item :=
  mkItem false (Some "Processing the activity tracking request...") None.

(** The task manager's collaborators when the agent is the activity
    tracker, started from the sessions [sessions]. *)
Definition tracker_collaborators
    (run run_async : string -> string -> list ActivityTracker.AdkEvent * option PyExc)
    (sessions : ActivityTracker.Sessions)
    (verify : string -> bool) (loads : string -> Outcome PyVal)
    (str : PyExc -> string) : Collaborators :=
  mkCollaborators
    (fun query session_id =>
       snd (ActivityTracker.invoke run query session_id sessions))
    (fun query session_id =>
       match snd (ActivityTracker.stream run_async query session_id sessions) with
       | Returned yielded => yielded
       | Raised e => ([], Some e)
       end)
    verify loads str.

(** ** The calendar agent's other lookups ([langgraph/agent.py]) *)

Module CalendarLookups.
Section WithLibraries.

(** The [datetime] library: the clock, [replace] on the time of day and on
    the day of the month, [x - timedelta(days=n)], [x + timedelta(...)],
    [weekday()], the last day of [x]'s month
    ([calendar.monthrange(x.year, x.month)[1]]), the first of January 1970,
    equality and [strftime('%Y-%m-%d')].  [now] is one reading of the
    clock: on each path of [invoke] at most one reading reaches the
    request or the answer. *)
Variable datetime : Type.
Variable now : datetime.
Variable replace_time : datetime -> Z -> Z -> Z -> Z -> datetime.
Variable replace_day_time : datetime -> Z -> Z -> Z -> Z -> Z -> datetime.
Variable minus_days : datetime -> Z -> datetime.
Variable plus_timedelta : datetime -> Z -> Z -> Z -> Z -> Z -> datetime.
Variable weekday : datetime -> Z.
Variable monthrange_last : datetime -> Z.
Variable epoch : datetime.
Variable datetime_eqb : datetime -> datetime -> bool.
Variable strftime_date : datetime -> string.

(** [dateparser.parse(query, settings=...)]: a date, [None], or an
    exception. *)
Variable dateparser_parse : string -> Outcome (option datetime).

(** The text an f-string puts for a value. *)
Variable py_format : PyVal -> string.

(** As for the day planning: the Google API and [str(e)]. *)
Variable events_list_execute :
  CalendarAgent.EventsQuery datetime -> CalendarAgent.ApiReply.
Variable exc_str : PyExc -> string.
Variable day_summary : list PyVal -> Outcome string.

(** The workbook file and openpyxl. *)
Variable xl : CalendarAgent.Openpyxl.

(** [_get_date_range_from_query] (lines 77-103). *)
Definition _get_date_range_from_query (query : string)
  : option datetime * option datetime :=
  let query_lower := lower query in
  if str_contains "last week" query_lower
     || str_contains "previous week" query_lower then
    let last_monday :=
      replace_time (minus_days now (weekday now + 7)) 0 0 0 0 in
    let last_sunday := plus_timedelta last_monday 6 23 59 59 999999 in
    (Some last_monday, Some last_sunday)
  else if str_contains "this week" query_lower
          || str_contains "current week" query_lower then
    let monday := replace_time (minus_days now (weekday now)) 0 0 0 0 in
    let sunday := plus_timedelta monday 6 23 59 59 999999 in
    (Some monday, Some sunday)
  else if str_contains "last month" query_lower
          || str_contains "previous month" query_lower then
    let first_of_this_month := replace_day_time now 1 0 0 0 0 in
    let last_month := minus_days first_of_this_month 1 in
    let first_of_last_month := replace_day_time last_month 1 0 0 0 0 in
    let last_of_last_month :=
      replace_day_time last_month (monthrange_last last_month) 23 59 59 999999 in
    (Some first_of_last_month, Some last_of_last_month)
  else if str_contains "this month" query_lower
          || str_contains "current month" query_lower then
    let first_of_month := replace_day_time now 1 0 0 0 0 in
    let last_of_month :=
      replace_day_time now (monthrange_last now) 23 59 59 999999 in
    (Some first_of_month, Some last_of_month)
  else (None, None).

(** [v in ["video", "phone", "more"]] *)
Definition is_listed_entry_point (v : PyVal) : bool :=
  match v with
  | PyStr s => existsb (String.eqb s) ["video"; "phone"; "more"]
  | _ => false
  end.

(** The lines [_summarize_events] adds for one event: the event's own
    line, then its attachment lines, then its conference lines. *)
Definition event_lines (event : PyVal) : Outcome (list string) :=
  start <~ py_getitem event "start" ;;
  date_only <~ py_get start "date" PyNone ;;
  start <~ py_get start "dateTime" date_only ;;
  summary <~ py_get event "summary" (PyStr "(No Title)") ;;
  attachments <~ py_get event "attachments" (PyList []) ;;
  attachments <~ py_iter attachments ;;
  attachment_lines <~ map_outcome
    (fun att =>
       title <~ py_get att "title" (PyStr "(Attachment)") ;;
       url <~ py_get att "fileUrl" (PyStr "") ;;
       Returned ("Attachment: " +:+ py_format title +:+ " " +:+ py_format url))
    attachments ;;
  conference <~ py_get event "conferenceData" (PyDict []) ;;
  entry_points <~ py_get conference "entryPoints" (PyList []) ;;
  entry_points <~ py_iter entry_points ;;
  conference_lines <~ map_outcome
    (fun ep =>
       kind <~ py_get ep "entryPointType" PyNone ;;
       if is_listed_entry_point kind then
         fallback <~ py_get ep "entryPointType" PyNone ;;
         label <~ py_get ep "label" fallback ;;
         uri <~ py_get ep "uri" (PyStr "") ;;
         Returned ["Conference: " +:+ py_format label +:+ " " +:+ py_format uri]
       else Returned [])
    entry_points ;;
  Returned ([py_format start +:+ ": " +:+ py_format summary]
            ++ attachment_lines ++ concat conference_lines).

(** [_summarize_events] (lines 255-280). *)
Definition _summarize_events (events : list PyVal) : Outcome string :=
  lines <~ map_outcome event_lines events ;;
  Returned ("Here are your events:" +:+ newline +:+ join newline (concat lines)).

Definition history_phrases : list string :=
  ["all events"; "everything"; "history"; "full list"].

(** What the first half of the lookup leaves in the local variables. *)
Record Fetched : Type := mkFetched {
  date : option datetime;
  end_date : option datetime;
  maxResults : Z;
  events : CalendarAgent.FetchResult
}.

Definition fetch (date end_date : option datetime) (maxResults : Z)
  : Outcome Fetched :=
  events <~ CalendarAgent._fetch_events datetime now events_list_execute
              date end_date maxResults ;;
  Returned (mkFetched date end_date maxResults events).

(** Lines 181-204 of [invoke]: the dates of the query and the events
    fetched for them. *)
Definition fetch_for_query (query : string) : Outcome Fetched :=
  if existsb (fun word => str_contains word (lower query)) history_phrases then
    fetch (Some epoch) (Some now) 100
  else
    match _get_date_range_from_query query with
    | (None, None) =>
        parsed_date <~ dateparser_parse query ;;
        match parsed_date with
        | Some parsed =>
            fetch (Some (replace_time parsed 0 0 0 0))
              (Some (replace_time parsed 23 59 59 999999)) 10
        | None =>
            if str_contains "tomorrow" (lower query) then
              let date := replace_time (plus_timedelta now 1 0 0 0 0) 0 0 0 0 in
              fetch (Some date) (Some (replace_time date 23 59 59 999999)) 10
            else if str_contains "today" (lower query)
                    || str_contains "next" (lower query) then
              let date := replace_time now 0 0 0 0 in
              fetch (Some date) (Some (replace_time date 23 59 59 999999)) 10
            else fetch None None 10
        end
    | (date, end_date) => fetch date end_date 10
    end.

(** Lines 211-235 of [invoke]: the answer when no event was found. *)
Definition no_events_message (f : Fetched) : string :=
  if (maxResults f =? 100)%Z then "No events found in your calendar history."
  else
    match date f, end_date f with
    | Some d, Some e =>
        if datetime_eqb d e
        then "No events found for " +:+ strftime_date d
        else "No events found from " +:+ strftime_date d
             +:+ " to " +:+ strftime_date e
    | _, _ => "No upcoming events found."
    end.

(** Lines 180-242 of [invoke]: every query that is not a day-planning
    one. *)
Definition lookup_events (query : string)
  : StateExc (CalendarAgent.Disk xl) CalendarAgent.AgentResult :=
  fetched <- lift (fetch_for_query query) ;;
  match events fetched with
  | CalendarAgent.ErrorDict error_text =>
      ret (CalendarAgent.mkAgentResult false true error_text)
  | CalendarAgent.Events [] =>
      ret (CalendarAgent.mkAgentResult true false (no_events_message fetched))
  | CalendarAgent.Events (e :: es) =>
      CalendarAgent._append_events_to_excel xl (e :: es) ;;;
      summary <- lift (_summarize_events (e :: es)) ;;
      ret (CalendarAgent.mkAgentResult true false summary)
  end.

(** [invoke] (lines 159-248), whole. *)
Definition invoke (query sessionId : string)
  : StateExc (CalendarAgent.Disk xl) CalendarAgent.AgentResult :=
  CalendarAgent.invoke datetime now replace_time events_list_execute exc_str
    xl day_summary lookup_events query sessionId.

(** [stream] (lines 250-253), drained. *)
Definition stream (query sessionId : string)
  : StateExc (CalendarAgent.Disk xl) (list CalendarAgent.AgentResult) :=
  result <- invoke query sessionId ;;
  ret [CalendarAgent.mkAgentResult false false "Looking up your calendar events...";
       result].

End WithLibraries.
End CalendarLookups.

(** ** Dates in UTC *)

(** A timezone-aware UTC [datetime] as the number of its day, counted from
    the first of January 1970, and the microseconds elapsed in that day. *)
Module UtcClock.

Local Open Scope Z_scope.

Record t : Type := mk { day : Z; micro : Z }.

Definition micros_per_day : Z := 86400000000.

Definition time_of_day (hour minute second microsecond : Z) : Z :=
  ((hour * 60 + minute) * 60 + second) * 1000000 + microsecond.

(** [x.replace(hour=, minute=, second=, microsecond=)] *)
Definition replace_time (x : t) (hour minute second microsecond : Z) : t :=
  mk (day x) (time_of_day hour minute second microsecond).

(** [x - timedelta(days=n)] *)
Definition minus_days (x : t) (n : Z) : t := mk (day x - n) (micro x).

(** [x + timedelta(days=, hours=, minutes=, seconds=, microseconds=)] *)
Definition plus_timedelta (x : t) (days hours minutes seconds microseconds : Z) : t :=
  let total := micro x + time_of_day hours minutes seconds microseconds in
  mk (day x + days + total / micros_per_day) (total mod micros_per_day).

(** [x.weekday()], Monday being 0: the first of January 1970 was a
    Thursday. *)
Definition weekday (x : t) : Z := (day x + 3) mod 7.

(** [x <= y] *)
Definition le (x y : t) : Prop :=
  day x < day y \/ (day x = day y /\ micro x <= micro y).

End UtcClock.

(** ** Words the calendar agent looks for *)

(** The phrases [_get_date_range_from_query] looks for. *)
Definition range_phrases : list string :=
  ["last week"; "previous week"; "this week"; "current week";
   "last month"; "previous month"; "this month"; "current month"].

(** Every word or phrase [invoke] tests the lower-cased query for. *)
Definition calendar_keywords : list string :=
  CalendarAgent.plan_phrases ++ CalendarLookups.history_phrases
  ++ range_phrases ++ ["tomorrow"; "today"; "next"].

(** What the line of an event is made from: the value under
    [start.dateTime], else the one under [start.date], else [None]; and
    the value under [summary], else "(No Title)". *)
Definition start_value (event : PyMapping) : PyVal :=
  match dict_get event "start" with
  | Some (PyDict start) =>
      match dict_get start "dateTime" with
      | Some v => v
      | None => match dict_get start "date" with Some v => v | None => PyNone end
      end
  | _ => PyNone
  end.

Definition title_value (event : PyMapping) : PyVal :=
  match dict_get event "summary" with Some v => v | None => PyStr "(No Title)" end.

(** An event resource whose [start] is a mapping and which has no
    attachment (no [attachments] entry, or an empty list) and no
    conference entry point (no [conferenceData] entry, or a mapping with
    no [entryPoints] entry or an empty list there); its other entries are
    free. *)
Definition bare_event (event : PyMapping) : bool :=
  match dict_get event "start" with Some (PyDict _) => true | _ => false end
  && match dict_get event "attachments" with
     | None | Some (PyList []) => true
     | _ => false
     end
  && match dict_get event "conferenceData" with
     | None => true
     | Some (PyDict conference) =>
         match dict_get conference "entryPoints" with
         | None | Some (PyList []) => true
         | _ => false
         end
     | _ => false
     end.

(** [x == y] on UTC dates. *)
Definition utc_eqb (x y : UtcClock.t) : bool :=
  ((UtcClock.day x =? UtcClock.day y) && (UtcClock.micro x =? UtcClock.micro y))%Z.

(** ** Sample data *)

Definition no_agent : Collaborators :=
  mkCollaborators (fun _ _ => Returned "ok") (fun _ _ => ([], None))
    (fun _ => false) (fun _ => Raised (ExternalError "json")) (fun _ => "").

Definition text_message (text : string) : Message := mkMessage user [TextPart text].

Definition empty_manager : TaskManager := mkTaskManager ∅ ∅ [].

Definition finished_task : Task :=
  mkTask "t1" "s1" (mkTaskStatus COMPLETED (Some (mkMessage agent [TextPart "old"])))
    (Some [mkArtifact [TextPart "old"] 0 None]).

Definition one_task_manager : TaskManager :=
  mkTaskManager {[ "t1" := finished_task ]} ∅ [].

Definition greeting_request : SendTaskRequest :=
  mkSendTaskRequest "r1"
    (mkTaskSendParams "t1" "s1" (text_message "hi") ["text"] None).

Definition greeting_done : Task :=
  mkTask "t1" "s1" (mkTaskStatus COMPLETED (Some (mkMessage agent [TextPart "ok"])))
    (Some [mkArtifact [TextPart "ok"] 0 None]).

Definition image_request : SendTaskRequest :=
  mkSendTaskRequest "r2"
    (mkTaskSendParams "t1" "s1" (text_message "hi") ["image/png"] None).

Definition callback_config : PushNotificationConfig :=
  mkPushNotificationConfig "http://client/callback" None.

Definition registered_manager : TaskManager :=
  mkTaskManager {[ "t1" := finished_task ]}
    {[ "t1" := mkPushNotificationConfig "http://client/first" None ]} [].

Definition data_message : Message :=
  mkMessage user [DataPart (PyDict [("k", PyStr "v")])].

Definition data_request : SendTaskRequest :=
  mkSendTaskRequest "r3"
    (mkTaskSendParams "t1" "s1" data_message ["text"] None).

Definition push_request : SendTaskRequest :=
  mkSendTaskRequest "r4"
    (mkTaskSendParams "t9" "s9" (text_message "hi") ["text"] (Some callback_config)).

Definition done_item : Item := mkItem true None (Some (CText "done")).

(** An agent whose stream yields the single item
    [{"is_task_complete": True, "content": "done"}]. *)
Definition done_agent : Collaborators :=
  mkCollaborators (fun _ _ => Returned "ok") (fun _ _ => ([done_item], None))
    (fun _ => false) (fun _ => Raised (ExternalError "json")) (fun _ => "").

Definition null_response : PyMapping := [("response", PyNone)].

Definition null_response_item : Item :=
  mkItem true None (Some (CDict null_response)).

(** An agent whose stream yields the single item
    [{"is_task_complete": True, "content": {"response": None}}]. *)
Definition null_response_agent : Collaborators :=
  mkCollaborators (fun _ _ => Returned "ok")
    (fun _ _ => ([null_response_item], None))
    (fun _ => false) (fun _ => Raised (ExternalError "json")) (fun _ => "").

(** Collaborators whose JSON decoder accepts every string. *)
Definition decoding_agent : Collaborators :=
  mkCollaborators (fun _ _ => Returned "ok") (fun _ _ => ([], None))
    (fun _ => false) (fun text => Returned (PyDict [("decoded", PyStr text)]))
    (fun _ => "").

Definition nested_result : PyMapping :=
  [("name", PyStr "add_activity");
   ("response", PyDict [("result", PyStr "{}")])].

Definition plain_mapping : PyMapping :=
  [("name", PyStr "add_activity");
   ("response", PyDict [("status", PyStr "Activity added successfully.")])].

(** A calendar with no events today; the clock is a day number. *)
Definition empty_calendar (q : CalendarAgent.EventsQuery Z) : CalendarAgent.ApiReply :=
  CalendarAgent.ApiItems (Some []).

Definition no_summary (events : list PyVal) : Outcome string := Raised TypeError.

(** A stand-in for the file and for openpyxl: the file is absent, holds
    the rows of a worksheet, or is not a workbook; rows go to the end of
    the worksheet and saving succeeds. *)
Inductive SampleDisk : Type :=
| NoFile
| Sheet (rows : list CalendarAgent.Row)
| NotAWorkbook.

Definition sample_openpyxl : CalendarAgent.Openpyxl :=
  CalendarAgent.mkOpenpyxl SampleDisk (list CalendarAgent.Row)
    (fun disk => match disk with NoFile => false | _ => true end)
    (fun disk => match disk with
                 | Sheet rows => Returned rows
                 | _ => Raised (ExternalError "File is not a zip file")
                 end)
    []
    (fun ws row => Returned (ws ++ [row]))
    (fun ws _ => (Sheet ws, Returned tt)).

Definition no_lookups (query : string)
  : StateExc SampleDisk CalendarAgent.AgentResult :=
  raise TypeError.

Definition working_item : Item :=
  mkItem false (Some "Processing the activity tracking request...") None.

(** An agent that reports progress once and then finishes with "done", and
    whose direct answer asks for more input. *)
Definition two_step_agent : Collaborators :=
  mkCollaborators (fun _ _ => Returned "MISSING_INFO: due date")
    (fun _ _ => ([working_item; done_item], None))
    (fun _ => false) (fun _ => Raised (ExternalError "json")) (fun _ => "").

(** An agent that fails. *)
Definition failing_agent : Collaborators :=
  mkCollaborators (fun _ _ => Raised (ExternalError "quota"))
    (fun _ _ => ([working_item], Some (ExternalError "quota")))
    (fun _ => true) (fun _ => Raised (ExternalError "json"))
    (fun e => match e with ExternalError m => m | _ => "error" end).

(** Collaborators that accept every push-notification URL. *)
Definition trusting_agent : Collaborators :=
  mkCollaborators (fun _ _ => Returned "ok") (fun _ _ => ([done_item], None))
    (fun _ => true) (fun _ => Raised (ExternalError "json")) (fun _ => "").

Definition second_request : SendTaskRequest :=
  mkSendTaskRequest "r5"
    (mkTaskSendParams "t1" "other-session" (text_message "due friday") ["text"] None).

Definition empty_url_request : SendTaskRequest :=
  mkSendTaskRequest "r6"
    (mkTaskSendParams "t1" "s1" (text_message "hi") ["text/plain"]
       (Some (mkPushNotificationConfig EmptyString None))).

Definition registered_finished_manager : TaskManager :=
  mkTaskManager {[ "t1" := finished_task ]} {[ "t1" := callback_config ]} [].

Definition working_again : Task :=
  mkTask "t1" "s1" (mkTaskStatus WORKING None)
    (Some [mkArtifact [TextPart "old"] 0 None]).

Definition twice_done : Task :=
  mkTask "t1" "s1" (mkTaskStatus COMPLETED (Some (mkMessage agent [TextPart "ok"])))
    (Some [mkArtifact [TextPart "old"] 0 None; Artifact_from_parts [TextPart "ok"]]).

Definition notified_manager : TaskManager :=
  mkTaskManager {[ "t1" := twice_done ]} {[ "t1" := callback_config ]}
    [PushNotification "http://client/callback" working_again;
     AgentInvoke "hi" "s1"].

Definition paused_task : Task :=
  mkTask "t1" "s1"
    (mkTaskStatus INPUT_REQUIRED
       (Some (mkMessage agent [TextPart "MISSING_INFO: due date"])))
    (Some [Artifact_from_parts [TextPart "MISSING_INFO: due date"]]).

Definition paused_manager : TaskManager :=
  mkTaskManager {[ "t1" := paused_task ]} ∅ [AgentInvoke "hi" "s1"].

Definition resumed_task : Task :=
  mkTask "t1" "s1"
    (mkTaskStatus INPUT_REQUIRED
       (Some (mkMessage agent [TextPart "MISSING_INFO: due date"])))
    (Some [Artifact_from_parts [TextPart "MISSING_INFO: due date"];
           Artifact_from_parts [TextPart "MISSING_INFO: due date"]]).

Definition resumed_manager : TaskManager :=
  mkTaskManager {[ "t1" := resumed_task ]} ∅
    [AgentInvoke "hi" "s1"; AgentInvoke "due friday" "other-session"].

(** An agent that finishes with "done" and then reports progress. *)
Definition late_progress_agent : Collaborators :=
  mkCollaborators (fun _ _ => Returned "ok")
    (fun _ _ => ([done_item; working_item], None))
    (fun _ => true) (fun _ => Raised (ExternalError "json")) (fun _ => "").

Definition write_report : ActivityTracker.Activity :=
  ActivityTracker.mkActivity "report" "quarterly numbers" "friday" "started".


Definition tool_event : ActivityTracker.AdkEvent :=
  ActivityTracker.mkAdkEvent false
    (Some (ActivityTracker.mkAdkContent
             (Some [ActivityTracker.mkAdkPart None
                      (Some [("name", PyStr "add_activity")])]))).


(** A final event whose first part is empty while its second part holds a
    function response. *)
Definition late_response_event : ActivityTracker.AdkEvent :=
  ActivityTracker.mkAdkEvent true
    (Some (ActivityTracker.mkAdkContent
             (Some [ActivityTracker.mkAdkPart None None;
                    ActivityTracker.mkAdkPart None
                      (Some [("name", PyStr "add_activity")])]))).

Definition late_response_runner (session_id query : string)
  : list ActivityTracker.AdkEvent * option PyExc :=
  ([tool_event; late_response_event], None).

Definition tracker_env
    (runner : string -> string -> list ActivityTracker.AdkEvent * option PyExc)
  : Collaborators :=
  tracker_collaborators runner runner ∅ (fun _ => true)
    (fun _ => Raised (ExternalError "json")) (fun _ => EmptyString).


(** A clock reading and stand-ins for the library calls, for trying the
    calendar agent: noon of day 20000 (a Friday). *)
Definition sample_now : UtcClock.t := UtcClock.mk 20000 43200000000.

Definition sample_replace_day_time (x : UtcClock.t)
    (day hour minute second microsecond : Z) : UtcClock.t :=
  UtcClock.mk (UtcClock.day x)
    (UtcClock.time_of_day hour minute second microsecond).

Definition sample_monthrange (x : UtcClock.t) : Z := 31%Z.

Definition sample_eqb (x y : UtcClock.t) : bool :=
  ((UtcClock.day x =? UtcClock.day y) && (UtcClock.micro x =? UtcClock.micro y))%Z.

Definition sample_strftime (x : UtcClock.t) : string := "2024-10-04".

Definition no_date_found (query : string) : Outcome (option UtcClock.t) :=
  Returned None.

Definition sample_format (v : PyVal) : string :=
  match v with
  | PyStr s => s
  | _ => "None"
  end.

Definition sample_exc_str (e : PyExc) : string :=
  match e with
  | KeyError k => "'" +:+ k +:+ "'"
  | ValueError m | ExternalError m => m
  | _ => "error"
  end.

(** The calendar agent on the sample clock, for a given Google API. *)
Definition sample_invoke
    (api : CalendarAgent.EventsQuery UtcClock.t -> CalendarAgent.ApiReply)
  : string -> string -> StateExc SampleDisk CalendarAgent.AgentResult :=
  CalendarLookups.invoke UtcClock.t sample_now UtcClock.replace_time
    sample_replace_day_time UtcClock.minus_days UtcClock.plus_timedelta
    UtcClock.weekday sample_monthrange (UtcClock.mk 0 0) sample_eqb
    sample_strftime no_date_found sample_format api sample_exc_str no_summary
    sample_openpyxl.

Definition sample_date_range (query : string)
  : option UtcClock.t * option UtcClock.t :=
  CalendarLookups._get_date_range_from_query UtcClock.t sample_now
    UtcClock.replace_time sample_replace_day_time UtcClock.minus_days
    UtcClock.plus_timedelta UtcClock.weekday sample_monthrange query.


Definition empty_utc_calendar (q : CalendarAgent.EventsQuery UtcClock.t)
  : CalendarAgent.ApiReply :=
  CalendarAgent.ApiItems (Some []).

Definition standup_event : PyMapping :=
  [("summary", PyStr "Standup");
   ("start", PyDict [("dateTime", PyStr "2024-10-04T09:00:00Z")]);
   ("end", PyDict [("dateTime", PyStr "2024-10-04T09:15:00Z")])].

Definition standup : PyVal := PyDict standup_event.

(** An all-day event without a title. *)
Definition day_off_event : PyMapping :=
  [("id", PyStr "e2");
   ("start", PyDict [("date", PyStr "2024-10-05")]);
   ("attachments", PyList []);
   ("conferenceData", PyDict [("conferenceId", PyStr "c1")])].

Definition event_without_start : PyMapping := [("summary", PyStr "Lunch")].

Definition broken_calendar (q : CalendarAgent.EventsQuery UtcClock.t)
  : CalendarAgent.ApiReply :=
  CalendarAgent.ApiItems (Some [standup; PyDict event_without_start]).

Definition found_date (query : string) : Outcome (option UtcClock.t) :=
  Returned (Some sample_now).

(** * Properties *)

(** ** Strings *)

Lemma starts_with_spec (p s : string) :
  starts_with p s = true <-> exists post, s = p +:+ post.
Proof.
  revert s. induction p as [|a p IH]; intros s; simpl.
  - split; [intros _; exists s; reflexivity | reflexivity].
  - destruct s as [|b s]; simpl.
    + split; [discriminate | intros [post H]; discriminate].
    + rewrite andb_true_iff, IH. split.
      * intros [Hab [post ->]]. apply Ascii.eqb_eq in Hab as ->.
        exists post. reflexivity.
      * intros [post H]. injection H as -> ->. split.
        -- apply Ascii.eqb_refl.
        -- exists post. reflexivity.
Qed.

Lemma str_contains_here (needle hay : string) :
  starts_with needle hay = true -> str_contains needle hay = true.
Proof. intros H. destruct hay; simpl in *; rewrite H; reflexivity. Qed.

Lemma str_contains_later (needle : string) (c : ascii) (hay : string) :
  str_contains needle hay = true -> str_contains needle (String c hay) = true.
Proof. intros H. simpl. rewrite H. apply orb_true_r. Qed.

(** [str_contains] decides the occurrence of [needle] in [hay]. *)
Lemma str_contains_spec (needle hay : string) :
  str_contains needle hay = true <-> Substring needle hay.
Proof.
  split.
  - induction hay as [|c hay IH]; simpl.
    + rewrite orb_false_r. intros H. apply starts_with_spec in H as [post ->].
      exists "", post. reflexivity.
    + intros H. apply orb_true_iff in H as [H|H].
      * apply (starts_with_spec needle (String c hay)) in H as [post ->].
        exists "", post. reflexivity.
      * destruct (IH H) as (pre & post & ->).
        exists (String c pre), post. reflexivity.
  - intros (pre & post & ->). induction pre as [|c pre IH]; simpl.
    + apply str_contains_here, starts_with_spec. exists post. reflexivity.
    + apply (str_contains_later needle c), IH.
Qed.

Lemma str_contains_false (needle hay : string) :
  str_contains needle hay = false <-> ~ Substring needle hay.
Proof.
  rewrite <- str_contains_spec. destruct (str_contains needle hay); split;
    congruence.
Qed.

Lemma plain_byte_lower (c : ascii) : plain_byte c = true -> lower_ascii c = c.
Proof.
  unfold plain_byte, lower_ascii. cbv zeta. intros H.
  apply andb_true_iff in H as [_ H]. apply negb_true_iff in H.
  rewrite H. reflexivity.
Qed.

Lemma plain_byte_not (n : nat) (c : ascii) :
  (128 <= n)%nat -> plain_byte c = true -> is_byte n c = false.
Proof.
  unfold plain_byte, is_byte. cbv zeta. intros Hn H.
  apply andb_true_iff in H as [H _]. apply Nat.ltb_lt in H.
  apply Nat.eqb_neq. lia.
Qed.

(** A plain byte starts no character that [lower] rewrites. *)
Lemma lower_plain_head (c : ascii) (s : string) :
  plain_byte c = true -> lower (String c s) = String c (lower s).
Proof.
  intros H. simpl.
  rewrite (plain_byte_not 196 c), (plain_byte_not 226 c), (plain_byte_lower c)
    by (lia || exact H).
  simpl. destruct s as [|c2 [|c3 s3]]; reflexivity.
Qed.

Lemma lower_plain (p post : string) :
  plain p = true -> lower (p +:+ post) = p +:+ lower post.
Proof.
  induction p as [|c p IH]; simpl plain; intros H; [reflexivity|].
  apply andb_true_iff in H as [Hc Hp].
  change (String c p +:+ post) with (String c (p +:+ post)).
  rewrite lower_plain_head by exact Hc. rewrite IH by exact Hp. reflexivity.
Qed.

(** A plain byte ends no character that [lower] rewrites: what comes
    before it is lower-cased on its own. *)
Lemma lower_before_plain (n : nat) (pre : string) (c : ascii) (s : string) :
  (String.length pre <= n)%nat ->
  plain_byte c = true ->
  exists pre', lower (pre +:+ String c s) = pre' +:+ lower (String c s).
Proof.
  intros Hlen Hc. revert pre Hlen.
  induction n as [|n IH]; intros pre Hlen.
  - destruct pre; [|simpl in Hlen; lia]. exists "". reflexivity.
  - destruct pre as [|c1 [|c2 pre2]].
    + exists "". reflexivity.
    + exists (String (lower_ascii c1) "").
      change (String c1 "" +:+ String c s) with (String c1 (String c s)).
      cbn [lower]. rewrite (plain_byte_not 176 c), andb_false_r by (lia || exact Hc).
      destruct s as [|c3 s3].
      * reflexivity.
      * rewrite (plain_byte_not 132 c), andb_false_r by (lia || exact Hc).
        reflexivity.
    + simpl in Hlen.
      destruct (is_byte 196 c1 && is_byte 176 c2) eqn:Hi.
      * destruct (IH pre2 ltac:(lia)) as [pre' H].
        exists (String "i"
                  (String (ascii_of_nat 204) (String (ascii_of_nat 135) pre'))).
        change (String c1 (String c2 pre2) +:+ String c s)
          with (String c1 (String c2 (pre2 +:+ String c s))).
        cbn [lower]. rewrite Hi, H. reflexivity.
      * destruct pre2 as [|c3 pre3].
        -- destruct (IH (String c2 "") ltac:(simpl; lia)) as [pre' H].
           exists (String (lower_ascii c1) pre').
           change (String c1 (String c2 "") +:+ String c s)
             with (String c1 (String c2 (String c s))).
           change (String c2 "" +:+ String c s) with (String c2 (String c s)) in H.
           cbn [lower] in *. rewrite Hi.
           rewrite (plain_byte_not 170 c), andb_false_r by (lia || exact Hc).
           rewrite H. reflexivity.
        -- change (String c1 (String c2 (String c3 pre3)) +:+ String c s)
             with (String c1 (String c2 (String c3 (pre3 +:+ String c s)))).
           destruct (is_byte 226 c1 && is_byte 132 c2 && is_byte 170 c3) eqn:Hk.
           ++ destruct (IH pre3 ltac:(simpl in Hlen; lia)) as [pre' H].
              exists (String "k" pre'). cbn [lower]. rewrite Hi, Hk, H. reflexivity.
           ++ destruct (IH (String c2 (String c3 pre3)) ltac:(simpl in *; lia))
                as [pre' H].
              exists (String (lower_ascii c1) pre').
              change (String c2 (String c3 pre3) +:+ String c s)
                with (String c2 (String c3 (pre3 +:+ String c s))) in H.
              cbn [lower] in *. rewrite Hi, Hk. rewrite H. reflexivity.
Qed.

(** Lower-casing keeps an occurrence of a lower-case ASCII phrase. *)
Lemma Substring_lower (p query : string) :
  plain p = true -> Substring p query -> Substring p (lower query).
Proof.
  intros Hp (pre & post & ->). destruct p as [|c p].
  - exists "", (lower (pre +:+ post)). reflexivity.
  - simpl in Hp. apply andb_true_iff in Hp as [Hc Hp].
    change (String c p +:+ post) with (String c (p +:+ post)).
    destruct (lower_before_plain (String.length pre) pre c (p +:+ post)
                (le_n _) Hc) as [pre' ->].
    exists pre', (lower post).
    change (String c (p +:+ post)) with (String c p +:+ post).
    rewrite lower_plain; [reflexivity|]. simpl. rewrite Hc, Hp. reflexivity.
Qed.

(** ** The task store *)

Lemma update_store_known (tm : TaskManager) (task_id : string) (old : Task)
    (new_status : TaskStatus) (new_artifacts : option (list Artifact)) :
  tasks tm !! task_id = Some old ->
  AgentTaskManager._update_store task_id new_status new_artifacts tm =
    (let updated :=
       mkTask (t_id old) (t_sessionId old) new_status
         match new_artifacts with
         | None => artifacts old
         | Some arts => Some (artifacts_of old ++ arts)
         end in
     (mkTaskManager (<[task_id := updated]> (tasks tm))
        (push_notification_infos tm) (trace tm), Returned updated)).
Proof.
  intros H. unfold AgentTaskManager._update_store, bind, get_state. simpl.
  rewrite H. reflexivity.
Qed.

Lemma update_store_unknown (tm : TaskManager) (task_id : string)
    (new_status : TaskStatus) (new_artifacts : option (list Artifact)) :
  tasks tm !! task_id = None ->
  AgentTaskManager._update_store task_id new_status new_artifacts tm =
    (tm, Raised (ValueError ("Task " +:+ task_id +:+ " not found"))).
Proof.
  intros H. unfold AgentTaskManager._update_store, bind, get_state. simpl.
  rewrite H. reflexivity.
Qed.

(** C8: [_update_store] on an existing task puts the given status in place
    of the old one, whatever the old one was, and extends the artifacts at
    the end: the artifacts held before are a prefix of those held after, in
    the same order, and the other fields and tasks are left alone. *)
Theorem update_store_replaces_status_appends_artifacts
    (tm : TaskManager) (task_id : string) (old : Task)
    (new_status : TaskStatus) (new_artifacts : option (list Artifact)) :
  tasks tm !! task_id = Some old ->
  exists updated,
    AgentTaskManager._update_store task_id new_status new_artifacts tm =
      (mkTaskManager (<[task_id := updated]> (tasks tm))
         (push_notification_infos tm) (trace tm), Returned updated)
    /\ status updated = new_status
    /\ artifacts_of updated = artifacts_of old ++ default [] new_artifacts
    /\ artifacts_of old `prefix_of` artifacts_of updated
    /\ t_id updated = t_id old
    /\ t_sessionId updated = t_sessionId old.
Proof.
  intros H. rewrite (update_store_known _ _ _ _ _ H). cbv zeta.
  eexists. split; [reflexivity|].
  assert (Happ : artifacts_of
            (mkTask (t_id old) (t_sessionId old) new_status
               match new_artifacts with
               | None => artifacts old
               | Some arts => Some (artifacts_of old ++ arts)
               end) = artifacts_of old ++ default [] new_artifacts).
  { destruct new_artifacts as [arts|]; unfold artifacts_of; simpl;
      [reflexivity | rewrite app_nil_r; reflexivity]. }
  repeat split; try reflexivity.
  - exact Happ.
  - rewrite Happ. eexists. reflexivity.
Qed.

Lemma update_store_replaces_status_appends_artifacts_witness :
  tasks one_task_manager !! "t1" = Some finished_task /\
  exists updated,
    AgentTaskManager._update_store "t1" (mkTaskStatus WORKING None)
      (Some [mkArtifact [TextPart "new"] 0 None]) one_task_manager =
      (mkTaskManager (<["t1" := updated]> (tasks one_task_manager))
         (push_notification_infos one_task_manager) (trace one_task_manager),
       Returned updated)
    /\ status updated = mkTaskStatus WORKING None
    /\ artifacts_of updated =
         artifacts_of finished_task ++ default [] (Some [mkArtifact [TextPart "new"] 0 None])
    /\ artifacts_of finished_task `prefix_of` artifacts_of updated
    /\ t_id updated = t_id finished_task
    /\ t_sessionId updated = t_sessionId finished_task.
Proof.
  assert (H : tasks one_task_manager !! "t1" = Some finished_task)
    by (vm_compute; reflexivity).
  split; [exact H|].
  exact (update_store_replaces_status_appends_artifacts one_task_manager "t1"
           finished_task (mkTaskStatus WORKING None)
           (Some [mkArtifact [TextPart "new"] 0 None]) H).
Defined.

(** ** Push-notification registration *)

Section PushNotification.

Variable env : Collaborators.

Lemma set_push_rejected (tm : TaskManager) (task_id : string)
    (cfg : PushNotificationConfig) :
  verify_push_notification_url env (url cfg) = false ->
  AgentTaskManager.set_push_notification_info env task_id cfg tm =
    (mkTaskManager (tasks tm) (push_notification_infos tm)
       (trace tm ++ [VerifyUrl (url cfg)]), Returned false).
Proof.
  intros H. unfold AgentTaskManager.set_push_notification_info, bind, emit.
  simpl. rewrite H. reflexivity.
Qed.

Lemma set_push_accepted (tm : TaskManager) (task_id : string)
    (cfg : PushNotificationConfig) :
  verify_push_notification_url env (url cfg) = true ->
  AgentTaskManager.set_push_notification_info env task_id cfg tm =
    (mkTaskManager (tasks tm) (<[task_id := cfg]> (push_notification_infos tm))
       (trace tm ++ [VerifyUrl (url cfg)]), Returned true).
Proof.
  intros H. unfold AgentTaskManager.set_push_notification_info, bind, emit.
  simpl. rewrite H. reflexivity.
Qed.

(** C6: when the verification challenge of the config's URL fails,
    [set_push_notification_info] returns [False] and registers nothing:
    the registered configs are the ones held before, so for every task id
    [get_push_notification_info] answers as it did before the call; the
    task store is untouched as well. *)
Theorem set_push_notification_info_failed_verification
    (tm : TaskManager) (task_id : string) (cfg : PushNotificationConfig) :
  verify_push_notification_url env (url cfg) = false ->
  exists tm',
    AgentTaskManager.set_push_notification_info env task_id cfg tm =
      (tm', Returned false)
    /\ push_notification_infos tm' = push_notification_infos tm
    /\ tasks tm' = tasks tm
    /\ forall id,
         snd (InMemoryTaskManager.get_push_notification_info id tm') =
         snd (InMemoryTaskManager.get_push_notification_info id tm).
Proof.
  intros H. rewrite (set_push_rejected _ _ _ H).
  eexists. split; [reflexivity|]. repeat split.
Qed.

End PushNotification.

Lemma set_push_notification_info_failed_verification_witness :
  verify_push_notification_url no_agent (url callback_config) = false /\
  exists tm',
    AgentTaskManager.set_push_notification_info no_agent "t1" callback_config
      registered_manager = (tm', Returned false)
    /\ push_notification_infos tm' = push_notification_infos registered_manager
    /\ tasks tm' = tasks registered_manager
    /\ forall id,
         snd (InMemoryTaskManager.get_push_notification_info id tm') =
         snd (InMemoryTaskManager.get_push_notification_info id registered_manager).
Proof.
  split; [reflexivity|].
  apply (set_push_notification_info_failed_verification no_agent
           registered_manager "t1" callback_config).
  reflexivity.
Defined.

(** ** Request validation *)

Lemma disjoint_modes_incompatible (accepted supported : list string) :
  (forall m, In m accepted -> ~ In m supported) ->
  utils.are_modalities_compatible accepted supported = false.
Proof.
  intros Hdisj. unfold utils.are_modalities_compatible.
  destruct (existsb _ supported) eqn:E; [|reflexivity].
  apply existsb_exists in E as (x & Hx & E).
  apply existsb_exists in E as (y & Hy & E).
  apply String.eqb_eq in E as ->. destruct (Hdisj y Hy Hx).
Qed.

(** C2: when no accepted output mode of the request is among the agent's
    [SUPPORTED_CONTENT_TYPES], [on_send_task] returns the incompatible-types
    error and leaves the manager as it was: no task is upserted or changed,
    no config registered, no collaborator called. *)
Theorem on_send_task_incompatible_modes
    (env : Collaborators) (tm : TaskManager) (request : SendTaskRequest) :
  (forall m, In m (acceptedOutputModes (params request)) ->
             ~ In m SUPPORTED_CONTENT_TYPES) ->
  AgentTaskManager.on_send_task env request tm =
    (tm, Returned (mkSendTaskResponse (req_id request) None
                     (Some ContentTypeNotSupportedError))).
Proof.
  intros Hdisj. unfold AgentTaskManager.on_send_task,
    AgentTaskManager._validate_request.
  rewrite (disjoint_modes_incompatible _ _ Hdisj). reflexivity.
Qed.

Lemma on_send_task_incompatible_modes_witness :
  (forall m, In m (acceptedOutputModes (params image_request)) ->
             ~ In m SUPPORTED_CONTENT_TYPES) /\
  AgentTaskManager.on_send_task no_agent image_request one_task_manager =
    (one_task_manager,
     Returned (mkSendTaskResponse (req_id image_request) None
                 (Some ContentTypeNotSupportedError))).
Proof.
  assert (H : forall m, In m (acceptedOutputModes (params image_request)) ->
                        ~ In m SUPPORTED_CONTENT_TYPES).
  { simpl. intros m [<-|[]] [H|[H|[]]]; discriminate. }
  split; [exact H|].
  exact (on_send_task_incompatible_modes no_agent one_task_manager image_request H).
Defined.

(** ** The synchronous path *)

Lemma upsert_task_run (p : TaskSendParams) (tm : TaskManager) :
  exists tm2 t,
    InMemoryTaskManager.upsert_task p tm = (tm2, Returned t)
    /\ tasks tm2 !! param_id p = Some t
    /\ artifacts_of t = stored_artifacts tm (param_id p)
    /\ push_notification_infos tm2 = push_notification_infos tm
    /\ trace tm2 = trace tm.
Proof.
  unfold InMemoryTaskManager.upsert_task, bind, get_state, stored_artifacts.
  simpl. destruct (tasks tm !! param_id p) as [t|] eqn:E.
  - exists tm, t. unfold ret. repeat split; assumption.
  - eexists _, _. unfold ret. simpl. split; [reflexivity|].
    simpl. rewrite lookup_insert_eq. repeat split.
Qed.

Lemma send_task_notification_run (task : Task) (tm : TaskManager) :
  exists extra,
    AgentTaskManager.send_task_notification task tm =
      (mkTaskManager (tasks tm) (push_notification_infos tm) (trace tm ++ extra),
       Returned tt)
    /\ Forall (fun e => calls_agent e = false) extra.
Proof.
  unfold AgentTaskManager.send_task_notification,
    InMemoryTaskManager.has_push_notification_info,
    InMemoryTaskManager.get_push_notification_info, bind, get_state, ret, emit.
  destruct (push_notification_infos tm !! t_id task) as [info|] eqn:E;
    simpl; rewrite ?E; simpl.
  - exists [PushNotification (url info) task]. split; [reflexivity|].
    repeat constructor.
  - exists []. rewrite app_nil_r. destruct tm. split; [reflexivity|constructor].
Qed.

Section Invoke.

Variable env : Collaborators.

(** What a returning [_invoke] has done. *)
Lemma invoke_returned (request : SendTaskRequest) (tm tm' : TaskManager)
    (resp : SendTaskResponse) :
  AgentTaskManager._invoke env request tm = (tm', Returned resp) ->
  exists query agent_result old,
    AgentTaskManager._get_user_query (params request) = Returned query
    /\ agent_invoke env query (sessionId (params request)) = Returned agent_result
    /\ tasks tm !! param_id (params request) = Some old
    /\ let updated :=
         mkTask (t_id old) (t_sessionId old)
           (mkTaskStatus
              (if str_contains "MISSING_INFO:" agent_result
               then INPUT_REQUIRED else COMPLETED)
              (Some (mkMessage agent [TextPart agent_result])))
           (Some (artifacts_of old ++ [Artifact_from_parts [TextPart agent_result]])) in
       resp = mkSendTaskResponse (req_id request) (Some updated) None
       /\ tasks tm' = <[param_id (params request) := updated]> (tasks tm).
Proof.
  unfold AgentTaskManager._invoke, bind at 1, lift.
  destruct (AgentTaskManager._get_user_query (params request)) as [query|e]
    eqn:Hq; [|discriminate].
  unfold bind at 1, emit. unfold bind at 1.
  destruct (agent_invoke env query (sessionId (params request)))
    as [agent_result|e] eqn:Ha; [|discriminate].
  unfold ret at 1. unfold bind at 1.
  match goal with
  | |- context [AgentTaskManager._update_store ?i ?s ?a ?m] =>
      destruct (tasks m !! i) as [old|] eqn:E;
      [rewrite (update_store_known m i old s a E)
      |rewrite (update_store_unknown m i s a E); discriminate]
  end.
  cbv zeta. unfold ret. intros H. injection H as <- <-.
  exists query, agent_result, old. simpl in E. repeat split; assumption.
Qed.

End Invoke.

Section OnSendTask.

Variable env : Collaborators.

(** The three ways [on_send_task] can go before the agent is involved:
    the request is refused by validation, the push-notification URL is
    refused by verification, or the task is upserted, set to [WORKING],
    notified, and handed to [_invoke]. *)
Lemma on_send_task_cases (request : SendTaskRequest) (tm : TaskManager) :
  (exists r,
      AgentTaskManager._validate_request request = Some r
      /\ AgentTaskManager.on_send_task env request tm =
           (tm, Returned (mkSendTaskResponse (req_id request) None (rpc_error r))))
  \/ (exists cfg,
        AgentTaskManager._validate_request request = None
        /\ pushNotification (params request) = Some cfg
        /\ verify_push_notification_url env (url cfg) = false
        /\ AgentTaskManager.on_send_task env request tm =
             (mkTaskManager (tasks tm) (push_notification_infos tm)
                (trace tm ++ [VerifyUrl (url cfg)]),
              Returned (mkSendTaskResponse (req_id request) None
                          (Some (InvalidParamsError "Push notification URL is invalid")))))
  \/ (exists tm4 working extra,
        AgentTaskManager._validate_request request = None
        /\ tasks tm4 !! param_id (params request) = Some working
        /\ status working = mkTaskStatus WORKING None
        /\ artifacts working = Some (stored_artifacts tm (param_id (params request)))
        /\ trace tm4 = trace tm ++ extra
        /\ Forall (fun e => calls_agent e = false) extra
        /\ AgentTaskManager.on_send_task env request tm =
             AgentTaskManager._invoke env request tm4).
Proof.
  unfold AgentTaskManager.on_send_task.
  destruct (AgentTaskManager._validate_request request) as [r|] eqn:Hv.
  { left. exists r. split; reflexivity. }
  right.
  assert (Hrest : forall tm1 pre,
    tasks tm1 = tasks tm -> trace tm1 = trace tm ++ pre ->
    Forall (fun e => calls_agent e = false) pre ->
    exists tm4 working extra,
      tasks tm4 !! param_id (params request) = Some working
      /\ status working = mkTaskStatus WORKING None
      /\ artifacts working = Some (stored_artifacts tm (param_id (params request)))
      /\ trace tm4 = trace tm ++ extra
      /\ Forall (fun e => calls_agent e = false) extra
      /\ (InMemoryTaskManager.upsert_task (params request) ;;;
          task <- AgentTaskManager._update_store (param_id (params request))
                    (mkTaskStatus WORKING None) (Some []) ;;
          AgentTaskManager.send_task_notification task ;;;
          AgentTaskManager._invoke env request) tm1 =
         AgentTaskManager._invoke env request tm4).
  { intros tm1 pre Htasks Htrace Hpre.
    destruct (upsert_task_run (params request) tm1)
      as (tm2 & t & Hup & Hlook & Harts & _ & Htr2).
    unfold bind at 1. rewrite Hup. unfold bind at 1.
    rewrite (update_store_known _ _ _ _ _ Hlook). cbv zeta.
    unfold bind at 1.
    match goal with
    | |- context [AgentTaskManager.send_task_notification ?w ?m] =>
        destruct (send_task_notification_run w m) as (extra & Hn & Hextra);
        rewrite Hn;
        exists (mkTaskManager (tasks m) (push_notification_infos m)
                  (trace m ++ extra)), w, (pre ++ extra)
    end.
    split; [simpl; apply lookup_insert_eq|].
    split; [reflexivity|].
    split; [simpl; rewrite app_nil_r, Harts; unfold stored_artifacts;
            rewrite Htasks; reflexivity|].
    split; [simpl; rewrite Htr2, Htrace, app_assoc; reflexivity|].
    split; [apply Forall_app; split; assumption|].
    reflexivity. }
  destruct (pushNotification (params request)) as [cfg|] eqn:Hp.
  - destruct (verify_push_notification_url env (url cfg)) eqn:Hver.
    + right. unfold bind at 1. rewrite (set_push_accepted _ _ _ _ Hver). simpl.
      destruct (Hrest
        (mkTaskManager (tasks tm)
           (<[param_id (params request) := cfg]> (push_notification_infos tm))
           (trace tm ++ [VerifyUrl (url cfg)])) [VerifyUrl (url cfg)])
        as (tm4 & working & extra & H1 & H2 & H3 & H4 & H5 & H6);
        [reflexivity | reflexivity | repeat constructor |].
      exists tm4, working, extra. repeat split; assumption.
    + left. exists cfg. repeat split; try assumption.
      unfold bind at 1. rewrite (set_push_rejected _ _ _ _ Hver). reflexivity.
  - right. unfold bind at 1, ret at 1. simpl.
    destruct (Hrest tm []) as (tm4 & working & extra & H1 & H2 & H3 & H4 & H5 & H6);
      [reflexivity | rewrite app_nil_r; reflexivity | constructor |].
    exists tm4, working, extra. repeat split; assumption.
Qed.

End OnSendTask.

(** C1: when [on_send_task] returns a response that carries a task, the
    agent was invoked on the request's query and returned a string, and the
    task stored under the request's task id is the returned one: its state
    is [INPUT_REQUIRED] if the string contains "MISSING_INFO:" and
    [COMPLETED] if it does not, its status message is the agent message
    with the one text part holding the string, and its artifacts are those
    stored before followed by one artifact with that same text part. *)
Theorem on_send_task_success_state
    (env : Collaborators) (request : SendTaskRequest) (tm tm' : TaskManager)
    (resp : SendTaskResponse) (task : Task) :
  AgentTaskManager.on_send_task env request tm = (tm', Returned resp) ->
  result resp = Some task ->
  exists query agent_result,
    AgentTaskManager._get_user_query (params request) = Returned query
    /\ agent_invoke env query (sessionId (params request)) = Returned agent_result
    /\ tasks tm' !! param_id (params request) = Some task
    /\ (Substring "MISSING_INFO:" agent_result ->
        state (status task) = INPUT_REQUIRED)
    /\ (~ Substring "MISSING_INFO:" agent_result ->
        state (status task) = COMPLETED)
    /\ message (status task) = Some (mkMessage agent [TextPart agent_result])
    /\ exists artifact,
         artifacts task =
           Some (stored_artifacts tm (param_id (params request)) ++ [artifact])
         /\ art_parts artifact = [TextPart agent_result].
Proof.
  intros Hrun Hres.
  destruct (on_send_task_cases env request tm)
    as [(r & _ & H) | [(cfg & _ & _ & _ & H)
        | (tm4 & working & extra & _ & Hlook & _ & Harts & _ & _ & H)]];
    rewrite H in Hrun.
  - injection Hrun as _ <-. discriminate.
  - injection Hrun as _ <-. discriminate.
  - apply invoke_returned in Hrun
      as (query & agent_result & old & Hq & Ha & Hold & Hresp & Htasks).
    rewrite Hlook in Hold. injection Hold as <-.
    subst resp. simpl in Hres. injection Hres as <-.
    exists query, agent_result. split; [exact Hq|]. split; [exact Ha|].
    split; [rewrite Htasks; apply lookup_insert_eq|]. simpl.
    split; [intros Hsub; apply str_contains_spec in Hsub; rewrite Hsub; reflexivity|].
    split; [intros Hsub; apply str_contains_false in Hsub; rewrite Hsub; reflexivity|].
    split; [reflexivity|].
    exists (Artifact_from_parts [TextPart agent_result]).
    unfold artifacts_of. rewrite Harts. split; reflexivity.
Qed.

Lemma on_send_task_success_state_witness :
  AgentTaskManager.on_send_task no_agent greeting_request empty_manager =
    (mkTaskManager {[ "t1" := greeting_done ]} ∅ [AgentInvoke "hi" "s1"],
     Returned (mkSendTaskResponse "r1" (Some greeting_done) None))
  /\ result (mkSendTaskResponse "r1" (Some greeting_done) None) = Some greeting_done
  /\ exists query agent_result,
    AgentTaskManager._get_user_query (params greeting_request) = Returned query
    /\ agent_invoke no_agent query (sessionId (params greeting_request)) =
         Returned agent_result
    /\ tasks (mkTaskManager {[ "t1" := greeting_done ]} ∅ [AgentInvoke "hi" "s1"])
         !! param_id (params greeting_request) = Some greeting_done
    /\ (Substring "MISSING_INFO:" agent_result ->
        state (status greeting_done) = INPUT_REQUIRED)
    /\ (~ Substring "MISSING_INFO:" agent_result ->
        state (status greeting_done) = COMPLETED)
    /\ message (status greeting_done) = Some (mkMessage agent [TextPart agent_result])
    /\ exists artifact,
         artifacts greeting_done =
           Some (stored_artifacts empty_manager (param_id (params greeting_request))
                 ++ [artifact])
         /\ art_parts artifact = [TextPart agent_result].
Proof.
  assert (Hrun : AgentTaskManager.on_send_task no_agent greeting_request empty_manager =
    (mkTaskManager {[ "t1" := greeting_done ]} ∅ [AgentInvoke "hi" "s1"],
     Returned (mkSendTaskResponse "r1" (Some greeting_done) None)))
    by (vm_compute; reflexivity).
  split; [exact Hrun|]. split; [reflexivity|].
  exact (on_send_task_success_state no_agent greeting_request empty_manager _ _ _
           Hrun eq_refl).
Defined.

Example on_send_task_missing_info :
  exists tm' task,
    AgentTaskManager.on_send_task two_step_agent greeting_request empty_manager =
      (tm', Returned (mkSendTaskResponse "r1" (Some task) None))
    /\ state (status task) = INPUT_REQUIRED
    /\ tasks tm' !! "t1" = Some task.
Proof. eexists _, _. split; [vm_compute; reflexivity|]. split; reflexivity. Qed.

(** ** A first part that is not text *)

Section NonTextQuery.

Variable env : Collaborators.
Variable request : SendTaskRequest.
Variable first : Part.
Variable rest : list Part.
Hypothesis Hparts : msg_parts (param_message (params request)) = first :: rest.
Hypothesis Hfirst : forall text, first <> TextPart text.

Lemma get_user_query_non_text :
  AgentTaskManager._get_user_query (params request) =
    Raised (ValueError "Only text parts are supported").
Proof.
  unfold AgentTaskManager._get_user_query. rewrite Hparts.
  destruct first as [text| |]; [destruct (Hfirst text eq_refl) | |]; reflexivity.
Qed.

Lemma invoke_non_text (tm : TaskManager) :
  AgentTaskManager._invoke env request tm =
    (tm, Raised (ValueError "Only text parts are supported")).
Proof.
  unfold AgentTaskManager._invoke, bind, lift.
  rewrite get_user_query_non_text. reflexivity.
Qed.

Lemma stream_generator_non_text (tm : TaskManager) :
  AgentTaskManager._stream_generator env request tm =
    (tm, Raised (ValueError "Only text parts are supported")).
Proof.
  unfold AgentTaskManager._stream_generator, bind, lift.
  rewrite get_user_query_non_text. reflexivity.
Qed.

End NonTextQuery.

Lemma validate_request_error (request : SendTaskRequest) (r : JSONRPCResponse) :
  AgentTaskManager._validate_request request = Some r ->
  exists err, rpc_error r = Some err.
Proof.
  unfold AgentTaskManager._validate_request.
  destruct (negb _).
  - intros H. injection H as <-. eexists. reflexivity.
  - destruct (pushNotification (params request)) as [cfg|]; [|discriminate].
    destruct (String.eqb (url cfg) ""); [|discriminate].
    intros H. injection H as <-. eexists. reflexivity.
Qed.

(** C7, as the code has it: when the first part of the inbound message is
    not a text part, [_get_user_query] raises [ValueError("Only text parts
    are supported")].  The streaming generator raises it before anything
    else: no agent call, no store update, the manager is as it was.
    [on_send_task] never calls the agent either, but reaches the query only
    after its [WORKING] transition: it ends with an error response and the
    store untouched, or it raises with the task stored in state [WORKING]
    and no message. *)
Theorem non_text_first_part_raises
    (env : Collaborators) (request : SendTaskRequest) (first : Part)
    (rest : list Part) :
  msg_parts (param_message (params request)) = first :: rest ->
  (forall text, first <> TextPart text) ->
  AgentTaskManager._get_user_query (params request) =
    Raised (ValueError "Only text parts are supported")
  /\ (forall tm,
        AgentTaskManager._stream_generator env request tm =
          (tm, Raised (ValueError "Only text parts are supported")))
  /\ (forall tm tm' out,
        AgentTaskManager.on_send_task env request tm = (tm', out) ->
        (exists extra,
            trace tm' = trace tm ++ extra
            /\ Forall (fun e => calls_agent e = false) extra)
        /\ ((exists err,
                out = Returned (mkSendTaskResponse (req_id request) None (Some err))
                /\ tasks tm' = tasks tm)
            \/ (out = Raised (ValueError "Only text parts are supported")
                /\ exists working,
                     tasks tm' !! param_id (params request) = Some working
                     /\ status working = mkTaskStatus WORKING None))).
Proof.
  intros Hparts Hfirst.
  split; [exact (get_user_query_non_text request first rest Hparts Hfirst)|].
  split; [intros tm; exact (stream_generator_non_text env request first rest
                              Hparts Hfirst tm)|].
  intros tm tm' out Hrun.
  destruct (on_send_task_cases env request tm)
    as [(r & Hv & H) | [(cfg & _ & _ & _ & H)
        | (tm4 & working & extra & _ & Hlook & Hst & _ & Htr & Hextra & H)]];
    rewrite H in Hrun.
  - injection Hrun as <- <-. split.
    + exists []. rewrite app_nil_r. split; [reflexivity|constructor].
    + left. destruct (validate_request_error _ _ Hv) as [err ->].
      exists err. split; reflexivity.
  - injection Hrun as <- <-. split.
    + eexists. split; [reflexivity|]. repeat constructor.
    + left. eexists. split; reflexivity.
  - rewrite (invoke_non_text env request first rest Hparts Hfirst) in Hrun.
    injection Hrun as <- <-. split.
    + exists extra. split; assumption.
    + right. split; [reflexivity|]. exists working. split; assumption.
Qed.

Lemma non_text_first_part_raises_witness :
  msg_parts (param_message (params data_request)) =
    [DataPart (PyDict [("k", PyStr "v")])]
  /\ (forall text, DataPart (PyDict [("k", PyStr "v")]) <> TextPart text)
  /\ AgentTaskManager._get_user_query (params data_request) =
       Raised (ValueError "Only text parts are supported")
  /\ (forall tm,
        AgentTaskManager._stream_generator no_agent data_request tm =
          (tm, Raised (ValueError "Only text parts are supported")))
  /\ (forall tm tm' out,
        AgentTaskManager.on_send_task no_agent data_request tm = (tm', out) ->
        (exists extra,
            trace tm' = trace tm ++ extra
            /\ Forall (fun e => calls_agent e = false) extra)
        /\ ((exists err,
                out = Returned (mkSendTaskResponse (req_id data_request) None (Some err))
                /\ tasks tm' = tasks tm)
            \/ (out = Raised (ValueError "Only text parts are supported")
                /\ exists working,
                     tasks tm' !! param_id (params data_request) = Some working
                     /\ status working = mkTaskStatus WORKING None))).
Proof.
  split; [reflexivity|]. split; [discriminate|].
  apply (non_text_first_part_raises no_agent data_request
           (DataPart (PyDict [("k", PyStr "v")])) []).
  - reflexivity.
  - discriminate.
Defined.

(** C7 as stated fails on [on_send_task]: on a stored task in state
    [COMPLETED], a request whose first part is a data part makes the call
    raise only after the store has moved the task to [WORKING]. *)
Lemma on_send_task_non_text_updates_store_first :
  tasks one_task_manager !! "t1" = Some finished_task
  /\ state (status finished_task) = COMPLETED
  /\ AgentTaskManager.on_send_task no_agent data_request one_task_manager =
       (mkTaskManager
          {[ "t1" := mkTask "t1" "s1" (mkTaskStatus WORKING None)
                       (Some [mkArtifact [TextPart "old"] 0 None]) ]} ∅ [],
        Raised (ValueError "Only text parts are supported")).
Proof. vm_compute. repeat split. Qed.

(** ** A push-notification URL that fails verification *)

Section UnverifiedPush.

Variable env : Collaborators.
Variable request : SendTaskRequest.
Variable cfg : PushNotificationConfig.
Hypothesis Hvalid : AgentTaskManager._validate_request request = None.
Hypothesis Hpush : pushNotification (params request) = Some cfg.
Hypothesis Hfail : verify_push_notification_url env (url cfg) = false.

(** The synchronous path refuses the request before it touches the store:
    a request that passes validation and carries a push-notification config
    whose URL fails verification gets the "invalid params" error, and the
    task store and the registered configs are as they were. *)
Lemma on_send_task_unverified_push (tm : TaskManager) :
  AgentTaskManager.on_send_task env request tm =
    (mkTaskManager (tasks tm) (push_notification_infos tm)
       (trace tm ++ [VerifyUrl (url cfg)]),
     Returned (mkSendTaskResponse (req_id request) None
                 (Some (InvalidParamsError "Push notification URL is invalid")))).
Proof.
  unfold AgentTaskManager.on_send_task. rewrite Hvalid, Hpush.
  unfold bind at 1. rewrite (set_push_rejected _ _ _ _ Hfail). reflexivity.
Qed.

(** The streaming path has upserted the task by the time it verifies. *)
Lemma on_send_task_subscribe_unverified_push (tm : TaskManager) :
  exists tm2 t,
    InMemoryTaskManager.upsert_task (params request) tm = (tm2, Returned t)
    /\ AgentTaskManager.on_send_task_subscribe env request tm =
         (mkTaskManager (tasks tm2) (push_notification_infos tm2)
            (trace tm2 ++ [VerifyUrl (url cfg)]),
          Returned (AgentTaskManager.SubscribeError
                      (mkJSONRPCResponse (req_id request)
                         (Some (InvalidParamsError "Push notification URL is invalid"))))).
Proof.
  destruct (upsert_task_run (params request) tm) as (tm2 & t & Hup & _).
  exists tm2, t. split; [exact Hup|].
  unfold AgentTaskManager.on_send_task_subscribe. rewrite Hvalid, Hpush.
  unfold bind at 1. rewrite Hup. unfold bind at 1.
  rewrite (set_push_rejected _ _ _ _ Hfail). reflexivity.
Qed.

End UnverifiedPush.

Lemma on_send_task_unverified_push_witness :
  AgentTaskManager._validate_request push_request = None
  /\ pushNotification (params push_request) = Some callback_config
  /\ verify_push_notification_url no_agent (url callback_config) = false
  /\ AgentTaskManager.on_send_task no_agent push_request empty_manager =
       (mkTaskManager (tasks empty_manager) (push_notification_infos empty_manager)
          (trace empty_manager ++ [VerifyUrl (url callback_config)]),
        Returned (mkSendTaskResponse (req_id push_request) None
                    (Some (InvalidParamsError "Push notification URL is invalid")))).
Proof.
  split; [reflexivity|]. split; [reflexivity|]. split; [reflexivity|].
  exact (on_send_task_unverified_push no_agent push_request callback_config
           eq_refl eq_refl eq_refl empty_manager).
Defined.

(** C5, the streaming half on the code: a request for an unknown task id
    that passes validation and carries a push-notification config whose URL
    fails verification is answered by [on_send_task_subscribe] with the
    "invalid params" error, and by then the task has been created in the
    store, in state [SUBMITTED]. *)
Theorem on_send_task_subscribe_creates_task_before_verifying
    (env : Collaborators) (request : SendTaskStreamingRequest)
    (cfg : PushNotificationConfig) (tm : TaskManager) :
  AgentTaskManager._validate_request request = None ->
  pushNotification (params request) = Some cfg ->
  verify_push_notification_url env (url cfg) = false ->
  tasks tm !! param_id (params request) = None ->
  exists tm',
    AgentTaskManager.on_send_task_subscribe env request tm =
      (tm', Returned (AgentTaskManager.SubscribeError
                        (mkJSONRPCResponse (req_id request)
                           (Some (InvalidParamsError "Push notification URL is invalid")))))
    /\ tasks tm' !! param_id (params request) =
         Some (mkTask (param_id (params request)) (sessionId (params request))
                 (mkTaskStatus SUBMITTED None) None).
Proof.
  intros Hvalid Hpush Hfail Hnone.
  destruct (on_send_task_subscribe_unverified_push env request cfg Hvalid Hpush
              Hfail tm) as (tm2 & t & Hup & Hrun).
  rewrite Hrun. eexists. split; [reflexivity|]. simpl.
  unfold InMemoryTaskManager.upsert_task, bind, get_state in Hup. simpl in Hup.
  rewrite Hnone in Hup. unfold ret in Hup. simpl in Hup.
  injection Hup as <- _. simpl. apply lookup_insert_eq.
Qed.

Lemma on_send_task_subscribe_creates_task_before_verifying_witness :
  AgentTaskManager._validate_request push_request = None
  /\ pushNotification (params push_request) = Some callback_config
  /\ verify_push_notification_url no_agent (url callback_config) = false
  /\ tasks empty_manager !! param_id (params push_request) = None
  /\ exists tm',
    AgentTaskManager.on_send_task_subscribe no_agent push_request empty_manager =
      (tm', Returned (AgentTaskManager.SubscribeError
                        (mkJSONRPCResponse (req_id push_request)
                           (Some (InvalidParamsError "Push notification URL is invalid")))))
    /\ tasks tm' !! param_id (params push_request) =
         Some (mkTask (param_id (params push_request)) (sessionId (params push_request))
                 (mkTaskStatus SUBMITTED None) None).
Proof.
  split; [reflexivity|]. split; [reflexivity|]. split; [reflexivity|].
  split; [reflexivity|].
  apply (on_send_task_subscribe_creates_task_before_verifying no_agent
           push_request callback_config empty_manager); reflexivity.
Defined.

(** ** The streaming path *)

Section Streaming.

Variable env : Collaborators.

(** A loop that meets an item it cannot read is left with an exception,
    whatever the items before and after it are. *)
Lemma run_loop_raising_item (items : list Item) (item : Item) (e : PyExc)
    (vars : option AgentTaskManager.LoopVars) :
  In item items ->
  AgentTaskManager.loop_body env item = Raised e ->
  exists e', AgentTaskManager.run_loop env items vars = Raised e'.
Proof.
  revert vars. induction items as [|i items IH]; intros vars Hin Hraise;
    [destruct Hin|].
  simpl. destruct Hin as [-> | Hin].
  - rewrite Hraise. eexists. reflexivity.
  - destruct (AgentTaskManager.loop_body env i) as [v|e0]; simpl.
    + exact (IH (Some v) Hin Hraise).
    + eexists. reflexivity.
Qed.

(** An exception in the loop ends the stream with the internal-error
    response; nothing is stored and nobody is notified. *)
Lemma stream_generator_loop_raises (request : SendTaskStreamingRequest)
    (tm : TaskManager) (query : string) (items : list Item)
    (failure : option PyExc) (e : PyExc) :
  AgentTaskManager._get_user_query (params request) = Returned query ->
  agent_stream env query (sessionId (params request)) = (items, failure) ->
  AgentTaskManager.run_loop env items None = Raised e ->
  AgentTaskManager._stream_generator env request tm =
    (mkTaskManager (tasks tm) (push_notification_infos tm)
       (trace tm ++ [AgentStream query (sessionId (params request))]),
     Returned [streaming_error request]).
Proof.
  intros Hq Hstream Hloop.
  unfold AgentTaskManager._stream_generator, bind at 1, lift. rewrite Hq.
  unfold try_except, AgentTaskManager.stream_try_block.
  unfold bind at 1, emit. rewrite Hstream.
  unfold bind at 1, lift. rewrite Hloop. reflexivity.
Qed.

(** C3, as the code has it: for an item with [is_task_complete] true,
    the loop's variables are set from the shape of [content].  A mapping
    whose [response] entry is a mapping with a [result] entry that is a
    string [json.loads] decodes gives [INPUT_REQUIRED] and one data part
    with the decoded value; a mapping with no [response] entry, or whose
    [response] entry is a container in which ["result"] is not found,
    gives [COMPLETED] and one data part with the mapping itself; a text
    gives [COMPLETED] and one text part with it.  In each case there is
    exactly one artifact, built from that part, with index 0 and
    [append] false.  For every other mapping the iteration raises, and a
    stream in which such an item occurs ends with the internal-error
    response alone, the store and the registered configs untouched. *)
Theorem loop_body_complete_item (item : Item) (c : Content) :
  item_is_task_complete item = true ->
  item_content item = Some c ->
  (forall d response encoded v,
      c = CDict d ->
      dict_get d "response" = Some (PyDict response) ->
      dict_get response "result" = Some (PyStr encoded) ->
      json_loads env encoded = Returned v ->
      AgentTaskManager.loop_body env item =
        Returned (AgentTaskManager.mkLoopVars true
                    (Some [mkArtifact [DataPart v] 0 (Some false)])
                    INPUT_REQUIRED [DataPart v]))
  /\ (forall d,
        c = CDict d ->
        dict_get d "response" = None
        \/ (exists response,
              dict_get d "response" = Some response
              /\ py_contains response "result" = Returned false) ->
        AgentTaskManager.loop_body env item =
          Returned (AgentTaskManager.mkLoopVars true
                      (Some [mkArtifact [DataPart (PyDict d)] 0 (Some false)])
                      COMPLETED [DataPart (PyDict d)]))
  /\ (forall text,
        c = CText text ->
        AgentTaskManager.loop_body env item =
          Returned (AgentTaskManager.mkLoopVars true
                      (Some [mkArtifact [TextPart text] 0 (Some false)])
                      COMPLETED [TextPart text]))
  /\ (forall d,
        c = CDict d ->
        ~ (exists response encoded v,
              dict_get d "response" = Some (PyDict response)
              /\ dict_get response "result" = Some (PyStr encoded)
              /\ json_loads env encoded = Returned v) ->
        ~ (dict_get d "response" = None
           \/ (exists response,
                 dict_get d "response" = Some response
                 /\ py_contains response "result" = Returned false)) ->
        (exists e, AgentTaskManager.loop_body env item = Raised e)
        /\ (forall (request : SendTaskStreamingRequest) (tm : TaskManager)
                   (query : string) (items : list Item) (failure : option PyExc),
              AgentTaskManager._get_user_query (params request) = Returned query ->
              agent_stream env query (sessionId (params request)) =
                (items, failure) ->
              In item items ->
              AgentTaskManager._stream_generator env request tm =
                (mkTaskManager (tasks tm) (push_notification_infos tm)
                   (trace tm ++ [AgentStream query (sessionId (params request))]),
                 Returned [streaming_error request]))).
Proof.
  intros Hdone Hc.
  split; [|split; [|split]].
  - intros d response encoded v -> Hresp Hres Hjson.
    unfold AgentTaskManager.loop_body. rewrite Hdone, Hc. simpl.
    unfold AgentTaskManager.has_response_result, dict_has, dict_getitem.
    rewrite Hresp. simpl. unfold dict_has. rewrite Hres. simpl.
    unfold dict_getitem. rewrite Hres. simpl. rewrite Hjson. reflexivity.
  - intros d -> [Hnone | (response & Hresp & Hin)];
      unfold AgentTaskManager.loop_body; rewrite Hdone, Hc; simpl;
      unfold AgentTaskManager.has_response_result, dict_has, dict_getitem.
    + rewrite Hnone. reflexivity.
    + rewrite Hresp. simpl. rewrite Hin. reflexivity.
  - intros text ->. unfold AgentTaskManager.loop_body.
    rewrite Hdone, Hc. reflexivity.
  - intros d -> Hnested Hplain.
    assert (Hraise : exists e, AgentTaskManager.loop_body env item = Raised e).
    { unfold AgentTaskManager.loop_body. rewrite Hdone, Hc. simpl.
      unfold AgentTaskManager.has_response_result, dict_has, dict_getitem.
      destruct (dict_get d "response") as [response|] eqn:Hresp;
        [|exfalso; apply Hplain; left; reflexivity].
      destruct response as [| | |text|l|inner]; simpl;
        try (eexists; reflexivity).
      - destruct (str_contains "result" text) eqn:Hin; simpl;
          [eexists; reflexivity|].
        exfalso. apply Hplain. right. exists (PyStr text).
        split; [reflexivity|]. simpl. rewrite Hin. reflexivity.
      - match goal with
        | |- context [existsb ?f l] => destruct (existsb f l) eqn:Hin
        end; simpl; [eexists; reflexivity|].
        exfalso. apply Hplain. right. exists (PyList l).
        split; [reflexivity|]. simpl. rewrite Hin. reflexivity.
      - unfold dict_has, dict_getitem.
        destruct (dict_get inner "result") as [encoded|] eqn:Hres; simpl.
        + destruct encoded as [| | |encoded| |]; simpl;
            try (eexists; reflexivity).
          destruct (json_loads env encoded) as [v|e0] eqn:Hjson; simpl;
            [|eexists; reflexivity].
          exfalso. apply Hnested. exists inner, encoded, v. auto.
        + exfalso. apply Hplain. right. exists (PyDict inner).
          split; [reflexivity|]. simpl. unfold dict_has. rewrite Hres.
          reflexivity. }
    split; [exact Hraise|].
    intros request tm query items failure Hq Hstream Hitem.
    destruct Hraise as [e He].
    destruct (run_loop_raising_item items item e None Hitem He) as [e' Hloop].
    exact (stream_generator_loop_raises request tm query items failure e'
             Hq Hstream Hloop).
Qed.

(** The loop over [items ++ [item]] ends with the variables of [item]. *)
Lemma run_loop_last (items : list Item) (item : Item)
    (vars : option AgentTaskManager.LoopVars) :
  AgentTaskManager.run_loop env (items ++ [item]) vars =
    obind (AgentTaskManager.run_loop env items vars)
      (fun _ => obind (AgentTaskManager.loop_body env item)
                  (fun v => Returned (Some v))).
Proof.
  revert vars. induction items as [|i items IH]; intros vars; simpl.
  - reflexivity.
  - destruct (AgentTaskManager.loop_body env i); simpl; [apply IH|reflexivity].
Qed.

(** The [try] block once the loop has ended normally with its variables
    bound and the task is in the store: one store update, one
    notification, then the status event, the artifact events and, for a
    finished task, the final event. *)
Lemma stream_try_block_run (request : SendTaskStreamingRequest)
    (query : string) (items : list Item) (v : AgentTaskManager.LoopVars)
    (old : Task) (tm : TaskManager) :
  agent_stream env query (sessionId (params request)) = (items, None) ->
  AgentTaskManager.run_loop env items None = Returned (Some v) ->
  tasks tm !! param_id (params request) = Some old ->
  exists tm',
    AgentTaskManager.stream_try_block env request query tm =
      (tm',
       Returned
         ([SendTaskStreamingResponse (req_id request)
             (TaskStatusUpdateEvent (param_id (params request))
                (mkTaskStatus (AgentTaskManager.task_state v)
                   (Some (mkMessage agent (AgentTaskManager.parts v)))) false)]
          ++ AgentTaskManager.artifact_events (req_id request)
               (param_id (params request)) (AgentTaskManager.loop_artifacts v)
          ++ (if AgentTaskManager.is_task_complete v
              then [SendTaskStreamingResponse (req_id request)
                      (TaskStatusUpdateEvent (param_id (params request))
                         (mkTaskStatus (AgentTaskManager.task_state v) None) true)]
              else [])))
    /\ tasks tm' !! param_id (params request) =
         Some (mkTask (t_id old) (t_sessionId old)
                 (mkTaskStatus (AgentTaskManager.task_state v)
                    (Some (mkMessage agent (AgentTaskManager.parts v))))
                 match AgentTaskManager.loop_artifacts v with
                 | None => artifacts old
                 | Some arts => Some (artifacts_of old ++ arts)
                 end).
Proof.
  intros Hstream Hloop Hold.
  unfold AgentTaskManager.stream_try_block.
  unfold bind at 1, emit. rewrite Hstream.
  unfold bind at 1, lift. rewrite Hloop.
  unfold bind at 1, ret at 1. unfold bind at 1.
  rewrite (update_store_known _ _ old); [|exact Hold]. cbv zeta.
  unfold bind at 1.
  match goal with
  | |- context [AgentTaskManager.send_task_notification ?w ?m] =>
      destruct (send_task_notification_run w m) as (extra & Hn & _);
      rewrite Hn
  end.
  eexists. split; [reflexivity|]. simpl. apply lookup_insert_eq.
Qed.

End Streaming.

Lemma loop_body_complete_item_witness :
  AgentTaskManager.loop_body decoding_agent
    (mkItem true None (Some (CDict nested_result))) =
    Returned (AgentTaskManager.mkLoopVars true
                (Some [mkArtifact [DataPart (PyDict [("decoded", PyStr "{}")])] 0
                         (Some false)])
                INPUT_REQUIRED [DataPart (PyDict [("decoded", PyStr "{}")])])
  /\ AgentTaskManager.loop_body decoding_agent
       (mkItem true None (Some (CDict plain_mapping))) =
       Returned (AgentTaskManager.mkLoopVars true
                   (Some [mkArtifact [DataPart (PyDict plain_mapping)] 0 (Some false)])
                   COMPLETED [DataPart (PyDict plain_mapping)])
  /\ AgentTaskManager.loop_body decoding_agent done_item =
       Returned (AgentTaskManager.mkLoopVars true
                   (Some [mkArtifact [TextPart "done"] 0 (Some false)])
                   COMPLETED [TextPart "done"])
  /\ (exists e,
        AgentTaskManager.loop_body null_response_agent null_response_item =
          Raised e)
  /\ AgentTaskManager._stream_generator null_response_agent greeting_request
       one_task_manager =
       (mkTaskManager (tasks one_task_manager)
          (push_notification_infos one_task_manager)
          (trace one_task_manager ++ [AgentStream "hi" "s1"]),
        Returned [streaming_error greeting_request]).
Proof.
  assert (Hother :
    (exists e,
        AgentTaskManager.loop_body null_response_agent null_response_item =
          Raised e)
    /\ (forall (request : SendTaskStreamingRequest) (tm : TaskManager)
               (query : string) (items : list Item) (failure : option PyExc),
          AgentTaskManager._get_user_query (params request) = Returned query ->
          agent_stream null_response_agent query (sessionId (params request)) =
            (items, failure) ->
          In null_response_item items ->
          AgentTaskManager._stream_generator null_response_agent request tm =
            (mkTaskManager (tasks tm) (push_notification_infos tm)
               (trace tm ++ [AgentStream query (sessionId (params request))]),
             Returned [streaming_error request]))).
  { apply (proj2 (proj2 (proj2 (loop_body_complete_item null_response_agent
                                  null_response_item (CDict null_response)
                                  eq_refl eq_refl)))
             null_response eq_refl).
    - intros (response & encoded & v & H & _). discriminate.
    - intros [H | (response & H & Hin)]; [discriminate|].
      injection H as <-. discriminate. }
  split; [|split; [|split; [|split]]].
  - apply (proj1 (loop_body_complete_item decoding_agent
                    (mkItem true None (Some (CDict nested_result)))
                    (CDict nested_result) eq_refl eq_refl)
             nested_result [("result", PyStr "{}")] "{}"); reflexivity.
  - apply (proj1 (proj2 (loop_body_complete_item decoding_agent
                           (mkItem true None (Some (CDict plain_mapping)))
                           (CDict plain_mapping) eq_refl eq_refl))
             plain_mapping); [reflexivity|].
    right. eexists. split; reflexivity.
  - apply (proj1 (proj2 (proj2 (loop_body_complete_item decoding_agent done_item
                                  (CText "done") eq_refl eq_refl))) "done").
    reflexivity.
  - exact (proj1 Hother).
  - apply (proj2 Hother greeting_request one_task_manager "hi"
             [null_response_item] None); [reflexivity|reflexivity|].
    left. reflexivity.
Defined.

(** C3 as stated fails on a mapping whose [response] entry is [None]: it
    has no nested [response.result], yet the membership test on [None]
    raises, the loop is left, and the stream ends with the internal-error
    response instead of a [COMPLETED] status. *)
Lemma loop_body_null_response_raises :
  nested_response_result null_response = None
  /\ AgentTaskManager.loop_body null_response_agent null_response_item =
       Raised TypeError
  /\ AgentTaskManager._stream_generator null_response_agent greeting_request
       one_task_manager =
       (mkTaskManager (tasks one_task_manager)
          (push_notification_infos one_task_manager) [AgentStream "hi" "s1"],
        Returned [YieldedError
                    (mkJSONRPCResponse "r1"
                       (Some (InternalError
                                "An error occurred while streaming the response")))]).
Proof. repeat split. Qed.

(** C4, as the code has it: when the agent's stream yields the single item
    [{"is_task_complete": True, "content": "done"}] and the task is in the
    store, the generator yields exactly three responses, in this order: a
    non-final status event in state [COMPLETED] whose message has the text
    part "done", an artifact event whose artifact has the single text part
    "done", and a final status event in state [COMPLETED] with no
    message. *)
Theorem stream_generator_single_done
    (env : Collaborators) (request : SendTaskStreamingRequest)
    (tm : TaskManager) (query : string) (updates : option string) (old : Task) :
  AgentTaskManager._get_user_query (params request) = Returned query ->
  agent_stream env query (sessionId (params request)) =
    ([mkItem true updates (Some (CText "done"))], None) ->
  tasks tm !! param_id (params request) = Some old ->
  exists tm',
    AgentTaskManager._stream_generator env request tm =
      (tm',
       Returned
         [SendTaskStreamingResponse (req_id request)
            (TaskStatusUpdateEvent (param_id (params request))
               (mkTaskStatus COMPLETED (Some (mkMessage agent [TextPart "done"])))
               false);
          SendTaskStreamingResponse (req_id request)
            (TaskArtifactUpdateEvent (param_id (params request))
               (mkArtifact [TextPart "done"] 0 (Some false)));
          SendTaskStreamingResponse (req_id request)
            (TaskStatusUpdateEvent (param_id (params request))
               (mkTaskStatus COMPLETED None) true)]).
Proof.
  intros Hq Hstream Hold.
  unfold AgentTaskManager._stream_generator, bind, lift. rewrite Hq.
  unfold try_except.
  destruct (stream_try_block_run env request query _
              (AgentTaskManager.mkLoopVars true
                 (Some [mkArtifact [TextPart "done"] 0 (Some false)])
                 COMPLETED [TextPart "done"]) old tm Hstream eq_refl Hold)
    as (tm' & Hrun & _).
  rewrite Hrun. exists tm'. reflexivity.
Qed.

Lemma stream_generator_single_done_witness :
  AgentTaskManager._get_user_query (params greeting_request) = Returned "hi"
  /\ agent_stream done_agent "hi" (sessionId (params greeting_request)) =
       ([mkItem true None (Some (CText "done"))], None)
  /\ tasks one_task_manager !! param_id (params greeting_request) = Some finished_task
  /\ exists tm',
    AgentTaskManager._stream_generator done_agent greeting_request one_task_manager =
      (tm',
       Returned
         [SendTaskStreamingResponse (req_id greeting_request)
            (TaskStatusUpdateEvent (param_id (params greeting_request))
               (mkTaskStatus COMPLETED (Some (mkMessage agent [TextPart "done"])))
               false);
          SendTaskStreamingResponse (req_id greeting_request)
            (TaskArtifactUpdateEvent (param_id (params greeting_request))
               (mkArtifact [TextPart "done"] 0 (Some false)));
          SendTaskStreamingResponse (req_id greeting_request)
            (TaskStatusUpdateEvent (param_id (params greeting_request))
               (mkTaskStatus COMPLETED None) true)]).
Proof.
  assert (Hold : tasks one_task_manager !! param_id (params greeting_request) =
                 Some finished_task) by (vm_compute; reflexivity).
  split; [reflexivity|]. split; [reflexivity|]. split; [exact Hold|].
  exact (stream_generator_single_done done_agent greeting_request
           one_task_manager "hi" None finished_task eq_refl eq_refl Hold).
Defined.

(** C4 as stated fails: the first event the generator yields for the single
    item "done" carries the state [COMPLETED], not [WORKING]. *)
Lemma stream_generator_single_done_first_event :
  exists tm' first rest,
    AgentTaskManager._stream_generator done_agent greeting_request one_task_manager =
      (tm', Returned (first :: rest))
    /\ first =
         SendTaskStreamingResponse "r1"
           (TaskStatusUpdateEvent "t1"
              (mkTaskStatus COMPLETED (Some (mkMessage agent [TextPart "done"])))
              false)
    /\ first <>
         SendTaskStreamingResponse "r1"
           (TaskStatusUpdateEvent "t1"
              (mkTaskStatus WORKING (Some (mkMessage agent [TextPart "done"])))
              false).
Proof.
  eexists _, _, _. split; [vm_compute; reflexivity|].
  split; [reflexivity | discriminate].
Qed.

(** C10: when the agent's stream yields no item, the generator yields
    exactly one response, the JSON-RPC internal error: the variables read
    after the loop were never bound, and the handler around the block
    catches the failure.  The task store and the registered configs are
    untouched and the only interaction is the call of the agent's stream:
    no store update, no notification. *)
Theorem stream_generator_empty_stream
    (env : Collaborators) (request : SendTaskStreamingRequest)
    (tm : TaskManager) (query : string) :
  AgentTaskManager._get_user_query (params request) = Returned query ->
  agent_stream env query (sessionId (params request)) = ([], None) ->
  AgentTaskManager._stream_generator env request tm =
    (mkTaskManager (tasks tm) (push_notification_infos tm)
       (trace tm ++ [AgentStream query (sessionId (params request))]),
     Returned [YieldedError
                 (mkJSONRPCResponse (req_id request)
                    (Some (InternalError
                             "An error occurred while streaming the response")))]).
Proof.
  intros Hq Hstream.
  unfold AgentTaskManager._stream_generator, bind, lift. rewrite Hq.
  unfold try_except, AgentTaskManager.stream_try_block, bind, emit, lift.
  rewrite Hstream. reflexivity.
Qed.

Lemma stream_generator_empty_stream_witness :
  AgentTaskManager._get_user_query (params greeting_request) = Returned "hi"
  /\ agent_stream no_agent "hi" (sessionId (params greeting_request)) = ([], None)
  /\ AgentTaskManager._stream_generator no_agent greeting_request one_task_manager =
       (mkTaskManager (tasks one_task_manager)
          (push_notification_infos one_task_manager)
          (trace one_task_manager
           ++ [AgentStream "hi" (sessionId (params greeting_request))]),
        Returned [YieldedError
                    (mkJSONRPCResponse (req_id greeting_request)
                       (Some (InternalError
                                "An error occurred while streaming the response")))]).
Proof.
  split; [reflexivity|]. split; [reflexivity|].
  exact (stream_generator_empty_stream no_agent greeting_request one_task_manager
           "hi" eq_refl eq_refl).
Defined.

(** Only the last iteration is persisted: when the agent's stream ends
    normally after [items ++ [last]], no iteration raises and the task is
    in the store, the generator returns its responses and the stored task
    holds the status and the artifacts computed from [last] alone; the
    items before it leave no mark on the store. *)
Theorem stream_generator_persists_last_iteration
    (env : Collaborators) (request : SendTaskStreamingRequest)
    (tm : TaskManager) (query : string) (items : list Item) (last : Item)
    (before : option AgentTaskManager.LoopVars) (v : AgentTaskManager.LoopVars)
    (old : Task) :
  AgentTaskManager._get_user_query (params request) = Returned query ->
  agent_stream env query (sessionId (params request)) = (items ++ [last], None) ->
  AgentTaskManager.run_loop env items None = Returned before ->
  AgentTaskManager.loop_body env last = Returned v ->
  tasks tm !! param_id (params request) = Some old ->
  exists tm' responses,
    AgentTaskManager._stream_generator env request tm = (tm', Returned responses)
    /\ tasks tm' !! param_id (params request) =
         Some (mkTask (t_id old) (t_sessionId old)
                 (mkTaskStatus (AgentTaskManager.task_state v)
                    (Some (mkMessage agent (AgentTaskManager.parts v))))
                 match AgentTaskManager.loop_artifacts v with
                 | None => artifacts old
                 | Some arts => Some (artifacts_of old ++ arts)
                 end).
Proof.
  intros Hq Hstream Hitems Hlast Hold.
  assert (Hloop : AgentTaskManager.run_loop env (items ++ [last]) None =
                  Returned (Some v)).
  { rewrite run_loop_last, Hitems. simpl. rewrite Hlast. reflexivity. }
  destruct (stream_try_block_run env request query _ v old tm Hstream Hloop Hold)
    as (tm' & Hrun & Hstored).
  unfold AgentTaskManager._stream_generator, bind, lift. rewrite Hq.
  unfold try_except. rewrite Hrun. eexists _, _. split; [reflexivity|exact Hstored].
Qed.

Lemma stream_generator_persists_last_iteration_witness :
  exists tm' responses,
    AgentTaskManager._stream_generator two_step_agent greeting_request
      one_task_manager = (tm', Returned responses)
    /\ tasks tm' !! param_id (params greeting_request) =
         Some (mkTask (t_id finished_task) (t_sessionId finished_task)
                 (mkTaskStatus COMPLETED (Some (mkMessage agent [TextPart "done"])))
                 (Some (artifacts_of finished_task
                        ++ [mkArtifact [TextPart "done"] 0 (Some false)]))).
Proof.
  assert (Hold : tasks one_task_manager !! param_id (params greeting_request) =
                 Some finished_task) by (vm_compute; reflexivity).
  exact (stream_generator_persists_last_iteration two_step_agent greeting_request
           one_task_manager "hi" [working_item] done_item _ _ finished_task
           eq_refl eq_refl eq_refl eq_refl Hold).
Defined.

(** ** The calendar agent's day planning *)

Section DayPlanning.

Variable datetime : Type.
Variable now : datetime.
Variable replace_time : datetime -> Z -> Z -> Z -> Z -> datetime.
Variable events_list_execute :
  CalendarAgent.EventsQuery datetime -> CalendarAgent.ApiReply.
Variable exc_str : PyExc -> string.
Variable xl : CalendarAgent.Openpyxl.
Variable day_summary : list PyVal -> Outcome string.
Variable other_lookups :
  string -> StateExc (CalendarAgent.Disk xl) CalendarAgent.AgentResult.

Lemma plan_phrases_plain (phrase : string) :
  In phrase CalendarAgent.plan_phrases -> plain phrase = true.
Proof. intros [<-|[<-|[<-|[<-|[]]]]]; reflexivity. Qed.

Lemma plan_query_detected (query phrase : string) :
  In phrase CalendarAgent.plan_phrases ->
  Substring phrase (lower query) ->
  existsb (fun word => str_contains word (lower query)) CalendarAgent.plan_phrases
    = true.
Proof.
  intros Hin Hsub. apply existsb_exists. exists phrase.
  split; [exact Hin | apply str_contains_spec; exact Hsub].
Qed.

(** [_append_events_to_excel] statement by statement: the file system is
    as it was unless [wb.save] is reached. *)
Lemma append_events_run (events : list PyVal) (disk : CalendarAgent.Disk xl) :
  CalendarAgent._append_events_to_excel xl events disk =
    match CalendarAgent.open_workbook xl disk with
    | Raised e => (disk, Raised e)
    | Returned ws =>
        match CalendarAgent.append_events xl ws events with
        | Raised e => (disk, Raised e)
        | Returned ws' => CalendarAgent.wb_save xl ws' disk
        end
    end.
Proof.
  unfold CalendarAgent._append_events_to_excel, bind, get_state, lift.
  destruct (CalendarAgent.open_workbook xl disk) as [ws|e]; [|reflexivity].
  destruct (CalendarAgent.append_events xl ws events) as [ws'|e]; [|reflexivity].
  destruct (CalendarAgent.wb_save xl ws' disk) as [disk' [[]|e]]; reflexivity.
Qed.

(** C9, as the code has it: for a query in which one of the day-planning
    phrases occurs, as written or after lower-casing, and for which the
    events fetched for today are the empty list, [invoke] still opens the
    workbook [calendar_activities.xlsx] (the file's, or a new one given
    the header row) and saves it.  When both succeed it returns
    [is_task_complete] true, [require_user_input] false and the content
    "You have no events scheduled for today. Your day is wide open!", and
    the file is as the save left it.  When opening the workbook raises,
    it returns [is_task_complete] false, [require_user_input] true and
    "An error occurred: " followed by the exception's text, with the file
    untouched; when saving raises it returns the same kind of answer. *)
Theorem invoke_plan_my_day_no_events
    (query sessionId phrase : string) (disk : CalendarAgent.Disk xl) :
  In phrase CalendarAgent.plan_phrases ->
  Substring phrase query \/ Substring phrase (lower query) ->
  CalendarAgent._fetch_events datetime now events_list_execute
    (Some (replace_time now 0 0 0 0))
    (Some (replace_time now 23 59 59 999999)) 50 =
    Returned (CalendarAgent.Events []) ->
  (forall ws disk',
      CalendarAgent.open_workbook xl disk = Returned ws ->
      CalendarAgent.wb_save xl ws disk = (disk', Returned tt) ->
      CalendarAgent.invoke datetime now replace_time events_list_execute exc_str
        xl day_summary other_lookups query sessionId disk =
        (disk',
         Returned (CalendarAgent.mkAgentResult true false
                     "You have no events scheduled for today. Your day is wide open!")))
  /\ (forall e,
        CalendarAgent.open_workbook xl disk = Raised e ->
        CalendarAgent.invoke datetime now replace_time events_list_execute
          exc_str xl day_summary other_lookups query sessionId disk =
          (disk,
           Returned (CalendarAgent.mkAgentResult false true
                       ("An error occurred: " +:+ exc_str e))))
  /\ (forall ws disk' e,
        CalendarAgent.open_workbook xl disk = Returned ws ->
        CalendarAgent.wb_save xl ws disk = (disk', Raised e) ->
        CalendarAgent.invoke datetime now replace_time events_list_execute
          exc_str xl day_summary other_lookups query sessionId disk =
          (disk',
           Returned (CalendarAgent.mkAgentResult false true
                       ("An error occurred: " +:+ exc_str e)))).
Proof.
  intros Hin Hsub Hfetch.
  assert (Hlow : Substring phrase (lower query)).
  { destruct Hsub as [H|H]; [|exact H].
    apply Substring_lower; [apply plan_phrases_plain; exact Hin | exact H]. }
  assert (Hrun :
    CalendarAgent.invoke datetime now replace_time events_list_execute exc_str
      xl day_summary other_lookups query sessionId disk =
      try_except
        (CalendarAgent._append_events_to_excel xl [] ;;;
         plan <- lift (CalendarAgent._plan_my_day day_summary []) ;;
         ret (CalendarAgent.mkAgentResult true false plan))
        (fun e => ret (CalendarAgent.mkAgentResult false true
                         ("An error occurred: " +:+ exc_str e))) disk).
  { unfold CalendarAgent.invoke, try_except.
    rewrite (plan_query_detected query phrase Hin Hlow).
    unfold bind at 1, lift. rewrite Hfetch. reflexivity. }
  rewrite Hrun. clear Hrun.
  split; [|split]; intros; unfold try_except, bind at 1;
    rewrite append_events_run;
    repeat match goal with
           | H : CalendarAgent.open_workbook _ _ = _ |- _ => rewrite H; clear H
           | H : CalendarAgent.wb_save _ _ _ = _ |- _ =>
               simpl; rewrite H; clear H
           end;
    reflexivity.
Qed.

End DayPlanning.

Lemma invoke_plan_my_day_no_events_witness :
  In "what's my schedule" CalendarAgent.plan_phrases
  /\ (Substring "what's my schedule" "what's my schedule"
      \/ Substring "what's my schedule" (lower "what's my schedule"))
  /\ CalendarAgent._fetch_events Z 0%Z empty_calendar
       (Some 0%Z) (Some 0%Z) 50 = Returned (CalendarAgent.Events [])
  /\ CalendarAgent.open_workbook sample_openpyxl NoFile =
       Returned [CalendarAgent.headers]
  /\ CalendarAgent.wb_save sample_openpyxl [CalendarAgent.headers] NoFile =
       (Sheet [CalendarAgent.headers], Returned tt)
  /\ CalendarAgent.invoke Z 0%Z (fun d _ _ _ _ => d) empty_calendar (fun _ => "")
       sample_openpyxl no_summary no_lookups "what's my schedule" "s1" NoFile =
       (Sheet [CalendarAgent.headers],
        Returned (CalendarAgent.mkAgentResult true false
                    "You have no events scheduled for today. Your day is wide open!")).
Proof.
  assert (Hin : In "what's my schedule" CalendarAgent.plan_phrases)
    by (simpl; auto).
  assert (Hsub : Substring "what's my schedule" "what's my schedule"
                 \/ Substring "what's my schedule" (lower "what's my schedule"))
    by (left; exists "", ""; reflexivity).
  split; [exact Hin|]. split; [exact Hsub|]. split; [reflexivity|].
  split; [reflexivity|]. split; [reflexivity|].
  exact (proj1 (invoke_plan_my_day_no_events Z 0%Z (fun d _ _ _ _ => d)
                  empty_calendar (fun _ => "") sample_openpyxl no_summary
                  no_lookups "what's my schedule" "s1" "what's my schedule"
                  NoFile Hin Hsub eq_refl)
           [CalendarAgent.headers] (Sheet [CalendarAgent.headers])
           eq_refl eq_refl).
Defined.

(** C9 as stated fails when the workbook cannot be opened: with a file
    [calendar_activities.xlsx] that is not a workbook, the query "what's
    my schedule" and no event today, [load_workbook] raises, the method's
    [except] catches it, and [invoke] returns [is_task_complete] false
    with the error's text instead of the day-is-open message. *)
Lemma invoke_plan_my_day_unreadable_workbook :
  In "what's my schedule" CalendarAgent.plan_phrases
  /\ CalendarAgent._fetch_events Z 0%Z empty_calendar
       (Some 0%Z) (Some 0%Z) 50 = Returned (CalendarAgent.Events [])
  /\ CalendarAgent.invoke Z 0%Z (fun d _ _ _ _ => d) empty_calendar
       sample_exc_str sample_openpyxl no_summary no_lookups
       "what's my schedule" "s1" NotAWorkbook =
       (NotAWorkbook,
        Returned (CalendarAgent.mkAgentResult false true
                    "An error occurred: File is not a zip file")).
Proof. split; [simpl; auto|]. split; reflexivity. Qed.

(** ** What a request never does to the store *)

Section Preservation.

Variable R : TaskManager -> TaskManager -> Prop.
Hypothesis R_refl : forall tm, R tm tm.
Hypothesis R_trans : forall a b c, R a b -> R b c -> R a c.

Lemma preserves_ret {A} (a : A) : preserves R (ret a).
Proof. intros tm. apply R_refl. Qed.

Lemma preserves_raise {A} (e : PyExc) : preserves R (raise e : M A).
Proof. intros tm. apply R_refl. Qed.

Lemma preserves_lift {A} (o : Outcome A) : preserves R (lift o).
Proof. intros tm. apply R_refl. Qed.

Lemma preserves_get_state : preserves R get_state.
Proof. intros tm. apply R_refl. Qed.

Lemma preserves_bind {A B} (m : M A) (f : A -> M B) :
  preserves R m -> (forall a, preserves R (f a)) -> preserves R (bind m f).
Proof.
  intros Hm Hf tm. unfold bind. specialize (Hm tm).
  destruct (m tm) as [tm1 [a|e]]; simpl in *.
  - eapply R_trans; [exact Hm | apply Hf].
  - exact Hm.
Qed.

Lemma preserves_try_except {A} (m : M A) (handler : PyExc -> M A) :
  preserves R m -> (forall e, preserves R (handler e)) ->
  preserves R (try_except m handler).
Proof.
  intros Hm Hh tm. unfold try_except. specialize (Hm tm).
  destruct (m tm) as [tm1 [a|e]]; simpl in *.
  - exact Hm.
  - eapply R_trans; [exact Hm | apply Hh].
Qed.

End Preservation.

Lemma request_effect_same_tasks (task_id : string) (tm tm' : TaskManager) :
  tasks tm' = tasks tm -> request_effect task_id tm tm'.
Proof.
  intros H. split.
  - intros other _. rewrite H. reflexivity.
  - intros t Ht. exists t. rewrite H. repeat split; [exact Ht | reflexivity].
Qed.

Lemma request_effect_refl (task_id : string) (tm : TaskManager) :
  request_effect task_id tm tm.
Proof. apply request_effect_same_tasks. reflexivity. Qed.

Lemma request_effect_trans (task_id : string) (a b c : TaskManager) :
  request_effect task_id a b -> request_effect task_id b c ->
  request_effect task_id a c.
Proof.
  intros [Hab1 Hab2] [Hbc1 Hbc2]. split.
  - intros other Hne. rewrite (Hbc1 other Hne). apply Hab1, Hne.
  - intros t Ht. destruct (Hab2 t Ht) as (t1 & Ht1 & Hid1 & Hs1 & Hp1).
    destruct (Hbc2 t1 Ht1) as (t2 & Ht2 & Hid2 & Hs2 & Hp2).
    exists t2. repeat split; try congruence.
    etransitivity; eassumption.
Qed.

Lemma keeps_keys_same_tasks (tm tm' : TaskManager) :
  tasks tm' = tasks tm -> keeps_keys tm tm'.
Proof. intros H Hk id t. rewrite H. apply Hk. Qed.

Lemma keeps_keys_refl (tm : TaskManager) : keeps_keys tm tm.
Proof. intros H. exact H. Qed.

Lemma keeps_keys_trans (a b c : TaskManager) :
  keeps_keys a b -> keeps_keys b c -> keeps_keys a c.
Proof. unfold keeps_keys. auto. Qed.

Section Primitives.

Variable env : Collaborators.
Variable task_id : string.

Lemma effect_emit (e : Effect) : preserves (request_effect task_id) (emit e).
Proof. intros tm. apply request_effect_same_tasks. reflexivity. Qed.

Lemma keys_emit (e : Effect) : preserves keeps_keys (emit e).
Proof. intros tm. apply keeps_keys_same_tasks. reflexivity. Qed.

Lemma effect_update_store (new_status : TaskStatus)
    (new_artifacts : option (list Artifact)) :
  preserves (request_effect task_id)
    (AgentTaskManager._update_store task_id new_status new_artifacts).
Proof.
  intros tm. destruct (tasks tm !! task_id) as [old|] eqn:E.
  - rewrite (update_store_known _ _ _ _ _ E). cbv zeta. simpl. split.
    + intros other Hne. simpl. apply lookup_insert_ne. congruence.
    + intros t Ht. rewrite E in Ht. injection Ht as <-.
      eexists. simpl. split; [apply lookup_insert_eq|].
      repeat split.
      destruct new_artifacts as [arts|]; unfold artifacts_of; simpl.
      * eexists. reflexivity.
      * reflexivity.
  - rewrite (update_store_unknown _ _ _ _ E). apply request_effect_refl.
Qed.

Lemma keys_update_store (new_status : TaskStatus)
    (new_artifacts : option (list Artifact)) :
  preserves keeps_keys
    (AgentTaskManager._update_store task_id new_status new_artifacts).
Proof.
  intros tm. destruct (tasks tm !! task_id) as [old|] eqn:E.
  - rewrite (update_store_known _ _ _ _ _ E). cbv zeta. simpl.
    intros Hk id t. simpl. destruct (decide (task_id = id)) as [<-|Hne].
    + rewrite lookup_insert_eq. intros H. injection H as <-. simpl.
      apply Hk, E.
    + rewrite lookup_insert_ne by exact Hne. apply Hk.
  - rewrite (update_store_unknown _ _ _ _ E). apply keeps_keys_refl.
Qed.

Lemma effect_upsert_task (p : TaskSendParams) :
  param_id p = task_id ->
  preserves (request_effect task_id) (InMemoryTaskManager.upsert_task p).
Proof.
  intros <- tm. unfold InMemoryTaskManager.upsert_task, bind, get_state.
  simpl. destruct (tasks tm !! param_id p) as [t|] eqn:E; simpl.
  - apply request_effect_refl.
  - split.
    + intros other Hne. simpl. apply lookup_insert_ne. congruence.
    + intros t Ht. congruence.
Qed.

Lemma keys_upsert_task (p : TaskSendParams) :
  preserves keeps_keys (InMemoryTaskManager.upsert_task p).
Proof.
  intros tm. unfold InMemoryTaskManager.upsert_task, bind, get_state.
  simpl. destruct (tasks tm !! param_id p) as [t|] eqn:E; simpl.
  - apply keeps_keys_refl.
  - intros Hk id t. simpl. destruct (decide (param_id p = id)) as [<-|Hne].
    + rewrite lookup_insert_eq. intros H. injection H as <-. reflexivity.
    + rewrite lookup_insert_ne by exact Hne. apply Hk.
Qed.

Lemma effect_send_task_notification (task : Task) :
  preserves (request_effect task_id) (AgentTaskManager.send_task_notification task).
Proof.
  intros tm. destruct (send_task_notification_run task tm) as (extra & -> & _).
  apply request_effect_same_tasks. reflexivity.
Qed.

Lemma keys_send_task_notification (task : Task) :
  preserves keeps_keys (AgentTaskManager.send_task_notification task).
Proof.
  intros tm. destruct (send_task_notification_run task tm) as (extra & -> & _).
  apply keeps_keys_same_tasks. reflexivity.
Qed.

Lemma set_push_notification_info_tasks (id : string)
    (cfg : PushNotificationConfig) (tm : TaskManager) :
  tasks (fst (AgentTaskManager.set_push_notification_info env id cfg tm)) =
  tasks tm.
Proof.
  destruct (verify_push_notification_url env (url cfg)) eqn:E.
  - rewrite (set_push_accepted _ _ _ _ E). reflexivity.
  - rewrite (set_push_rejected _ _ _ _ E). reflexivity.
Qed.

Lemma effect_set_push_notification_info (id : string)
    (cfg : PushNotificationConfig) :
  preserves (request_effect task_id)
    (AgentTaskManager.set_push_notification_info env id cfg).
Proof.
  intros tm. apply request_effect_same_tasks, set_push_notification_info_tasks.
Qed.

Lemma keys_set_push_notification_info (id : string)
    (cfg : PushNotificationConfig) :
  preserves keeps_keys (AgentTaskManager.set_push_notification_info env id cfg).
Proof.
  intros tm. apply keeps_keys_same_tasks, set_push_notification_info_tasks.
Qed.

End Primitives.

Create HintDb keeps.
#[local] Hint Resolve request_effect_refl request_effect_trans
  keeps_keys_refl keeps_keys_trans : keeps.
#[local] Hint Resolve effect_emit keys_emit effect_update_store keys_update_store
  effect_upsert_task keys_upsert_task effect_send_task_notification
  keys_send_task_notification effect_set_push_notification_info
  keys_set_push_notification_info : keeps.

(** One step of a preservation proof: the monad's combinators, the
    primitives above, and a case split on what the code branches on. *)
Ltac keeps_step :=
  first
    [ progress cbv zeta
    | assumption
    | solve [eauto with keeps]
    | apply preserves_ret; solve [eauto with keeps]
    | apply preserves_raise; solve [eauto with keeps]
    | apply preserves_lift; solve [eauto with keeps]
    | apply preserves_bind; [ solve [eauto with keeps] | | intros ]
    | apply preserves_try_except; [ solve [eauto with keeps] | | intros ]
    | match goal with
      | |- preserves _ (match ?x with _ => _ end) => destruct x
      | |- preserves _ (if ?b then _ else _) => destruct b
      end ].

Section RequestFrame.

Variable env : Collaborators.
Variable request : SendTaskRequest.

Local Abbreviation keeps :=
  (preserves (request_effect (param_id (params request)))).

Lemma keeps_invoke : keeps (AgentTaskManager._invoke env request).
Proof. unfold AgentTaskManager._invoke. repeat keeps_step. Qed.

Lemma keeps_stream_generator :
  keeps (AgentTaskManager._stream_generator env request).
Proof.
  unfold AgentTaskManager._stream_generator, AgentTaskManager.stream_try_block.
  repeat keeps_step.
Qed.

(** Whatever [on_send_task] ends in (a task, an error response, an
    exception), it has touched no task but the request's own, and a task
    that was stored under the request's id is still stored under it, with
    the same id and session and with its earlier artifacts, in order, at
    the front of its artifact list. *)
Theorem on_send_task_touches_only_its_task (tm : TaskManager) :
  request_effect (param_id (params request)) tm
    (fst (AgentTaskManager.on_send_task env request tm)).
Proof.
  revert tm. change (keeps (AgentTaskManager.on_send_task env request)).
  unfold AgentTaskManager.on_send_task.
  pose proof keeps_invoke. repeat keeps_step.
Qed.

Lemma keeps_on_send_task_subscribe :
  keeps (AgentTaskManager.on_send_task_subscribe env request).
Proof. unfold AgentTaskManager.on_send_task_subscribe. repeat keeps_step. Qed.

(** The generator [on_send_task_subscribe] hands out is the one of the
    request it was given. *)
Lemma on_send_task_subscribe_stream (tm tm1 : TaskManager)
    (req : SendTaskStreamingRequest) :
  AgentTaskManager.on_send_task_subscribe env request tm =
    (tm1, Returned (AgentTaskManager.SubscribeStream req)) ->
  req = request.
Proof.
  unfold AgentTaskManager.on_send_task_subscribe.
  destruct (AgentTaskManager._validate_request request); [discriminate|].
  unfold bind at 1.
  destruct (InMemoryTaskManager.upsert_task (params request) tm) as [tm2 [t|e]];
    [|discriminate].
  unfold bind at 1.
  match goal with
  | |- context [match ?reg tm2 with _ => _ end] =>
      destruct (reg tm2) as [tm3 [[|]|e]]
  end; simpl; unfold ret; congruence.
Qed.

(** The same for a streaming request: subscribing and draining the
    generator, whatever it yields or raises, touches no task but the
    request's own and keeps that task's id, session and earlier artifacts. *)
Theorem streaming_touches_only_its_task (tm : TaskManager) :
  request_effect (param_id (params request)) tm
    (fst (AgentTaskManager.subscribe_and_drain env request tm)).
Proof.
  unfold AgentTaskManager.subscribe_and_drain, bind.
  pose proof (keeps_on_send_task_subscribe tm) as Hsub.
  destruct (AgentTaskManager.on_send_task_subscribe env request tm)
    as [tm1 [[r|req]|e]] eqn:E; simpl in Hsub; try exact Hsub.
  apply on_send_task_subscribe_stream in E as ->.
  eapply request_effect_trans; [exact Hsub | apply keeps_stream_generator].
Qed.

Lemma keys_invoke : preserves keeps_keys (AgentTaskManager._invoke env request).
Proof. unfold AgentTaskManager._invoke. repeat keeps_step. Qed.

Lemma keys_stream_generator :
  preserves keeps_keys (AgentTaskManager._stream_generator env request).
Proof.
  unfold AgentTaskManager._stream_generator, AgentTaskManager.stream_try_block.
  repeat keeps_step.
Qed.

Lemma keys_on_send_task : preserves keeps_keys (AgentTaskManager.on_send_task env request).
Proof.
  unfold AgentTaskManager.on_send_task. pose proof keys_invoke.
  repeat keeps_step.
Qed.

Lemma keys_on_send_task_subscribe :
  preserves keeps_keys (AgentTaskManager.on_send_task_subscribe env request).
Proof. unfold AgentTaskManager.on_send_task_subscribe. repeat keeps_step. Qed.

(** The store stays filed by task id: when every stored task sits under
    its own id, it still does after [on_send_task] and after a streaming
    request has been subscribed and drained, whatever their outcome. *)
Theorem requests_keep_store_keyed (tm : TaskManager) :
  well_keyed tm ->
  well_keyed (fst (AgentTaskManager.on_send_task env request tm))
  /\ well_keyed (fst (AgentTaskManager.subscribe_and_drain env request tm)).
Proof.
  intros Hk. split; [exact (keys_on_send_task tm Hk)|].
  unfold AgentTaskManager.subscribe_and_drain, bind.
  pose proof (keys_on_send_task_subscribe tm Hk) as Hsub.
  destruct (AgentTaskManager.on_send_task_subscribe env request tm)
    as [tm1 [[r|req]|e]] eqn:E; simpl in Hsub; try exact Hsub.
  apply on_send_task_subscribe_stream in E as ->.
  exact (keys_stream_generator tm1 Hsub).
Qed.

End RequestFrame.

Lemma one_task_manager_well_keyed : well_keyed one_task_manager.
Proof.
  intros id t H. unfold one_task_manager in H. simpl in H.
  apply lookup_singleton_Some in H as [<- <-]. reflexivity.
Qed.

Lemma requests_keep_store_keyed_witness :
  well_keyed one_task_manager
  /\ well_keyed
       (fst (AgentTaskManager.on_send_task no_agent greeting_request one_task_manager))
  /\ well_keyed
       (fst (AgentTaskManager.subscribe_and_drain no_agent greeting_request
               one_task_manager)).
Proof.
  split; [exact one_task_manager_well_keyed|].
  exact (requests_keep_store_keyed no_agent greeting_request one_task_manager
           one_task_manager_well_keyed).
Defined.

(** ** The interactions of the synchronous path *)

Lemma send_task_notification_exact (task : Task) (tm : TaskManager) :
  AgentTaskManager.send_task_notification task tm =
    (mkTaskManager (tasks tm) (push_notification_infos tm)
       (trace tm ++ notification_of tm task), Returned tt).
Proof.
  unfold AgentTaskManager.send_task_notification,
    InMemoryTaskManager.has_push_notification_info,
    InMemoryTaskManager.get_push_notification_info, bind, get_state, ret, emit,
    notification_of.
  destruct (push_notification_infos tm !! t_id task) as [info|] eqn:E;
    simpl; rewrite ?E; simpl.
  - reflexivity.
  - rewrite app_nil_r. destruct tm. reflexivity.
Qed.

Section SyncPhases.

Variable env : Collaborators.
Variable request : SendTaskRequest.

(** [_invoke] once the query is known. *)
Lemma invoke_run (tm : TaskManager) (query : string) :
  AgentTaskManager._get_user_query (params request) = Returned query ->
  AgentTaskManager._invoke env request tm =
    (let tm1 := mkTaskManager (tasks tm) (push_notification_infos tm)
                  (trace tm ++ [AgentInvoke query (sessionId (params request))]) in
     match agent_invoke env query (sessionId (params request)) with
     | Raised e =>
         (tm1, Raised (ValueError ("Error invoking agent: " +:+ exc_str env e)))
     | Returned r =>
         match AgentTaskManager._update_store (param_id (params request))
                 (mkTaskStatus
                    (if str_contains "MISSING_INFO:" r
                     then INPUT_REQUIRED else COMPLETED)
                    (Some (mkMessage agent [TextPart r])))
                 (Some [Artifact_from_parts [TextPart r]]) tm1 with
         | (tm', Returned task) =>
             (tm', Returned (mkSendTaskResponse (req_id request) (Some task) None))
         | (tm', Raised e) => (tm', Raised e)
         end
     end).
Proof.
  intros Hq. unfold AgentTaskManager._invoke, bind, lift, emit, ret.
  rewrite Hq. cbv zeta.
  destruct (agent_invoke env query (sessionId (params request))); reflexivity.
Qed.

(** The part of [on_send_task] that precedes [_invoke], when the request
    passes validation and its push-notification URL, if any, is verified:
    registration, upsert, the [WORKING] transition and its notification. *)
Lemma on_send_task_working_phase (tm : TaskManager) :
  AgentTaskManager._validate_request request = None ->
  (forall cfg, pushNotification (params request) = Some cfg ->
               verify_push_notification_url env (url cfg) = true) ->
  exists tm4 working,
    tasks tm4 !! param_id (params request) = Some working
    /\ status working = mkTaskStatus WORKING None
    /\ artifacts working = Some (stored_artifacts tm (param_id (params request)))
    /\ (forall t, tasks tm !! param_id (params request) = Some t ->
                  t_id working = t_id t /\ t_sessionId working = t_sessionId t)
    /\ (tasks tm !! param_id (params request) = None ->
        t_id working = param_id (params request))
    /\ trace tm4 =
         trace tm ++ verification_of (params request) ++ notification_of tm4 working
    /\ AgentTaskManager.on_send_task env request tm =
         AgentTaskManager._invoke env request tm4.
Proof.
  intros Hv Hverify. unfold AgentTaskManager.on_send_task. rewrite Hv.
  assert (Hrest : forall tm1,
    tasks tm1 = tasks tm ->
    trace tm1 = trace tm ++ verification_of (params request) ->
    exists tm4 working,
      tasks tm4 !! param_id (params request) = Some working
      /\ status working = mkTaskStatus WORKING None
      /\ artifacts working = Some (stored_artifacts tm (param_id (params request)))
      /\ (forall t, tasks tm !! param_id (params request) = Some t ->
                    t_id working = t_id t /\ t_sessionId working = t_sessionId t)
      /\ (tasks tm !! param_id (params request) = None ->
          t_id working = param_id (params request))
      /\ trace tm4 =
           trace tm ++ verification_of (params request) ++ notification_of tm4 working
      /\ (InMemoryTaskManager.upsert_task (params request) ;;;
          task <- AgentTaskManager._update_store (param_id (params request))
                    (mkTaskStatus WORKING None) (Some []) ;;
          AgentTaskManager.send_task_notification task ;;;
          AgentTaskManager._invoke env request) tm1 =
         AgentTaskManager._invoke env request tm4).
  { intros tm1 Htasks Htrace.
    assert (Hup : exists tm2 t,
      InMemoryTaskManager.upsert_task (params request) tm1 = (tm2, Returned t)
      /\ tasks tm2 !! param_id (params request) = Some t
      /\ artifacts_of t = stored_artifacts tm (param_id (params request))
      /\ (forall t0, tasks tm !! param_id (params request) = Some t0 -> t = t0)
      /\ (tasks tm !! param_id (params request) = None ->
          t_id t = param_id (params request))
      /\ push_notification_infos tm2 = push_notification_infos tm1
      /\ trace tm2 = trace tm1).
    { unfold InMemoryTaskManager.upsert_task, bind, get_state, stored_artifacts.
      simpl. rewrite Htasks.
      destruct (tasks tm !! param_id (params request)) as [t|] eqn:E.
      - exists tm1, t. unfold ret. rewrite Htasks.
        repeat split; try assumption; congruence.
      - eexists _, _. unfold ret. simpl. split; [reflexivity|].
        simpl. rewrite lookup_insert_eq. repeat split. congruence. }
    destruct Hup as (tm2 & t & Hup & Hlook & Harts & Hsame & Hnew & Hinfos & Htr2).
    unfold bind at 1. rewrite Hup. unfold bind at 1.
    rewrite (update_store_known _ _ _ _ _ Hlook). cbv zeta.
    unfold bind at 1. rewrite send_task_notification_exact.
    pose (working := mkTask (t_id t) (t_sessionId t) (mkTaskStatus WORKING None)
                       (Some (artifacts_of t ++ []))).
    pose (tm3 := mkTaskManager
                   (<[param_id (params request) := working]> (tasks tm2))
                   (push_notification_infos tm2) (trace tm2)).
    exists (mkTaskManager (tasks tm3) (push_notification_infos tm3)
              (trace tm3 ++ notification_of tm3 working)), working.
    split; [simpl; apply lookup_insert_eq|].
    split; [reflexivity|].
    split; [simpl; rewrite app_nil_r, Harts; reflexivity|].
    split; [intros t0 Ht0; simpl; rewrite (Hsame t0 Ht0); split; reflexivity|].
    split; [exact Hnew|].
    split; [|reflexivity].
    simpl. rewrite Htr2, Htrace, <- app_assoc. reflexivity. }
  unfold verification_of in *.
  destruct (pushNotification (params request)) as [cfg|] eqn:Hp.
  - unfold bind at 1. rewrite (set_push_accepted _ _ _ _ (Hverify cfg eq_refl)).
    simpl. apply Hrest; reflexivity.
  - unfold bind at 1, ret at 1. simpl. apply Hrest; [reflexivity|].
    rewrite app_nil_r. reflexivity.
Qed.

End SyncPhases.

Section SyncOutcomes.

Variable env : Collaborators.
Variable request : SendTaskRequest.

(** A call that returns a task passed validation and verification. *)
Lemma on_send_task_success_guards (tm tm' : TaskManager)
    (resp : SendTaskResponse) (task : Task) :
  AgentTaskManager.on_send_task env request tm = (tm', Returned resp) ->
  result resp = Some task ->
  AgentTaskManager._validate_request request = None
  /\ (forall cfg, pushNotification (params request) = Some cfg ->
                  verify_push_notification_url env (url cfg) = true).
Proof.
  intros Hrun Hres.
  destruct (AgentTaskManager._validate_request request) as [r|] eqn:Hv.
  { unfold AgentTaskManager.on_send_task in Hrun. rewrite Hv in Hrun.
    injection Hrun as _ <-. discriminate. }
  split; [reflexivity|]. intros cfg Hp.
  destruct (verify_push_notification_url env (url cfg)) eqn:Hver; [reflexivity|].
  unfold AgentTaskManager.on_send_task in Hrun. rewrite Hv, Hp in Hrun.
  unfold bind at 1 in Hrun. rewrite (set_push_rejected _ _ _ _ Hver) in Hrun.
  injection Hrun as _ <-. discriminate.
Qed.

Lemma on_send_task_success_run (tm tm' : TaskManager)
    (resp : SendTaskResponse) (task : Task) :
  AgentTaskManager.on_send_task env request tm = (tm', Returned resp) ->
  result resp = Some task ->
  exists query r working,
    AgentTaskManager._get_user_query (params request) = Returned query
    /\ agent_invoke env query (sessionId (params request)) = Returned r
    /\ status working = mkTaskStatus WORKING None
    /\ t_id working = t_id task
    /\ t_sessionId working = t_sessionId task
    /\ artifacts working = Some (stored_artifacts tm (param_id (params request)))
    /\ (forall t, tasks tm !! param_id (params request) = Some t ->
                  t_id task = t_id t /\ t_sessionId task = t_sessionId t)
    /\ tasks tm' !! param_id (params request) = Some task
    /\ status task =
         mkTaskStatus
           (if str_contains "MISSING_INFO:" r then INPUT_REQUIRED else COMPLETED)
           (Some (mkMessage agent [TextPart r]))
    /\ artifacts task =
         Some (stored_artifacts tm (param_id (params request))
               ++ [Artifact_from_parts [TextPart r]])
    /\ trace tm' =
         trace tm ++ verification_of (params request)
         ++ notification_of tm' working
         ++ [AgentInvoke query (sessionId (params request))].
Proof.
  intros Hrun Hres.
  destruct (on_send_task_success_guards _ _ _ _ Hrun Hres) as [Hv Hverify].
  destruct (on_send_task_working_phase env request tm Hv Hverify)
    as (tm4 & working & Hlook & Hst & Harts & Hsame & _ & Htr & Hphase).
  rewrite Hphase in Hrun.
  destruct (invoke_returned env request tm4 tm' resp Hrun)
    as (query & r & old & Hq & Ha & Hold & _).
  rewrite (invoke_run env request tm4 query Hq) in Hrun. cbv zeta in Hrun.
  rewrite Ha in Hrun.
  rewrite (update_store_known _ _ working) in Hrun by exact Hlook.
  cbv zeta in Hrun. injection Hrun as <- <-. simpl in Hres.
  injection Hres as <-.
  exists query, r, working. simpl.
  split; [exact Hq|]. split; [exact Ha|]. split; [exact Hst|].
  split; [reflexivity|]. split; [reflexivity|]. split; [exact Harts|].
  split; [exact Hsame|].
  split; [apply lookup_insert_eq|]. split; [reflexivity|].
  split; [unfold artifacts_of; rewrite Harts; reflexivity|].
  rewrite Htr. unfold notification_of. simpl. rewrite <- !app_assoc. reflexivity.
Qed.

(** A successful [on_send_task] notifies at most once, and what it pushes
    is the task in state [WORKING], before the agent is invoked: the
    interactions of the call are the verification of the request's URL (if
    it has one), the notification of the [WORKING] task (if a config is
    registered for the task), and the agent's invocation, in this order.
    The final state is stored and returned but not pushed. *)
Theorem on_send_task_pushes_working_only (tm tm' : TaskManager)
    (resp : SendTaskResponse) (task : Task) :
  AgentTaskManager.on_send_task env request tm = (tm', Returned resp) ->
  result resp = Some task ->
  exists query working,
    AgentTaskManager._get_user_query (params request) = Returned query
    /\ status working = mkTaskStatus WORKING None
    /\ t_id working = t_id task
    /\ trace tm' =
         trace tm ++ verification_of (params request)
         ++ notification_of tm' working
         ++ [AgentInvoke query (sessionId (params request))].
Proof.
  intros Hrun Hres.
  destruct (on_send_task_success_run tm tm' resp task Hrun Hres)
    as (query & r & working & Hq & _ & Hst & Hid & _ & _ & _ & _ & _ & _ & Htr).
  exists query, working. repeat split; assumption.
Qed.

(** When the agent raises, [on_send_task] raises
    [ValueError("Error invoking agent: ...")] and nothing is rolled back:
    the task stays in the store in state [WORKING], with no message and
    with the artifacts it had before the call. *)
Theorem on_send_task_agent_failure_leaves_working
    (tm : TaskManager) (query : string) (e : PyExc) :
  AgentTaskManager._validate_request request = None ->
  (forall cfg, pushNotification (params request) = Some cfg ->
               verify_push_notification_url env (url cfg) = true) ->
  AgentTaskManager._get_user_query (params request) = Returned query ->
  agent_invoke env query (sessionId (params request)) = Raised e ->
  exists tm' working,
    AgentTaskManager.on_send_task env request tm =
      (tm', Raised (ValueError ("Error invoking agent: " +:+ exc_str env e)))
    /\ tasks tm' !! param_id (params request) = Some working
    /\ status working = mkTaskStatus WORKING None
    /\ artifacts_of working = stored_artifacts tm (param_id (params request)).
Proof.
  intros Hv Hverify Hq Ha.
  destruct (on_send_task_working_phase env request tm Hv Hverify)
    as (tm4 & working & Hlook & Hst & Harts & _ & _ & _ & Hphase).
  rewrite Hphase, (invoke_run env request tm4 query Hq). cbv zeta. rewrite Ha.
  eexists _, working. split; [reflexivity|]. simpl.
  split; [exact Hlook|]. split; [exact Hst|].
  unfold artifacts_of. rewrite Harts. reflexivity.
Qed.

(** A push-notification config with an empty URL is refused by both entry
    points with [InvalidParamsError("Push notification URL is missing")]
    as soon as the output modes are compatible, before anything else
    happens: the manager is left exactly as it was. *)
Theorem empty_push_url_is_refused (tm : TaskManager) (cfg : PushNotificationConfig) :
  utils.are_modalities_compatible (acceptedOutputModes (params request))
    SUPPORTED_CONTENT_TYPES = true ->
  pushNotification (params request) = Some cfg ->
  url cfg = EmptyString ->
  AgentTaskManager.on_send_task env request tm =
    (tm, Returned (mkSendTaskResponse (req_id request) None
                     (Some (InvalidParamsError "Push notification URL is missing"))))
  /\ AgentTaskManager.on_send_task_subscribe env request tm =
       (tm, Returned (AgentTaskManager.SubscribeError
                        (mkJSONRPCResponse (req_id request)
                           (Some (InvalidParamsError
                                    "Push notification URL is missing"))))).
Proof.
  intros Hmodes Hp Hurl.
  unfold AgentTaskManager.on_send_task, AgentTaskManager.on_send_task_subscribe,
    AgentTaskManager._validate_request.
  rewrite Hmodes, Hp, Hurl. split; reflexivity.
Qed.

End SyncOutcomes.

Lemma on_send_task_pushes_working_only_witness :
  AgentTaskManager.on_send_task trusting_agent greeting_request
    registered_finished_manager =
    (notified_manager, Returned (mkSendTaskResponse "r1" (Some twice_done) None))
  /\ result (mkSendTaskResponse "r1" (Some twice_done) None) = Some twice_done
  /\ exists query working,
       AgentTaskManager._get_user_query (params greeting_request) = Returned query
       /\ status working = mkTaskStatus WORKING None
       /\ t_id working = t_id twice_done
       /\ trace notified_manager =
            trace registered_finished_manager
            ++ verification_of (params greeting_request)
            ++ notification_of notified_manager working
            ++ [AgentInvoke query (sessionId (params greeting_request))].
Proof.
  assert (Hrun : AgentTaskManager.on_send_task trusting_agent greeting_request
                   registered_finished_manager =
                 (notified_manager,
                  Returned (mkSendTaskResponse "r1" (Some twice_done) None)))
    by (vm_compute; reflexivity).
  split; [exact Hrun|]. split; [reflexivity|].
  exact (on_send_task_pushes_working_only trusting_agent greeting_request
           registered_finished_manager notified_manager _ twice_done Hrun eq_refl).
Defined.

Lemma on_send_task_agent_failure_leaves_working_witness :
  AgentTaskManager._validate_request greeting_request = None
  /\ (forall cfg, pushNotification (params greeting_request) = Some cfg ->
                  verify_push_notification_url failing_agent (url cfg) = true)
  /\ AgentTaskManager._get_user_query (params greeting_request) = Returned "hi"
  /\ agent_invoke failing_agent "hi" (sessionId (params greeting_request)) =
       Raised (ExternalError "quota")
  /\ exists tm' working,
       AgentTaskManager.on_send_task failing_agent greeting_request one_task_manager =
         (tm', Raised (ValueError ("Error invoking agent: "
                                   +:+ exc_str failing_agent (ExternalError "quota"))))
       /\ tasks tm' !! param_id (params greeting_request) = Some working
       /\ status working = mkTaskStatus WORKING None
       /\ artifacts_of working =
            stored_artifacts one_task_manager (param_id (params greeting_request)).
Proof.
  assert (Hpush : forall cfg, pushNotification (params greeting_request) = Some cfg ->
                    verify_push_notification_url failing_agent (url cfg) = true)
    by (intros cfg H; discriminate H).
  split; [reflexivity|]. split; [exact Hpush|]. split; [reflexivity|].
  split; [reflexivity|].
  exact (on_send_task_agent_failure_leaves_working failing_agent greeting_request
           one_task_manager "hi" (ExternalError "quota") eq_refl Hpush eq_refl
           eq_refl).
Defined.

Lemma empty_push_url_is_refused_witness :
  utils.are_modalities_compatible (acceptedOutputModes (params empty_url_request))
    SUPPORTED_CONTENT_TYPES = true
  /\ pushNotification (params empty_url_request) =
       Some (mkPushNotificationConfig EmptyString None)
  /\ url (mkPushNotificationConfig EmptyString None) = EmptyString
  /\ AgentTaskManager.on_send_task trusting_agent empty_url_request one_task_manager =
       (one_task_manager,
        Returned (mkSendTaskResponse (req_id empty_url_request) None
                    (Some (InvalidParamsError "Push notification URL is missing"))))
  /\ AgentTaskManager.on_send_task_subscribe trusting_agent empty_url_request
       one_task_manager =
       (one_task_manager,
        Returned (AgentTaskManager.SubscribeError
                    (mkJSONRPCResponse (req_id empty_url_request)
                       (Some (InvalidParamsError
                                "Push notification URL is missing"))))).
Proof.
  split; [reflexivity|]. split; [reflexivity|]. split; [reflexivity|].
  exact (empty_push_url_is_refused trusting_agent empty_url_request one_task_manager
           (mkPushNotificationConfig EmptyString None) eq_refl eq_refl eq_refl).
Defined.

(** Two successful [on_send_task] calls on the same task id, as when a
    task paused in [INPUT_REQUIRED] is resumed: the second call keeps the
    task's id and session and all artifacts the first left, and adds
    exactly one artifact at the end; the status is the one of the second
    answer alone. *)
Theorem on_send_task_twice_accumulates
    (env : Collaborators) (first_request second : SendTaskRequest)
    (tm tm1 tm2 : TaskManager) (resp1 resp2 : SendTaskResponse)
    (task1 task2 : Task) :
  param_id (params second) = param_id (params first_request) ->
  AgentTaskManager.on_send_task env first_request tm = (tm1, Returned resp1) ->
  result resp1 = Some task1 ->
  AgentTaskManager.on_send_task env second tm1 = (tm2, Returned resp2) ->
  result resp2 = Some task2 ->
  exists query answer,
    AgentTaskManager._get_user_query (params second) = Returned query
    /\ agent_invoke env query (sessionId (params second)) = Returned answer
    /\ artifacts_of task2 =
         artifacts_of task1 ++ [Artifact_from_parts [TextPart answer]]
    /\ t_id task2 = t_id task1
    /\ t_sessionId task2 = t_sessionId task1
    /\ status task2 =
         mkTaskStatus
           (if str_contains "MISSING_INFO:" answer then INPUT_REQUIRED else COMPLETED)
           (Some (mkMessage agent [TextPart answer])).
Proof.
  intros Hid Hrun1 Hres1 Hrun2 Hres2.
  destruct (on_send_task_success_run env first_request tm tm1 resp1 task1 Hrun1 Hres1)
    as (q1 & r1 & w1 & _ & _ & _ & _ & _ & _ & _ & Hstored1 & _).
  destruct (on_send_task_success_run env second tm1 tm2 resp2 task2 Hrun2 Hres2)
    as (query & answer & w2 & Hq & Ha & _ & _ & _ & _ & Hsame & _ & Hst & Harts & _).
  rewrite Hid in Hsame, Harts. destruct (Hsame task1 Hstored1) as [Ht Hs].
  exists query, answer. split; [exact Hq|]. split; [exact Ha|].
  split; [|split; [exact Ht|split; [exact Hs|exact Hst]]].
  unfold artifacts_of at 1. rewrite Harts. unfold stored_artifacts.
  rewrite Hstored1. reflexivity.
Qed.

Lemma on_send_task_twice_accumulates_witness :
  exists tm1 tm2 task1 task2,
    param_id (params second_request) = param_id (params greeting_request)
    /\ AgentTaskManager.on_send_task two_step_agent greeting_request empty_manager =
         (tm1, Returned (mkSendTaskResponse "r1" (Some task1) None))
    /\ AgentTaskManager.on_send_task two_step_agent second_request tm1 =
         (tm2, Returned (mkSendTaskResponse "r5" (Some task2) None))
    /\ exists query answer,
         AgentTaskManager._get_user_query (params second_request) = Returned query
         /\ agent_invoke two_step_agent query (sessionId (params second_request)) =
              Returned answer
         /\ artifacts_of task2 =
              artifacts_of task1 ++ [Artifact_from_parts [TextPart answer]]
         /\ t_id task2 = t_id task1
         /\ t_sessionId task2 = t_sessionId task1
         /\ status task2 =
              mkTaskStatus
                (if str_contains "MISSING_INFO:" answer
                 then INPUT_REQUIRED else COMPLETED)
                (Some (mkMessage agent [TextPart answer])).
Proof.
  eexists _, _, _, _. split; [reflexivity|].
  assert (H1 : AgentTaskManager.on_send_task two_step_agent greeting_request
                 empty_manager =
               (paused_manager, Returned (mkSendTaskResponse "r1" (Some paused_task) None)))
    by (vm_compute; reflexivity).
  assert (H2 : AgentTaskManager.on_send_task two_step_agent second_request
                 paused_manager =
               (resumed_manager,
                Returned (mkSendTaskResponse "r5" (Some resumed_task) None)))
    by (vm_compute; reflexivity).
  split; [exact H1|]. split; [exact H2|].
  exact (on_send_task_twice_accumulates two_step_agent greeting_request
           second_request empty_manager paused_manager resumed_manager _ _
           paused_task resumed_task eq_refl H1 eq_refl H2 eq_refl).
Defined.

(** ** The interactions of the streaming path *)

Section StreamingOutcomes.

Variable env : Collaborators.
Variable request : SendTaskStreamingRequest.

(** The generator when the loop ends normally with its variables bound and
    the task is in the store. *)
Lemma stream_generator_run (tm : TaskManager) (query : string)
    (items : list Item) (v : AgentTaskManager.LoopVars) (old : Task) :
  AgentTaskManager._get_user_query (params request) = Returned query ->
  agent_stream env query (sessionId (params request)) = (items, None) ->
  AgentTaskManager.run_loop env items None = Returned (Some v) ->
  tasks tm !! param_id (params request) = Some old ->
  AgentTaskManager._stream_generator env request tm =
    (let tm3 := mkTaskManager
                  (<[param_id (params request) := persisted old v]> (tasks tm))
                  (push_notification_infos tm)
                  (trace tm ++ [AgentStream query (sessionId (params request))]) in
     (mkTaskManager (tasks tm3) (push_notification_infos tm3)
        (trace tm3 ++ notification_of tm3 (persisted old v)),
      Returned (stream_responses request v))).
Proof.
  intros Hq Hstream Hloop Hold.
  unfold AgentTaskManager._stream_generator, bind at 1, lift. rewrite Hq.
  unfold try_except, AgentTaskManager.stream_try_block.
  unfold bind at 1, emit. rewrite Hstream.
  unfold bind at 1, lift. rewrite Hloop.
  unfold bind at 1, ret at 1. unfold bind at 1.
  rewrite (update_store_known _ _ old); [|exact Hold]. cbv zeta.
  unfold bind at 1. rewrite send_task_notification_exact. reflexivity.
Qed.

(** The streaming path notifies after the store update, and what it pushes
    is the task as stored: when the loop ends normally and the task is in
    the store, the interactions of the generator are the call of the
    agent's stream followed by the notification (if a config is registered
    for the task) of the very task now in the store. *)
Theorem stream_generator_pushes_stored_task (tm : TaskManager) (query : string)
    (items : list Item) (v : AgentTaskManager.LoopVars) (old : Task) :
  AgentTaskManager._get_user_query (params request) = Returned query ->
  agent_stream env query (sessionId (params request)) = (items, None) ->
  AgentTaskManager.run_loop env items None = Returned (Some v) ->
  tasks tm !! param_id (params request) = Some old ->
  exists tm' stored,
    AgentTaskManager._stream_generator env request tm =
      (tm', Returned (stream_responses request v))
    /\ tasks tm' !! param_id (params request) = Some stored
    /\ status stored =
         mkTaskStatus (AgentTaskManager.task_state v)
           (Some (mkMessage agent (AgentTaskManager.parts v)))
    /\ trace tm' =
         trace tm ++ [AgentStream query (sessionId (params request))]
         ++ notification_of tm' stored.
Proof.
  intros Hq Hstream Hloop Hold.
  rewrite (stream_generator_run tm query items v old Hq Hstream Hloop Hold).
  cbv zeta. eexists _, (persisted old v). split; [reflexivity|]. simpl.
  split; [apply lookup_insert_eq|]. split; [reflexivity|].
  rewrite <- app_assoc. reflexivity.
Qed.

(** A stream whose last item is a progress update.  When the agent's
    stream ends without an exception, the loop can read each item before
    the last, the last item is a progress update and the task is in the
    store, the generator yields one response only, the non-final
    [WORKING] status event with the update's text, with no artifact event
    and no final event; the stored task is left in state [WORKING] with
    the artifacts it had before.  What the earlier items reported,
    finished or not, makes no difference. *)
Theorem stream_ending_in_progress (tm : TaskManager) (query : string)
    (items : list Item) (before : option AgentTaskManager.LoopVars)
    (update : string) (content : option Content) (old : Task) :
  AgentTaskManager._get_user_query (params request) = Returned query ->
  agent_stream env query (sessionId (params request)) =
    (items ++ [mkItem false (Some update) content], None) ->
  AgentTaskManager.run_loop env items None = Returned before ->
  tasks tm !! param_id (params request) = Some old ->
  exists tm',
    AgentTaskManager._stream_generator env request tm =
      (tm',
       Returned
         [SendTaskStreamingResponse (req_id request)
            (TaskStatusUpdateEvent (param_id (params request))
               (mkTaskStatus WORKING (Some (mkMessage agent [TextPart update])))
               false)])
    /\ tasks tm' !! param_id (params request) =
         Some (mkTask (t_id old) (t_sessionId old)
                 (mkTaskStatus WORKING (Some (mkMessage agent [TextPart update])))
                 (artifacts old)).
Proof.
  intros Hq Hstream Hitems Hold.
  assert (Hloop : AgentTaskManager.run_loop env
                    (items ++ [mkItem false (Some update) content]) None =
                  Returned (Some (AgentTaskManager.mkLoopVars false None WORKING
                                    [TextPart update]))).
  { rewrite run_loop_last, Hitems. reflexivity. }
  rewrite (stream_generator_run tm query _ _ old Hq Hstream Hloop Hold).
  cbv zeta. eexists. split; [reflexivity|]. simpl. apply lookup_insert_eq.
Qed.

Lemma stream_generator_failure (tm : TaskManager) (query : string)
    (items : list Item) (failure : option PyExc) :
  AgentTaskManager._get_user_query (params request) = Returned query ->
  agent_stream env query (sessionId (params request)) = (items, failure) ->
  (exists e, AgentTaskManager.run_loop env items None = Raised e)
  \/ (exists e, failure = Some e)
  \/ AgentTaskManager.run_loop env items None = Returned None
  \/ tasks tm !! param_id (params request) = None ->
  AgentTaskManager._stream_generator env request tm =
    (mkTaskManager (tasks tm) (push_notification_infos tm)
       (trace tm ++ [AgentStream query (sessionId (params request))]),
     Returned [streaming_error request]).
Proof.
  intros Hq Hstream Hfail.
  unfold AgentTaskManager._stream_generator, bind at 1, lift. rewrite Hq.
  unfold try_except, AgentTaskManager.stream_try_block.
  unfold bind at 1, emit. rewrite Hstream.
  unfold bind at 1, lift.
  destruct (AgentTaskManager.run_loop env items None) as [vars|e0] eqn:Hloop;
    [|reflexivity].
  unfold bind at 1.
  destruct failure as [e1|]; [reflexivity|]. unfold ret at 1.
  destruct vars as [v|]; [|reflexivity].
  destruct Hfail as [[e H] | [[e H] | [H | H]]]; try discriminate.
  unfold bind at 1. rewrite update_store_unknown by exact H. reflexivity.
Qed.

(** Every failure inside the generator's [try] block ends the stream the
    same way: an item the loop cannot read, an exception raised by the
    agent's stream, a stream with no item, or a task id the store does not
    know each make the generator yield the internal-error response alone,
    with the task store and the registered configs untouched and no
    notification sent. *)
Theorem stream_failure_yields_internal_error (tm : TaskManager) (query : string)
    (items : list Item) (failure : option PyExc) :
  AgentTaskManager._get_user_query (params request) = Returned query ->
  agent_stream env query (sessionId (params request)) = (items, failure) ->
  (exists e, AgentTaskManager.run_loop env items None = Raised e)
  \/ (exists e, failure = Some e)
  \/ AgentTaskManager.run_loop env items None = Returned None
  \/ tasks tm !! param_id (params request) = None ->
  AgentTaskManager._stream_generator env request tm =
    (mkTaskManager (tasks tm) (push_notification_infos tm)
       (trace tm ++ [AgentStream query (sessionId (params request))]),
     Returned [streaming_error request]).
Proof. exact (stream_generator_failure tm query items failure). Qed.

End StreamingOutcomes.

Lemma stream_generator_pushes_stored_task_witness :
  AgentTaskManager._get_user_query (params greeting_request) = Returned "hi"
  /\ agent_stream trusting_agent "hi" (sessionId (params greeting_request)) =
       ([done_item], None)
  /\ AgentTaskManager.run_loop trusting_agent [done_item] None =
       Returned (Some (AgentTaskManager.mkLoopVars true
                         (Some [mkArtifact [TextPart "done"] 0 (Some false)])
                         COMPLETED [TextPart "done"]))
  /\ tasks registered_finished_manager !! param_id (params greeting_request) =
       Some finished_task
  /\ exists tm' stored,
       AgentTaskManager._stream_generator trusting_agent greeting_request
         registered_finished_manager =
         (tm', Returned (stream_responses greeting_request
                           (AgentTaskManager.mkLoopVars true
                              (Some [mkArtifact [TextPart "done"] 0 (Some false)])
                              COMPLETED [TextPart "done"])))
       /\ tasks tm' !! param_id (params greeting_request) = Some stored
       /\ status stored =
            mkTaskStatus COMPLETED (Some (mkMessage agent [TextPart "done"]))
       /\ trace tm' =
            trace registered_finished_manager
            ++ [AgentStream "hi" (sessionId (params greeting_request))]
            ++ notification_of tm' stored.
Proof.
  assert (Hold : tasks registered_finished_manager
                   !! param_id (params greeting_request) = Some finished_task)
    by (vm_compute; reflexivity).
  split; [reflexivity|]. split; [reflexivity|]. split; [reflexivity|].
  split; [exact Hold|].
  exact (stream_generator_pushes_stored_task trusting_agent greeting_request
           registered_finished_manager "hi" [done_item] _ finished_task
           eq_refl eq_refl eq_refl Hold).
Defined.

Lemma stream_ending_in_progress_witness :
  AgentTaskManager._get_user_query (params greeting_request) = Returned "hi"
  /\ agent_stream late_progress_agent "hi" (sessionId (params greeting_request)) =
       ([done_item] ++ [mkItem false
                          (Some "Processing the activity tracking request...") None],
        None)
  /\ tasks one_task_manager !! param_id (params greeting_request) = Some finished_task
  /\ exists tm',
       AgentTaskManager._stream_generator late_progress_agent greeting_request
         one_task_manager =
         (tm',
          Returned
            [SendTaskStreamingResponse (req_id greeting_request)
               (TaskStatusUpdateEvent (param_id (params greeting_request))
                  (mkTaskStatus WORKING
                     (Some (mkMessage agent
                              [TextPart "Processing the activity tracking request..."])))
                  false)])
       /\ tasks tm' !! param_id (params greeting_request) =
            Some (mkTask (t_id finished_task) (t_sessionId finished_task)
                    (mkTaskStatus WORKING
                       (Some (mkMessage agent
                                [TextPart "Processing the activity tracking request..."])))
                    (artifacts finished_task)).
Proof.
  assert (Hold : tasks one_task_manager !! param_id (params greeting_request) =
                 Some finished_task) by (vm_compute; reflexivity).
  split; [reflexivity|]. split; [reflexivity|]. split; [exact Hold|].
  exact (stream_ending_in_progress late_progress_agent greeting_request
           one_task_manager "hi" [done_item] _
           "Processing the activity tracking request..." None finished_task
           eq_refl eq_refl eq_refl Hold).
Defined.

Lemma stream_failure_yields_internal_error_witness :
  AgentTaskManager._get_user_query (params greeting_request) = Returned "hi"
  /\ agent_stream failing_agent "hi" (sessionId (params greeting_request)) =
       ([working_item], Some (ExternalError "quota"))
  /\ AgentTaskManager._stream_generator failing_agent greeting_request
       one_task_manager =
       (mkTaskManager (tasks one_task_manager)
          (push_notification_infos one_task_manager)
          (trace one_task_manager
           ++ [AgentStream "hi" (sessionId (params greeting_request))]),
        Returned [streaming_error greeting_request]).
Proof.
  split; [reflexivity|]. split; [reflexivity|].
  apply (stream_failure_yields_internal_error failing_agent greeting_request
           one_task_manager "hi" [working_item] (Some (ExternalError "quota"))
           eq_refl eq_refl).
  right. left. eexists. reflexivity.
Defined.



(** ** The activity tracker's tools *)

Section TrackerTools.

Variable to_excel : string -> list ActivityTracker.Activity -> Outcome unit.

Lemma add_all_run (records : list ActivityTracker.Activity)
    (st : ActivityTracker.Tracker) :
  add_all records st =
    (ActivityTracker.mkTracker (ActivityTracker.activities st ++ records)
       (ActivityTracker.excel_calls st), Returned tt).
Proof.
  revert st. induction records as [|r rest IH]; intros st.
  - simpl. rewrite app_nil_r. destruct st. reflexivity.
  - simpl. unfold bind at 1, ActivityTracker.add_activity, bind, get_state,
      put_state, ret. simpl. rewrite IH. simpl.
    rewrite <- app_assoc. destruct r. reflexivity.
Qed.

(** Activities reach the spreadsheet complete and in the order they were
    added.  After [add_activity] has been called for each of [records],
    [save_activities_to_excel] hands [to_excel] every activity the tracker
    held before followed by [records], in this order, and keeps them all;
    its answer is "Activities saved to <path>" when the write returns and
    the write's exception when it raises.  With nothing to save it makes
    no write and answers "No activities to save.". *)
Theorem activities_are_saved_in_order
    (st : ActivityTracker.Tracker) (records : list ActivityTracker.Activity)
    (file_path : string) :
  (add_all records ;;;
   ActivityTracker.save_activities_to_excel to_excel file_path) st =
    match ActivityTracker.activities st ++ records with
    | [] => (st, Returned [("status", PyStr "No activities to save.")])
    | a :: rest =>
        (ActivityTracker.mkTracker (a :: rest)
           (ActivityTracker.excel_calls st ++ [(file_path, a :: rest)]),
         match to_excel file_path (a :: rest) with
         | Returned _ =>
             Returned [("status", PyStr ("Activities saved to " +:+ file_path))]
         | Raised e => Raised e
         end)
    end.
Proof.
  unfold bind at 1. rewrite add_all_run.
  unfold ActivityTracker.save_activities_to_excel, bind at 1, get_state.
  simpl.
  destruct (ActivityTracker.activities st ++ records) as [|a rest] eqn:E.
  - apply app_eq_nil in E as [E1 ->]. destruct st as [acts calls].
    simpl in E1. subst acts. reflexivity.
  - unfold bind, put_state, lift, ret. simpl.
    destruct (to_excel file_path (a :: rest)) as [[]|e]; reflexivity.
Qed.

End TrackerTools.

(** ** The activity tracker agent *)

Section TrackerAgent.

Variable run : string -> string -> list ActivityTracker.AdkEvent * option PyExc.
Variable run_async : string -> string -> list ActivityTracker.AdkEvent * option PyExc.

Lemma get_or_create_session_run (session_id : string)
    (sessions : ActivityTracker.Sessions) :
  ActivityTracker.get_or_create_session session_id sessions =
    ({[ session_id ]} ∪ sessions, Returned session_id).
Proof.
  unfold ActivityTracker.get_or_create_session, bind, get_state. simpl.
  destruct (decide (session_id ∈ sessions)) as [Hin|Hout].
  - unfold ret. f_equal. symmetry. apply subseteq_union_1_L.
    apply singleton_subseteq_l. exact Hin.
  - reflexivity.
Qed.


Lemma items_of_progress_events (events : list ActivityTracker.AdkEvent) :
  Forall (fun e => ActivityTracker.is_final_response e = false) events ->
  ActivityTracker.items_of_events events =
    (map (fun _ => progress_item) events, None).
Proof.
  induction 1 as [|e rest He _ IH]; simpl.
  - reflexivity.
  - unfold ActivityTracker.item_of_event. rewrite He, IH. reflexivity.
Qed.

Lemma items_of_events_app (events later : list ActivityTracker.AdkEvent)
    (items : list Item) :
  ActivityTracker.items_of_events events = (items, None) ->
  ActivityTracker.items_of_events (events ++ later) =
    (items ++ fst (ActivityTracker.items_of_events later),
     snd (ActivityTracker.items_of_events later)).
Proof.
  revert items. induction events as [|e rest IH]; intros items; simpl.
  - intros H. injection H as <-.
    destruct (ActivityTracker.items_of_events later). reflexivity.
  - destruct (ActivityTracker.item_of_event e) as [item|exc]; [|discriminate].
    destruct (ActivityTracker.items_of_events rest) as [its failure] eqn:E.
    intros H. injection H as H1 H2. subst items failure.
    rewrite (IH its eq_refl). reflexivity.
Qed.


End TrackerAgent.

(** ** The activity tracker behind the task manager *)

Section TrackerStreaming.

Variable run : string -> string -> list ActivityTracker.AdkEvent * option PyExc.
Variable run_async : string -> string -> list ActivityTracker.AdkEvent * option PyExc.
Variable sessions : ActivityTracker.Sessions.
Variable verify : string -> bool.
Variable loads : string -> Outcome PyVal.
Variable str : PyExc -> string.
Variable request : SendTaskStreamingRequest.
Variable query : string.
Variable progress : list ActivityTracker.AdkEvent.
Variable final : ActivityTracker.AdkEvent.
Variable p : ActivityTracker.AdkPart.
Variable ps : list ActivityTracker.AdkPart.

Hypothesis Hquery : AgentTaskManager._get_user_query (params request) = Returned query.
Hypothesis Hrun : run_async (sessionId (params request)) query = (progress ++ [final], None).
Hypothesis Hprogress :
  Forall (fun e => ActivityTracker.is_final_response e = false) progress.
Hypothesis Hfinal : ActivityTracker.is_final_response final = true.
Hypothesis Hparts : ActivityTracker.truthy_parts final = Some (p :: ps).

Local Abbreviation env :=
  (tracker_collaborators run run_async sessions verify loads str).

Lemma tracker_stream_items (last_item : Outcome Item) :
  ActivityTracker.item_of_event final = last_item ->
  agent_stream env query (sessionId (params request)) =
    match last_item with
    | Returned item => (map (fun _ => progress_item) progress ++ [item], None)
    | Raised e => (map (fun _ => progress_item) progress, Some e)
    end.
Proof.
  intros Hitem. unfold tracker_collaborators. simpl.
  unfold ActivityTracker.stream, bind. rewrite get_or_create_session_run, Hrun.
  rewrite (items_of_events_app _ _ _ (items_of_progress_events progress Hprogress)).
  simpl. rewrite Hitem. destruct last_item as [item|e]; simpl.
  - reflexivity.
  - rewrite app_nil_r. reflexivity.
Qed.


(** A final response whose first part has neither a text nor a function
    response, while a later part has a function response, makes [stream]
    raise [AttributeError]: the response is taken from the first part.
    Behind the task manager the stream then ends with the internal-error
    response alone and the store is left untouched. *)
Theorem tracker_stream_first_part_without_response (tm : TaskManager) :
  ActivityTracker.text p = None \/ ActivityTracker.text p = Some EmptyString ->
  ActivityTracker.function_response p = None ->
  (exists q dump, In q ps /\ ActivityTracker.function_response q = Some dump) ->
  ActivityTracker.item_of_event final = Raised AttributeError
  /\ AgentTaskManager._stream_generator env request tm =
       (mkTaskManager (tasks tm) (push_notification_infos tm)
          (trace tm ++ [AgentStream query (sessionId (params request))]),
        Returned [streaming_error request]).
Proof.
  intros Htext Hnone (q & dump & Hin & Hq).
  assert (Hitem : ActivityTracker.item_of_event final = Raised AttributeError).
  { unfold ActivityTracker.item_of_event. rewrite Hfinal, Hparts.
    assert (Hfalsy : match ActivityTracker.text p with
                     | Some t => negb (String.eqb t "")
                     | None => false
                     end = false)
      by (destruct Htext as [-> | ->]; reflexivity).
    rewrite Hfalsy. simpl. rewrite Hnone. simpl.
    assert (Hany : existsb (fun q => match ActivityTracker.function_response q with
                                     | Some _ => true
                                     | None => false
                                     end) ps = true).
    { apply existsb_exists. exists q. split; [exact Hin|]. rewrite Hq. reflexivity. }
    rewrite Hany. reflexivity. }
  split; [exact Hitem|].
  pose proof (tracker_stream_items _ Hitem) as Hstream. simpl in Hstream.
  apply (stream_generator_failure env request tm query _ _ Hquery Hstream).
  right. left. eexists. reflexivity.
Qed.

End TrackerStreaming.



Lemma tracker_stream_first_part_without_response_witness :
  AgentTaskManager._get_user_query (params greeting_request) = Returned "hi"
  /\ late_response_runner (sessionId (params greeting_request)) "hi" =
       ([tool_event] ++ [late_response_event], None)
  /\ ActivityTracker.is_final_response late_response_event = true
  /\ ActivityTracker.item_of_event late_response_event = Raised AttributeError
  /\ AgentTaskManager._stream_generator (tracker_env late_response_runner)
       greeting_request one_task_manager =
       (mkTaskManager (tasks one_task_manager)
          (push_notification_infos one_task_manager)
          (trace one_task_manager
           ++ [AgentStream "hi" (sessionId (params greeting_request))]),
        Returned [streaming_error greeting_request]).
Proof.
  assert (Hprogress : Forall (fun e => ActivityTracker.is_final_response e = false)
                        [tool_event]) by (repeat constructor).
  split; [reflexivity|]. split; [reflexivity|]. split; [reflexivity|].
  apply (tracker_stream_first_part_without_response late_response_runner
           late_response_runner ∅ (fun _ => true)
           (fun _ => Raised (ExternalError "json")) (fun _ => EmptyString)
           greeting_request "hi" [tool_event] late_response_event
           (ActivityTracker.mkAdkPart None None)
           [ActivityTracker.mkAdkPart None (Some [("name", PyStr "add_activity")])]
           eq_refl eq_refl Hprogress eq_refl eq_refl one_task_manager).
  - left. reflexivity.
  - reflexivity.
  - eexists _, _. split; [left; reflexivity | reflexivity].
Defined.

(** ** The calendar agent's workbook *)

(** The loop of [_append_events_to_excel] stops at the first event it
    cannot read. *)
Lemma append_events_app_raises (xl : CalendarAgent.Openpyxl)
    (good : list PyVal) (bad : PyVal) (rest : list PyVal)
    (ws ws' : CalendarAgent.Book xl) (e : PyExc) :
  CalendarAgent.append_events xl ws good = Returned ws' ->
  CalendarAgent.event_row bad = Raised e ->
  CalendarAgent.append_events xl ws (good ++ bad :: rest) = Raised e.
Proof.
  revert ws. induction good as [|x good IH]; intros ws; simpl.
  - intros _ ->. reflexivity.
  - destruct (CalendarAgent.event_row x) as [row|e0]; simpl; [|discriminate].
    destruct (CalendarAgent.ws_append xl ws row) as [ws1|e0]; simpl;
      [|discriminate].
    intros Hgood Hbad. exact (IH ws1 Hgood Hbad).
Qed.

Lemma event_row_without_start (d : PyMapping) :
  dict_get d "start" = None ->
  CalendarAgent.event_row (PyDict d) = Raised (KeyError "start").
Proof.
  intros H. unfold CalendarAgent.event_row. simpl. unfold dict_getitem.
  rewrite H. reflexivity.
Qed.

(** ** The calendar agent's answers *)

Section CalendarAnswers.

Variable datetime : Type.
Variable now : datetime.
Variable replace_time : datetime -> Z -> Z -> Z -> Z -> datetime.
Variable replace_day_time : datetime -> Z -> Z -> Z -> Z -> Z -> datetime.
Variable minus_days : datetime -> Z -> datetime.
Variable plus_timedelta : datetime -> Z -> Z -> Z -> Z -> Z -> datetime.
Variable weekday : datetime -> Z.
Variable monthrange_last : datetime -> Z.
Variable epoch : datetime.
Variable datetime_eqb : datetime -> datetime -> bool.
Variable strftime_date : datetime -> string.
Variable dateparser_parse : string -> Outcome (option datetime).
Variable py_format : PyVal -> string.
Variable events_list_execute :
  CalendarAgent.EventsQuery datetime -> CalendarAgent.ApiReply.
Variable exc_str : PyExc -> string.
Variable day_summary : list PyVal -> Outcome string.
Variable xl : CalendarAgent.Openpyxl.

Local Abbreviation date_range :=
  (CalendarLookups._get_date_range_from_query datetime now replace_time
     replace_day_time minus_days plus_timedelta weekday monthrange_last).
Local Abbreviation invoke :=
  (CalendarLookups.invoke datetime now replace_time replace_day_time
     minus_days plus_timedelta weekday monthrange_last epoch datetime_eqb
     strftime_date dateparser_parse py_format events_list_execute exc_str
     day_summary xl).

Lemma not_a_keyword (word query : string) :
  (forall w, In w calendar_keywords -> ~ Substring w (lower query)) ->
  In word calendar_keywords ->
  str_contains word (lower query) = false.
Proof. intros H Hin. apply str_contains_false, H, Hin. Qed.

Lemma no_phrase_of (phrases : list string) (query : string) :
  (forall w, In w phrases -> ~ Substring w (lower query)) ->
  existsb (fun word => str_contains word (lower query)) phrases = false.
Proof.
  intros H. induction phrases as [|p rest IH]; simpl; [reflexivity|].
  rewrite (proj2 (str_contains_false p (lower query))) by (apply H; left; reflexivity).
  apply IH. intros w Hw. apply H. right. exact Hw.
Qed.



(** A history query looks at everything up to now.  When the query has
    none of the day-planning phrases and one of "all events",
    "everything", "history", "full list", the API is asked for the events
    from the first of January 1970 until now, at most 100 of them; when it
    has none, the answer is "No events found in your calendar history."
    and the workbook is not touched. *)
Theorem calendar_history_without_events
    (query sessionId phrase : string) (disk : CalendarAgent.Disk xl)
    (items : option (list PyVal)) :
  (forall w, In w CalendarAgent.plan_phrases -> ~ Substring w (lower query)) ->
  In phrase CalendarLookups.history_phrases ->
  Substring phrase (lower query) ->
  events_list_execute (CalendarAgent.mkEventsQuery datetime 100 epoch (Some now)) =
    CalendarAgent.ApiItems items ->
  items = None \/ items = Some [] ->
  invoke query sessionId disk =
    (disk, Returned (CalendarAgent.mkAgentResult true false
                       "No events found in your calendar history.")).
Proof.
  intros Hplan Hin Hsub Hapi Hitems.
  unfold CalendarLookups.invoke, CalendarAgent.invoke, try_except.
  rewrite (no_phrase_of _ _ Hplan).
  unfold CalendarLookups.lookup_events, bind, lift,
    CalendarLookups.fetch_for_query.
  assert (Hhist : existsb (fun word => str_contains word (lower query))
                    CalendarLookups.history_phrases = true).
  { apply existsb_exists. exists phrase. split; [exact Hin|].
    apply str_contains_spec, Hsub. }
  rewrite Hhist. unfold CalendarLookups.fetch, CalendarAgent._fetch_events.
  rewrite Hapi. destruct Hitems as [-> | ->]; reflexivity.
Qed.

(** A query without any keyword and without a date asks for what is coming
    up.  When the lower-cased query ([str.lower], which also turns the
    Kelvin sign into k) has none of the words [invoke] looks for and
    [dateparser] finds no date in it, the API is asked for at most 10
    events from now on, with no end; when there is none, the answer is
    "No upcoming events found." and the workbook is not touched. *)
Theorem calendar_upcoming_without_events
    (query sessionId : string) (disk : CalendarAgent.Disk xl)
    (items : option (list PyVal)) :
  (forall w, In w calendar_keywords -> ~ Substring w (lower query)) ->
  dateparser_parse query = Returned None ->
  events_list_execute (CalendarAgent.mkEventsQuery datetime 10 now None) =
    CalendarAgent.ApiItems items ->
  items = None \/ items = Some [] ->
  invoke query sessionId disk =
    (disk, Returned (CalendarAgent.mkAgentResult true false
                       "No upcoming events found.")).
Proof.
  intros Hnone Hparse Hapi Hitems.
  unfold CalendarLookups.invoke, CalendarAgent.invoke, try_except.
  rewrite no_phrase_of
    by (intros w Hw; apply Hnone; unfold calendar_keywords;
        apply in_or_app; left; exact Hw).
  unfold CalendarLookups.lookup_events, bind, lift,
    CalendarLookups.fetch_for_query.
  rewrite no_phrase_of
    by (intros w Hw; apply Hnone; unfold calendar_keywords;
        apply in_or_app; right; apply in_or_app; left; exact Hw).
  unfold CalendarLookups._get_date_range_from_query.
  rewrite !(not_a_keyword _ query Hnone) by (vm_compute; tauto).
  simpl. rewrite Hparse. simpl.
  unfold CalendarLookups.fetch, CalendarAgent._fetch_events.
  rewrite Hapi. destruct Hitems as [-> | ->]; reflexivity.
Qed.

(** An event that cannot be read is reported, not raised, and nothing is
    written.  On a day-planning query, when the workbook can be opened,
    the events before some event of today are read and their rows taken
    by the worksheet, and that event has no "start" entry, [invoke]
    returns [is_task_complete] false, [require_user_input] true and "An
    error occurred: " followed by the text of [KeyError('start')]; the
    save is not reached, so the file is as it was, without the rows of the
    events that could be read. *)
Theorem plan_my_day_event_without_start
    (query sessionId phrase : string) (disk : CalendarAgent.Disk xl)
    (good rest : list PyVal) (ws ws' : CalendarAgent.Book xl) (d : PyMapping) :
  In phrase CalendarAgent.plan_phrases ->
  Substring phrase (lower query) ->
  CalendarAgent._fetch_events datetime now events_list_execute
    (Some (replace_time now 0 0 0 0))
    (Some (replace_time now 23 59 59 999999)) 50 =
    Returned (CalendarAgent.Events (good ++ PyDict d :: rest)) ->
  CalendarAgent.open_workbook xl disk = Returned ws ->
  CalendarAgent.append_events xl ws good = Returned ws' ->
  dict_get d "start" = None ->
  invoke query sessionId disk =
    (disk, Returned (CalendarAgent.mkAgentResult false true
                       ("An error occurred: " +:+ exc_str (KeyError "start")))).
Proof.
  intros Hin Hsub Hfetch Hopen Hgood Hstart.
  unfold CalendarLookups.invoke, CalendarAgent.invoke, try_except.
  rewrite (plan_query_detected query phrase Hin Hsub).
  unfold bind at 1, lift. rewrite Hfetch. unfold bind at 1.
  rewrite append_events_run, Hopen.
  rewrite (append_events_app_raises xl good (PyDict d) rest ws ws' _ Hgood
             (event_row_without_start d Hstart)).
  reflexivity.
Qed.

End CalendarAnswers.

(** ** The weeks of the calendar agent *)

Section WeekRanges.

Local Open Scope Z_scope.

Variable now : UtcClock.t.
Variable replace_day_time : UtcClock.t -> Z -> Z -> Z -> Z -> Z -> UtcClock.t.
Variable monthrange_last : UtcClock.t -> Z.

Local Abbreviation date_range :=
  (CalendarLookups._get_date_range_from_query UtcClock.t now
     UtcClock.replace_time replace_day_time UtcClock.minus_days
     UtcClock.plus_timedelta UtcClock.weekday monthrange_last).

(** The Monday, at midnight, of the week [now] is in. *)
Local Abbreviation this_monday :=
  (UtcClock.replace_time (UtcClock.minus_days now (UtcClock.weekday now)) 0 0 0 0).

Lemma end_of_week (monday : UtcClock.t) :
  UtcClock.micro monday = 0 ->
  UtcClock.plus_timedelta monday 6 23 59 59 999999 =
    UtcClock.mk (UtcClock.day monday + 6) 86399999999.
Proof.
  intros H. unfold UtcClock.plus_timedelta. rewrite H.
  assert (Hdiv : (0 + UtcClock.time_of_day 23 59 59 999999)
                 / UtcClock.micros_per_day = 0) by reflexivity.
  assert (Hmod : (0 + UtcClock.time_of_day 23 59 59 999999)
                 mod UtcClock.micros_per_day = 86399999999) by reflexivity.
  cbv zeta. rewrite Hdiv, Hmod. f_equal. lia.
Qed.

Lemma weekday_of_monday (n : Z) : (n - (n + 3) mod 7 + 3) mod 7 = 0.
Proof. Z.to_euclidean_division_equations. lia. Qed.

Lemma weekday_range (n : Z) : 0 <= (n + 3) mod 7 <= 6.
Proof. Z.to_euclidean_division_equations. lia. Qed.

(** "This week" is the week [now] is in, Monday to Sunday.  For a query
    that mentions "this week" or "current week" and neither "last week"
    nor "previous week", the range starts at midnight on a Monday, at most
    six days before [now], and ends on the Sunday after it at
    23:59:59.999999. *)
Theorem this_week_is_monday_to_sunday (query : string) :
  ~ Substring "last week" (lower query) ->
  ~ Substring "previous week" (lower query) ->
  Substring "this week" (lower query) \/ Substring "current week" (lower query) ->
  exists monday sunday,
    date_range query = (Some monday, Some sunday)
    /\ UtcClock.weekday monday = 0
    /\ UtcClock.micro monday = 0
    /\ UtcClock.day monday <= UtcClock.day now <= UtcClock.day monday + 6
    /\ sunday = UtcClock.mk (UtcClock.day monday + 6) 86399999999
    /\ UtcClock.weekday sunday = 6.
Proof.
  intros Hlast Hprev Hthis.
  unfold CalendarLookups._get_date_range_from_query. cbv zeta.
  rewrite (proj2 (str_contains_false _ _) Hlast),
    (proj2 (str_contains_false _ _) Hprev). simpl orb.
  assert (Hweek : str_contains "this week" (lower query)
                  || str_contains "current week" (lower query) = true).
  { apply orb_true_iff.
    destruct Hthis as [H|H]; [left|right]; apply str_contains_spec, H. }
  rewrite Hweek. rewrite end_of_week by reflexivity.
  eexists _, _. split; [reflexivity|].
  pose proof (weekday_range (UtcClock.day now)) as Hr.
  pose proof (weekday_of_monday (UtcClock.day now)) as Hm.
  unfold UtcClock.weekday in *. simpl.
  split; [exact Hm|]. split; [reflexivity|]. split; [lia|].
  split; [reflexivity|].
  replace (UtcClock.day now - (UtcClock.day now + 3) mod 7 + 6 + 3)
    with ((UtcClock.day now - (UtcClock.day now + 3) mod 7 + 3) + 6) by lia.
  revert Hm. generalize (UtcClock.day now - (UtcClock.day now + 3) mod 7 + 3).
  intros z Hz. Z.to_euclidean_division_equations. lia.
Qed.

(** "Last week" is the seven days right before this week.  For a query
    that mentions "last week" or "previous week", whatever else it
    mentions, the range starts at midnight on the Monday seven days before
    this week's Monday and ends on the following Sunday at
    23:59:59.999999, one microsecond before this week begins. *)
Theorem last_week_precedes_this_week (query : string) :
  Substring "last week" (lower query) \/ Substring "previous week" (lower query) ->
  exists last_monday last_sunday,
    date_range query = (Some last_monday, Some last_sunday)
    /\ UtcClock.weekday last_monday = 0
    /\ UtcClock.micro last_monday = 0
    /\ UtcClock.day last_monday + 7 = UtcClock.day this_monday
    /\ last_sunday = UtcClock.mk (UtcClock.day last_monday + 6) 86399999999
    /\ UtcClock.plus_timedelta last_sunday 0 0 0 0 1 = this_monday.
Proof.
  intros Hlast.
  unfold CalendarLookups._get_date_range_from_query. cbv zeta.
  assert (Hweek : str_contains "last week" (lower query)
                  || str_contains "previous week" (lower query) = true).
  { apply orb_true_iff.
    destruct Hlast as [H|H]; [left|right]; apply str_contains_spec, H. }
  rewrite Hweek. rewrite end_of_week by reflexivity.
  eexists _, _. split; [reflexivity|].
  pose proof (weekday_of_monday (UtcClock.day now)) as Hm.
  unfold UtcClock.weekday in *. simpl.
  split.
  { replace (UtcClock.day now - ((UtcClock.day now + 3) mod 7 + 7) + 3)
      with ((UtcClock.day now - (UtcClock.day now + 3) mod 7 + 3) - 7) by lia.
    revert Hm. generalize (UtcClock.day now - (UtcClock.day now + 3) mod 7 + 3).
    intros z Hz. Z.to_euclidean_division_equations. lia. }
  split; [reflexivity|]. split; [lia|]. split; [reflexivity|].
  unfold UtcClock.plus_timedelta, UtcClock.replace_time. simpl.
  assert (Hdiv : (86399999999 + UtcClock.time_of_day 0 0 0 1)
                 / UtcClock.micros_per_day = 1) by reflexivity.
  assert (Hmod : (86399999999 + UtcClock.time_of_day 0 0 0 1)
                 mod UtcClock.micros_per_day = 0) by reflexivity.
  rewrite Hdiv, Hmod. f_equal. lia.
Qed.

End WeekRanges.


Lemma calendar_history_without_events_witness :
  (forall w, In w CalendarAgent.plan_phrases -> ~ Substring w (lower "My History"))
  /\ In "history" CalendarLookups.history_phrases
  /\ Substring "history" (lower "My History")
  /\ empty_utc_calendar
       (CalendarAgent.mkEventsQuery UtcClock.t 100 (UtcClock.mk 0 0) (Some sample_now)) =
       CalendarAgent.ApiItems (Some [])
  /\ sample_invoke empty_utc_calendar "My History" "s1" NoFile =
       (NoFile, Returned (CalendarAgent.mkAgentResult true false
                            "No events found in your calendar history.")).
Proof.
  assert (Hplan : forall w, In w CalendarAgent.plan_phrases ->
                            ~ Substring w (lower "My History")).
  { intros w Hw. apply str_contains_false.
    repeat (destruct Hw as [<-|Hw]; [reflexivity|]). destruct Hw. }
  assert (Hin : In "history" CalendarLookups.history_phrases) by (simpl; auto).
  assert (Hsub : Substring "history" (lower "My History"))
    by (apply str_contains_spec; reflexivity).
  split; [exact Hplan|]. split; [exact Hin|]. split; [exact Hsub|].
  split; [reflexivity|].
  exact (calendar_history_without_events UtcClock.t sample_now
           UtcClock.replace_time sample_replace_day_time UtcClock.minus_days
           UtcClock.plus_timedelta UtcClock.weekday sample_monthrange
           (UtcClock.mk 0 0) sample_eqb sample_strftime no_date_found
           sample_format empty_utc_calendar sample_exc_str no_summary
           sample_openpyxl
           "My History" "s1" "history" NoFile (Some []) Hplan Hin Hsub eq_refl
           (or_intror eq_refl)).
Defined.

Lemma calendar_upcoming_without_events_witness :
  (forall w, In w calendar_keywords -> ~ Substring w (lower "Show my meetings"))
  /\ no_date_found "Show my meetings" = Returned None
  /\ empty_utc_calendar
       (CalendarAgent.mkEventsQuery UtcClock.t 10 sample_now None) =
       CalendarAgent.ApiItems (Some [])
  /\ sample_invoke empty_utc_calendar "Show my meetings" "s1" (Sheet []) =
       (Sheet [], Returned (CalendarAgent.mkAgentResult true false
                              "No upcoming events found.")).
Proof.
  assert (Hnone : forall w, In w calendar_keywords ->
                            ~ Substring w (lower "Show my meetings")).
  { intros w Hw. apply str_contains_false.
    repeat (destruct Hw as [<-|Hw]; [reflexivity|]). destruct Hw. }
  split; [exact Hnone|]. split; [reflexivity|]. split; [reflexivity|].
  exact (calendar_upcoming_without_events UtcClock.t sample_now
           UtcClock.replace_time sample_replace_day_time UtcClock.minus_days
           UtcClock.plus_timedelta UtcClock.weekday sample_monthrange
           (UtcClock.mk 0 0) sample_eqb sample_strftime no_date_found
           sample_format empty_utc_calendar sample_exc_str no_summary
           sample_openpyxl
           "Show my meetings" "s1" (Sheet []) (Some []) Hnone eq_refl eq_refl
           (or_intror eq_refl)).
Defined.

Lemma plan_my_day_event_without_start_witness :
  In "plan my day" CalendarAgent.plan_phrases
  /\ Substring "plan my day" (lower "Plan my day")
  /\ CalendarAgent._fetch_events UtcClock.t sample_now broken_calendar
       (Some (UtcClock.replace_time sample_now 0 0 0 0))
       (Some (UtcClock.replace_time sample_now 23 59 59 999999)) 50 =
       Returned (CalendarAgent.Events ([standup] ++ PyDict event_without_start :: []))
  /\ CalendarAgent.open_workbook sample_openpyxl NoFile =
       Returned [CalendarAgent.headers]
  /\ CalendarAgent.append_events sample_openpyxl [CalendarAgent.headers] [standup] =
       Returned [CalendarAgent.headers;
                 [PyStr "2024-10-04T09:00:00Z"; PyStr "Standup"; PyStr ""; PyStr ""]]
  /\ dict_get event_without_start "start" = None
  /\ sample_invoke broken_calendar "Plan my day" "s1" NoFile =
       (NoFile, Returned (CalendarAgent.mkAgentResult false true
                            ("An error occurred: " +:+ sample_exc_str (KeyError "start")))).
Proof.
  assert (Hin : In "plan my day" CalendarAgent.plan_phrases) by (simpl; auto).
  assert (Hsub : Substring "plan my day" (lower "Plan my day"))
    by (apply str_contains_spec; reflexivity).
  split; [exact Hin|]. split; [exact Hsub|]. split; [reflexivity|].
  split; [reflexivity|]. split; [reflexivity|]. split; [reflexivity|].
  exact (plan_my_day_event_without_start UtcClock.t sample_now
           UtcClock.replace_time sample_replace_day_time UtcClock.minus_days
           UtcClock.plus_timedelta UtcClock.weekday sample_monthrange
           (UtcClock.mk 0 0) sample_eqb sample_strftime no_date_found
           sample_format broken_calendar sample_exc_str no_summary
           sample_openpyxl
           "Plan my day" "s1" "plan my day" NoFile [standup] []
           [CalendarAgent.headers] _ event_without_start
           Hin Hsub eq_refl eq_refl eq_refl eq_refl).
Defined.

Lemma this_week_is_monday_to_sunday_witness :
  ~ Substring "last week" (lower "Meetings this week")
  /\ ~ Substring "previous week" (lower "Meetings this week")
  /\ (Substring "this week" (lower "Meetings this week")
      \/ Substring "current week" (lower "Meetings this week"))
  /\ exists monday sunday,
       sample_date_range "Meetings this week" = (Some monday, Some sunday)
       /\ UtcClock.weekday monday = 0%Z
       /\ UtcClock.micro monday = 0%Z
       /\ (UtcClock.day monday <= UtcClock.day sample_now
           <= UtcClock.day monday + 6)%Z
       /\ sunday = UtcClock.mk (UtcClock.day monday + 6) 86399999999
       /\ UtcClock.weekday sunday = 6%Z.
Proof.
  assert (H1 : ~ Substring "last week" (lower "Meetings this week"))
    by (apply str_contains_false; reflexivity).
  assert (H2 : ~ Substring "previous week" (lower "Meetings this week"))
    by (apply str_contains_false; reflexivity).
  assert (H3 : Substring "this week" (lower "Meetings this week")
               \/ Substring "current week" (lower "Meetings this week"))
    by (left; apply str_contains_spec; reflexivity).
  split; [exact H1|]. split; [exact H2|]. split; [exact H3|].
  exact (this_week_is_monday_to_sunday sample_now sample_replace_day_time
           sample_monthrange "Meetings this week" H1 H2 H3).
Defined.

Lemma last_week_precedes_this_week_witness :
  (Substring "last week" (lower "Last week vs this week")
   \/ Substring "previous week" (lower "Last week vs this week"))
  /\ exists last_monday last_sunday,
       sample_date_range "Last week vs this week" =
         (Some last_monday, Some last_sunday)
       /\ UtcClock.weekday last_monday = 0%Z
       /\ UtcClock.micro last_monday = 0%Z
       /\ (UtcClock.day last_monday + 7)%Z =
            UtcClock.day
              (UtcClock.replace_time
                 (UtcClock.minus_days sample_now (UtcClock.weekday sample_now))
                 0 0 0 0)
       /\ last_sunday = UtcClock.mk (UtcClock.day last_monday + 6) 86399999999
       /\ UtcClock.plus_timedelta last_sunday 0 0 0 0 1 =
            UtcClock.replace_time
              (UtcClock.minus_days sample_now (UtcClock.weekday sample_now))
              0 0 0 0.
Proof.
  assert (H : Substring "last week" (lower "Last week vs this week")
              \/ Substring "previous week" (lower "Last week vs this week"))
    by (left; apply str_contains_spec; reflexivity).
  split; [exact H|].
  exact (last_week_precedes_this_week sample_now sample_replace_day_time
           sample_monthrange "Last week vs this week" H).
Defined.

(** ** The calendar agent's summaries *)

Section Summaries.

Variable py_format : PyVal -> string.

(** The line of a bare event. *)
Lemma event_lines_bare (event : PyMapping) :
  bare_event event = true ->
  CalendarLookups.event_lines py_format (PyDict event) =
    Returned [py_format (start_value event) +:+ ": "
              +:+ py_format (title_value event)].
Proof.
  unfold bare_event, start_value, title_value, CalendarLookups.event_lines.
  intros H. apply andb_true_iff in H as [H Hconf].
  apply andb_true_iff in H as [Hstart Hatt].
  simpl. unfold dict_getitem.
  destruct (dict_get event "start") as [[| | | | |start]|]; try discriminate.
  simpl.
  destruct (dict_get event "attachments") as [[| | | |[|]|]|];
    try discriminate; simpl;
    (destruct (dict_get event "conferenceData") as [[| | | | |conference]|];
     try discriminate; simpl;
     [destruct (dict_get conference "entryPoints") as [[| | | |[|]|]|];
      try discriminate; reflexivity
     |reflexivity]).
Qed.

Lemma event_lines_bare_all (events : list PyMapping) :
  forallb bare_event events = true ->
  map_outcome (CalendarLookups.event_lines py_format) (map PyDict events) =
    Returned (map (fun event =>
                     [py_format (start_value event) +:+ ": "
                      +:+ py_format (title_value event)]) events).
Proof.
  induction events as [|event rest IH]; [reflexivity|].
  cbn [forallb map map_outcome]. intros H.
  apply andb_true_iff in H as [Hevent Hrest].
  rewrite (event_lines_bare event Hevent), (IH Hrest). reflexivity.
Qed.

Lemma concat_singletons {A} (l : list A) : concat (map (fun x => [x]) l) = l.
Proof. induction l as [|x l IH]; simpl; [reflexivity | rewrite IH; reflexivity]. Qed.

(** Events without attachments and without conference entry points are
    summarised one per line, in the order given, under the heading "Here
    are your events:", whatever else the events hold: each line is the
    event's start ([start.dateTime], else [start.date], else [None]) as an
    f-string prints it, a colon and the event's title, "(No Title)" when
    it has none. *)
Theorem summary_lists_every_event (events : list PyMapping) :
  forallb bare_event events = true ->
  CalendarLookups._summarize_events py_format (map PyDict events) =
    Returned ("Here are your events:" +:+ newline
              +:+ join newline
                    (map (fun event =>
                            py_format (start_value event) +:+ ": "
                            +:+ py_format (title_value event)) events)).
Proof.
  intros H. unfold CalendarLookups._summarize_events.
  rewrite (event_lines_bare_all events H). simpl.
  rewrite <- (map_map (fun event =>
                         py_format (start_value event) +:+ ": "
                         +:+ py_format (title_value event)) (fun x => [x])).
  rewrite concat_singletons. reflexivity.
Qed.

End Summaries.

(** ** A single day without events *)

Section SingleDay.

Variable now : UtcClock.t.
Variable replace_day_time : UtcClock.t -> Z -> Z -> Z -> Z -> Z -> UtcClock.t.
Variable monthrange_last : UtcClock.t -> Z.
Variable epoch : UtcClock.t.
Variable strftime_date : UtcClock.t -> string.
Variable dateparser_parse : string -> Outcome (option UtcClock.t).
Variable py_format : PyVal -> string.
Variable events_list_execute :
  CalendarAgent.EventsQuery UtcClock.t -> CalendarAgent.ApiReply.
Variable exc_str : PyExc -> string.
Variable day_summary : list PyVal -> Outcome string.
Variable xl : CalendarAgent.Openpyxl.

(** A day found by [dateparser] is looked up from its midnight to its last
    microsecond, at most 10 events.  When the lower-cased query
    ([str.lower], which also turns the Kelvin sign into k) has none of
    the words [invoke] looks for, [dateparser] finds a UTC date in it and
    there is no event, the answer names both ends, "No events found from
    <day> to <day>": the two ends of a day are never equal, so the answer
    for one date, "No events found for <day>", is not the one given. *)
Theorem calendar_single_day_without_events
    (query sessionId : string) (disk : CalendarAgent.Disk xl)
    (parsed : UtcClock.t) (items : option (list PyVal)) :
  (forall w, In w calendar_keywords -> ~ Substring w (lower query)) ->
  dateparser_parse query = Returned (Some parsed) ->
  events_list_execute
    (CalendarAgent.mkEventsQuery UtcClock.t 10
       (UtcClock.replace_time parsed 0 0 0 0)
       (Some (UtcClock.replace_time parsed 23 59 59 999999))) =
    CalendarAgent.ApiItems items ->
  items = None \/ items = Some [] ->
  CalendarLookups.invoke UtcClock.t now UtcClock.replace_time replace_day_time
    UtcClock.minus_days UtcClock.plus_timedelta UtcClock.weekday monthrange_last
    epoch utc_eqb strftime_date dateparser_parse py_format events_list_execute
    exc_str day_summary xl query sessionId disk =
    (disk, Returned (CalendarAgent.mkAgentResult true false
                       ("No events found from "
                        +:+ strftime_date (UtcClock.replace_time parsed 0 0 0 0)
                        +:+ " to "
                        +:+ strftime_date
                              (UtcClock.replace_time parsed 23 59 59 999999)))).
Proof.
  intros Hnone Hparse Hapi Hitems.
  unfold CalendarLookups.invoke, CalendarAgent.invoke, try_except.
  rewrite no_phrase_of
    by (intros w Hw; apply Hnone; unfold calendar_keywords;
        apply in_or_app; left; exact Hw).
  unfold CalendarLookups.lookup_events, bind, lift,
    CalendarLookups.fetch_for_query.
  rewrite no_phrase_of
    by (intros w Hw; apply Hnone; unfold calendar_keywords;
        apply in_or_app; right; apply in_or_app; left; exact Hw).
  unfold CalendarLookups._get_date_range_from_query.
  rewrite !(not_a_keyword _ query Hnone) by (vm_compute; tauto).
  simpl. rewrite Hparse. simpl.
  unfold CalendarLookups.fetch, CalendarAgent._fetch_events.
  rewrite Hapi.
  assert (Hne : utc_eqb (UtcClock.replace_time parsed 0 0 0 0)
                  (UtcClock.replace_time parsed 23 59 59 999999) = false).
  { unfold utc_eqb, UtcClock.replace_time. simpl.
    rewrite Z.eqb_refl. reflexivity. }
  destruct Hitems as [-> | ->]; simpl;
    unfold CalendarLookups.no_events_message; simpl; rewrite Hne; reflexivity.
Qed.

End SingleDay.

Lemma calendar_single_day_without_events_witness :
  (forall w, In w calendar_keywords -> ~ Substring w (lower "Friday the 4th"))
  /\ found_date "Friday the 4th" = Returned (Some sample_now)
  /\ empty_utc_calendar
       (CalendarAgent.mkEventsQuery UtcClock.t 10
          (UtcClock.replace_time sample_now 0 0 0 0)
          (Some (UtcClock.replace_time sample_now 23 59 59 999999))) =
       CalendarAgent.ApiItems (Some [])
  /\ CalendarLookups.invoke UtcClock.t sample_now UtcClock.replace_time
       sample_replace_day_time UtcClock.minus_days UtcClock.plus_timedelta
       UtcClock.weekday sample_monthrange (UtcClock.mk 0 0) utc_eqb
       sample_strftime found_date sample_format empty_utc_calendar
       sample_exc_str no_summary sample_openpyxl "Friday the 4th" "s1" NoFile =
       (NoFile, Returned (CalendarAgent.mkAgentResult true false
                            ("No events found from "
                             +:+ sample_strftime (UtcClock.replace_time sample_now 0 0 0 0)
                             +:+ " to "
                             +:+ sample_strftime
                                   (UtcClock.replace_time sample_now 23 59 59 999999)))).
Proof.
  assert (Hnone : forall w, In w calendar_keywords ->
                            ~ Substring w (lower "Friday the 4th")).
  { intros w Hw. apply str_contains_false.
    repeat (destruct Hw as [<-|Hw]; [reflexivity|]). destruct Hw. }
  split; [exact Hnone|]. split; [reflexivity|]. split; [reflexivity|].
  exact (calendar_single_day_without_events sample_now sample_replace_day_time
           sample_monthrange (UtcClock.mk 0 0) sample_strftime found_date
           sample_format empty_utc_calendar sample_exc_str no_summary
           sample_openpyxl
           "Friday the 4th" "s1" NoFile sample_now (Some []) Hnone eq_refl eq_refl
           (or_intror eq_refl)).
Defined.

Lemma summary_lists_every_event_witness :
  forallb bare_event [standup_event; day_off_event] = true
  /\ CalendarLookups._summarize_events sample_format
       (map PyDict [standup_event; day_off_event]) =
       Returned ("Here are your events:" +:+ newline
                 +:+ join newline
                       (map (fun event =>
                               sample_format (start_value event) +:+ ": "
                               +:+ sample_format (title_value event))
                          [standup_event; day_off_event])).
Proof.
  split; [reflexivity|].
  exact (summary_lists_every_event sample_format [standup_event; day_off_event]
           eq_refl).
Defined.
